(** * Streak bot: the streak store, the reward resolver and the inactivity sweeper

    A shallow embedding of [streak_manager.py] (class [StreakManager]) and of
    the parts of [bot.py] that decide on roles ([on_message],
    [cleanup_inactive_roles], [add_role]), followed by the properties of the
    streak state engine.

    Modelling conventions.
    - The JSON document is typed as the module docstring of
      [streak_manager.py] lays it out: a guild record has its three keys, a
      user record has an integer ["streak"] and a ["last_date"] that is a
      string or [None].
    - Python dictionaries keep insertion order; they are association lists
      whose operations update in place or append ([Dict]).
    - Python integers are unbounded: [Z].  Strings are ASCII.
    - Every method runs under the [asyncio.Lock] of the manager; a method is
      one atomic state transformer [StreakManager -> StreakManager * result].
    - [datetime.date] is the triple (year, month, day) with the ordinal
      arithmetic of the standard library. *)

From Stdlib Require Import ZArith List String Ascii Bool Lia.
From Stdlib Require Import Permutation Sorted.
From Stdlib Require Import DecimalString DecimalZ DecimalPos.
Import ListNotations.

Local Open Scope string_scope.
Local Open Scope list_scope.
Local Open Scope Z_scope.

(* ================================================================== *)
(** ** Python built-ins used by the sources *)
(* ================================================================== *)

(** [str(n)] for an integer [n]: decimal digits, a leading minus sign for
    negative numbers. *)
Definition py_str (n : Z) : string := NilZero.string_of_int (Z.to_int n).

(** [int(s)] for a string [s]: an optional minus sign followed by decimal
    digits; [None] stands for [ValueError].  (Python also accepts a plus
    sign, surrounding blanks and digit-group underscores; no identifier the
    bot builds has them.) *)
Definition py_int (s : string) : option Z :=
  option_map Z.of_int (NilZero.int_of_string s).

Definition is_digit_char (c : ascii) : bool :=
  let n := nat_of_ascii c in (48 <=? n)%nat && (n <=? 57)%nat.

Fixpoint all_digits (s : string) : bool :=
  match s with
  | EmptyString => true
  | String c r => is_digit_char c && all_digits r
  end.

(** [s.isdigit()]: non-empty and made of digits only. *)
Definition isdigit (s : string) : bool :=
  match s with
  | EmptyString => false
  | _ => all_digits s
  end.

(** Truth value of an optional string, as in [if last_date:]. *)
Definition truthy (o : option string) : bool :=
  match o with
  | None => false
  | Some EmptyString => false
  | Some _ => true
  end.

(** [a == b] where [a] may be [None] and [b] is a string. *)
Definition eq_opt_str (a : option string) (b : string) : bool :=
  match a with
  | None => false
  | Some x => String.eqb x b
  end.

(* ================================================================== *)
(** ** Insertion-ordered dictionaries with string keys *)
(* ================================================================== *)

Module Dict.
Section Ops.
Context {V : Type}.

Definition t := list (string * V).

(** [d.get(k)] *)
Fixpoint get (d : t) (k : string) : option V :=
  match d with
  | [] => None
  | (k', v) :: r => if String.eqb k' k then Some v else get r k
  end.

(** [d[k] = v]: an existing key keeps its position. *)
Fixpoint set (d : t) (k : string) (v : V) : t :=
  match d with
  | [] => [(k, v)]
  | (k', v') :: r =>
      if String.eqb k' k then (k', v) :: r else (k', v') :: set r k v
  end.

(** [d.pop(k, None)] *)
Fixpoint pop (d : t) (k : string) : t :=
  match d with
  | [] => []
  | (k', v') :: r => if String.eqb k' k then r else (k', v') :: pop r k
  end.

(** [d.setdefault(k, v)]: the dictionary afterwards and the value bound
    to [k] in it. *)
Definition setdefault (d : t) (k : string) (v : V) : t * V :=
  match get d k with
  | Some v' => (d, v')
  | None => (set d k v, v)
  end.

(** [list(d.keys())] *)
Definition keys (d : t) : list string := map fst d.
End Ops.
Arguments t : clear implicits.
End Dict.

(** Dictionaries with integer keys, as [get_role_rewards] returns. *)
Module IntDict.
Section Ops.
Context {V : Type}.

Definition t := list (Z * V).

Fixpoint set (d : t) (k : Z) (v : V) : t :=
  match d with
  | [] => [(k, v)]
  | (k', v') :: r =>
      if Z.eqb k' k then (k', v) :: r else (k', v') :: set r k v
  end.
End Ops.
Arguments t : clear implicits.
End IntDict.

(* ================================================================== *)
(** ** [datetime.date] *)
(* ================================================================== *)

Record date := mkdate { year : Z; month : Z; day : Z }.

Definition date_eqb (a b : date) : bool :=
  (year a =? year b) && (month a =? month b) && (day a =? day b).

Definition _is_leap (y : Z) : bool :=
  (y mod 4 =? 0) && (negb (y mod 100 =? 0) || (y mod 400 =? 0)).

Definition _days_before_year (y : Z) : Z :=
  let y := y - 1 in y * 365 + y / 4 - y / 100 + y / 400.

Definition _DAYS_IN_MONTH : list Z :=
  [-1; 31; 28; 31; 30; 31; 30; 31; 31; 30; 31; 30; 31].

Definition _DAYS_BEFORE_MONTH : list Z :=
  [-1; 0; 31; 59; 90; 120; 151; 181; 212; 243; 273; 304; 334].

Definition _days_in_month (y m : Z) : Z :=
  if (m =? 2) && _is_leap y then 29 else nth (Z.to_nat m) _DAYS_IN_MONTH 0.

Definition _days_before_month (y m : Z) : Z :=
  nth (Z.to_nat m) _DAYS_BEFORE_MONTH 0
  + (if (2 <? m) && _is_leap y then 1 else 0).

Definition _ymd2ord (y m d : Z) : Z :=
  _days_before_year y + _days_before_month y m + d.

Definition toordinal (d : date) : Z := _ymd2ord (year d) (month d) (day d).

(** The checks of the [date] constructor ([MINYEAR] is 1, [MAXYEAR] 9999). *)
Definition valid_date (d : date) : bool :=
  (1 <=? year d) && (year d <=? 9999)
  && (1 <=? month d) && (month d <=? 12)
  && (1 <=? day d) && (day d <=? _days_in_month (year d) (month d)).

Definition digit_char (n : Z) : ascii := ascii_of_nat (48 + Z.to_nat n).

Definition char_digit (c : ascii) : option Z :=
  if is_digit_char c then Some (Z.of_nat (nat_of_ascii c) - 48) else None.

Definition fmt02 (n : Z) : string :=
  String (digit_char (n / 10 mod 10)) (String (digit_char (n mod 10)) "").

Definition fmt04 (n : Z) : string :=
  String (digit_char (n / 1000 mod 10))
    (String (digit_char (n / 100 mod 10)) (fmt02 n)).

(** [d.isoformat()], that is ["%04d-%02d-%02d" % (year, month, day)]. *)
Definition isoformat (d : date) : string :=
  fmt04 (year d) ++ "-" ++ fmt02 (month d) ++ "-" ++ fmt02 (day d).

(** [date.fromisoformat] is a function of the Python standard library; the
    store and the sweeper call it and treat any exception as "no date".
    [None] stands for the exception. *)
Class DateParser := fromisoformat : string -> option date.

Definition parse_digits (cs : list ascii) : option Z :=
  fold_left
    (fun acc c =>
       match acc, char_digit c with
       | Some a, Some d => Some (10 * a + d)
       | _, _ => None
       end)
    cs (Some 0).

(** The parser of CPython for the form [YYYY-MM-DD]: exactly ten characters,
    digits around two hyphens, then the range checks of the constructor. *)
Definition fromisoformat_ymd (s : string) : option date :=
  match list_ascii_of_string s with
  | [y1; y2; y3; y4; h1; m1; m2; h2; d1; d2] =>
      if Ascii.eqb h1 "-" && Ascii.eqb h2 "-" then
        match parse_digits [y1; y2; y3; y4],
              parse_digits [m1; m2],
              parse_digits [d1; d2] with
        | Some y, Some m, Some d =>
            let r := mkdate y m d in
            if valid_date r then Some r else None
        | _, _, _ => None
        end
      else None
  | _ => None
  end.

#[export] Instance ymd_parser : DateParser := fromisoformat_ymd.

(* ================================================================== *)
(** ** The document and the manager ([streak_manager.py]) *)
(* ================================================================== *)

(** ["users"][user_id] *)
Record User := mkUser {
  streak : Z;
  last_date : option string
}.

(** ["guilds"][guild_id] *)
Record Guild := mkGuild {
  streak_channel_id : option string;
  users : Dict.t User;
  role_rewards : Dict.t string
}.

(** The dictionary [self._data]: [None] when it has no ["guilds"] key (as
    [__init__] leaves it), else the value of that key. *)
Definition Data := option (Dict.t Guild).

(** [StreakManager]: the document in memory and the one in the file at
    [file_path] ([None]: no file yet). *)
Record StreakManager := mkManager {
  _data : Data;
  file : option Data
}.

(** [StreakManager(file_path)] when the file holds [contents]. *)
Definition __init__ (contents : option Data) : StreakManager :=
  {| _data := None; file := contents |}.

(** [load_data], for the two cases the statements below use: no file, and
    a file that [_save_data] wrote (a JSON object, with or without the key
    ["guilds"]).  Other contents of the file (text that is not JSON, JSON
    that is not an object) have no value of [file] and are outside this
    model. *)
Definition load_data (s : StreakManager) : StreakManager :=
  match file s with
  | None => {| _data := Some []; file := file s |}
  | Some None => {| _data := Some []; file := file s |}
  | Some (Some gs) => {| _data := Some gs; file := file s |}
  end.

(** [_save_data]: the whole document replaces the file. *)
Definition _save_data (s : StreakManager) : StreakManager :=
  {| _data := _data s; file := Some (_data s) |}.

(** [self._data.get("guilds", {})] *)
Definition guilds_of (s : StreakManager) : Dict.t Guild :=
  match _data s with
  | Some gs => gs
  | None => []
  end.

Definition new_guild : Guild :=
  {| streak_channel_id := None; users := []; role_rewards := [] |}.

Definition ensure_guild (s : StreakManager) (guild_id : string)
  : StreakManager :=
  let gs := guilds_of s in
  match Dict.get gs guild_id with
  | Some _ => {| _data := Some gs; file := file s |}
  | None => {| _data := Some (Dict.set gs guild_id new_guild); file := file s |}
  end.

(** [self._data["guilds"][guild_id]].  Every method reads it right after
    [ensure_guild], when the key is bound; the default is never reached
    there. *)
Definition guild_data_of (s : StreakManager) (guild_id : string) : Guild :=
  match Dict.get (guilds_of s) guild_id with
  | Some g => g
  | None => new_guild
  end.

(** The effect on the manager of mutating the guild record in place. *)
Definition put_guild (s : StreakManager) (guild_id : string) (g : Guild)
  : StreakManager :=
  {| _data := Some (Dict.set (guilds_of s) guild_id g); file := file s |}.

Definition with_channel (g : Guild) (c : option string) : Guild :=
  {| streak_channel_id := c; users := users g; role_rewards := role_rewards g |}.

Definition with_users (g : Guild) (us : Dict.t User) : Guild :=
  {| streak_channel_id := streak_channel_id g; users := us;
     role_rewards := role_rewards g |}.

Definition with_rewards (g : Guild) (rs : Dict.t string) : Guild :=
  {| streak_channel_id := streak_channel_id g; users := users g;
     role_rewards := rs |}.

Definition set_streak_channel (s : StreakManager) (guild_id channel_id : string)
  : StreakManager :=
  let s := ensure_guild s guild_id in
  let s := put_guild s guild_id
             (with_channel (guild_data_of s guild_id) (Some channel_id)) in
  _save_data s.

Definition unset_streak_channel (s : StreakManager) (guild_id : string)
  : StreakManager :=
  let s := ensure_guild s guild_id in
  let s := put_guild s guild_id (with_channel (guild_data_of s guild_id) None) in
  _save_data s.

Definition get_streak_channel (s : StreakManager) (guild_id : string)
  : StreakManager * option string :=
  let s := ensure_guild s guild_id in
  (s, streak_channel_id (guild_data_of s guild_id)).

Section RecordStreak.
Context {P : DateParser}.

(** [(curr - last).days] inside the [try]; [None] when either string does
    not parse. *)
Definition days_between (last_date current_date : string) : option Z :=
  match fromisoformat last_date, fromisoformat current_date with
  | Some last, Some curr => Some (toordinal curr - toordinal last)
  | _, _ => None
  end.

(** The branch of [record_streak] that decides the streak: the record of
    the user after the call, from the record before it. *)
Definition updated_user (user_data : User) (current_date : string) : User :=
  let last := last_date user_data in
  if eq_opt_str last current_date then user_data
  else
    let streak' :=
      if truthy last then
        match last with
        | Some l =>
            match days_between l current_date with
            | Some diff => if diff =? 1 then streak user_data + 1 else 1
            | None => 1
            end
        | None => 1
        end
      else 1 in
    {| streak := streak'; last_date := Some current_date |}.

Definition record_streak (s : StreakManager)
  (guild_id user_id current_date : string) : StreakManager * Z :=
  let s := ensure_guild s guild_id in
  let guild_data := guild_data_of s guild_id in
  let '(users1, user_data) :=
    Dict.setdefault (users guild_data) user_id
      {| streak := 0; last_date := None |} in
  let user_data := updated_user user_data current_date in
  let users2 := Dict.set users1 user_id user_data in
  let s := put_guild s guild_id (with_users guild_data users2) in
  let s := _save_data s in
  (s, streak user_data).

End RecordStreak.

Definition remove_user_streak (s : StreakManager) (guild_id user_id : string)
  : StreakManager :=
  let s := ensure_guild s guild_id in
  let guild_data := guild_data_of s guild_id in
  let us := users guild_data in
  let us :=
    match Dict.get us user_id with
    | Some _ => Dict.set us user_id {| streak := 0; last_date := None |}
    | None => us
    end in
  let s := put_guild s guild_id (with_users guild_data us) in
  _save_data s.

Definition set_role_reward (s : StreakManager) (guild_id : string) (days : Z)
  (role_id : string) : StreakManager :=
  let s := ensure_guild s guild_id in
  let guild_data := guild_data_of s guild_id in
  let rewards := Dict.set (role_rewards guild_data) (py_str days) role_id in
  let s := put_guild s guild_id (with_rewards guild_data rewards) in
  _save_data s.

Definition remove_role_reward (s : StreakManager) (guild_id : string) (days : Z)
  : StreakManager :=
  let s := ensure_guild s guild_id in
  let guild_data := guild_data_of s guild_id in
  let rewards := Dict.pop (role_rewards guild_data) (py_str days) in
  let s := put_guild s guild_id (with_rewards guild_data rewards) in
  _save_data s.

(** The comprehension [{int(k): str(v) for k, v in rewards.items() if
    k.isdigit()}], left to right; [int] cannot fail on a string of
    digits. *)
Fixpoint int_keys (items : Dict.t string) (acc : IntDict.t string)
  : IntDict.t string :=
  match items with
  | [] => acc
  | (k, v) :: r =>
      if isdigit k then
        match py_int k with
        | Some n => int_keys r (IntDict.set acc n v)
        | None => int_keys r acc
        end
      else int_keys r acc
  end.

Definition get_role_rewards (s : StreakManager) (guild_id : string)
  : StreakManager * IntDict.t string :=
  let s := ensure_guild s guild_id in
  (s, int_keys (role_rewards (guild_data_of s guild_id)) []).

Definition get_user_streak (s : StreakManager) (guild_id user_id : string)
  : StreakManager * Z :=
  let s := ensure_guild s guild_id in
  match Dict.get (users (guild_data_of s guild_id)) user_id with
  | Some user_data => (s, streak user_data)
  | None => (s, 0)
  end.

(** [leaderboard.sort(key=lambda x: x[1], reverse=True)]: the sort of Python
    is stable, also with [reverse=True], so entries with equal streaks keep
    their order.  An entry goes past the entries with a greater streak and
    stops in front of the first one that has not. *)
Fixpoint insert_desc (x : string * Z) (l : list (string * Z))
  : list (string * Z) :=
  match l with
  | [] => [x]
  | y :: r => if snd x <? snd y then y :: insert_desc x r else x :: y :: r
  end.

Fixpoint sort_desc (l : list (string * Z)) : list (string * Z) :=
  match l with
  | [] => []
  | x :: r => insert_desc x (sort_desc r)
  end.

(** The comprehension of [get_leaderboard], before the sort. *)
Fixpoint positive_streaks (us : Dict.t User) : list (string * Z) :=
  match us with
  | [] => []
  | (user_id, data) :: r =>
      if 0 <? streak data then (user_id, streak data) :: positive_streaks r
      else positive_streaks r
  end.

Definition get_leaderboard (s : StreakManager) (guild_id : string)
  : StreakManager * list (string * Z) :=
  let s := ensure_guild s guild_id in
  let leaderboard := positive_streaks (users (guild_data_of s guild_id)) in
  (s, sort_desc leaderboard).

(* ================================================================== *)
(** ** The chat platform as the bot sees it ([bot.py]) *)
(* ================================================================== *)

(** A guild of the platform: its id, the ids of the roles that exist in it,
    and its members with the roles each one holds.  A role object is
    identified by its id, as the platform compares roles. *)
Record DiscordGuild := mkDiscordGuild {
  guild_id_of : Z;
  guild_roles : list Z;
  guild_members : list (Z * list Z)
}.

Definition mem (x : Z) (l : list Z) : bool := existsb (Z.eqb x) l.

(** [guild.get_role(role_id)] *)
Definition get_role (g : DiscordGuild) (role_id : Z) : option Z :=
  if mem role_id (guild_roles g) then Some role_id else None.

(** [guild.get_member(user_id)]: the roles of the member, [None] when the
    user is not a member. *)
Fixpoint lookup_member (ms : list (Z * list Z)) (user_id : Z)
  : option (list Z) :=
  match ms with
  | [] => None
  | (u, rs) :: r => if u =? user_id then Some rs else lookup_member r user_id
  end.

Definition get_member (g : DiscordGuild) (user_id : Z) : option (list Z) :=
  lookup_member (guild_members g) user_id.

(** [bot.get_guild(guild_id)] over the guilds the bot is in. *)
Fixpoint get_guild (guilds : list DiscordGuild) (guild_id : Z)
  : option DiscordGuild :=
  match guilds with
  | [] => None
  | g :: r => if guild_id_of g =? guild_id then Some g else get_guild r guild_id
  end.

(** *** Reward resolver: the [try] block of [on_message] *)

(** The loop over [rewards.items()].  [None]: [int(role_id)] raised. *)
Fixpoint roles_to_add_from (guild : DiscordGuild) (member_roles : list Z)
  (streak_count : Z) (items : IntDict.t string) (roles_to_add : list Z)
  : option (list Z) :=
  match items with
  | [] => Some roles_to_add
  | (days_threshold, role_id) :: rest =>
      if days_threshold <=? streak_count then
        match py_int role_id with
        | None => None
        | Some rid =>
            match get_role guild rid with
            | Some role =>
                if negb (mem role member_roles)
                then roles_to_add_from guild member_roles streak_count rest
                       (roles_to_add ++ [role])
                else roles_to_add_from guild member_roles streak_count rest
                       roles_to_add
            | None =>
                roles_to_add_from guild member_roles streak_count rest
                  roles_to_add
            end
        end
      else roles_to_add_from guild member_roles streak_count rest roles_to_add
  end.

(** The roles the block computes for [member.add_roles]; [None] when an
    exception reached the [except] clause (it is printed, and no role is
    added). *)
Definition roles_to_add (guild : DiscordGuild) (rewards : IntDict.t string)
  (user_id : string) (streak_count : Z) : option (list Z) :=
  match rewards with
  | [] => Some []
  | _ =>
      match py_int user_id with
      | None => None
      | Some uid =>
          match get_member guild uid with
          | None => Some []
          | Some member_roles =>
              roles_to_add_from guild member_roles streak_count rewards []
          end
      end
  end.

(** The roles granted: those handed to [member.add_roles]. *)
Definition granted (r : option (list Z)) : list Z :=
  match r with
  | Some roles => roles
  | None => []
  end.

(** *** [on_message] *)

Record Message := mkMessage {
  author_bot : bool;
  author_id : Z;
  guild : option DiscordGuild;
  channel_id : Z;
  content : string
}.

Definition is_space (c : ascii) : bool :=
  let n := nat_of_ascii c in
  ((9 <=? n) && (n <=? 13) || (28 <=? n) && (n <=? 32))%nat.

Fixpoint lstrip (s : string) : string :=
  match s with
  | EmptyString => EmptyString
  | String c r => if is_space c then lstrip r else s
  end.

Definition lower_char (c : ascii) : ascii :=
  let n := nat_of_ascii c in
  if ((65 <=? n) && (n <=? 90))%nat then ascii_of_nat (n + 32) else c.

Fixpoint lower (s : string) : string :=
  match s with
  | EmptyString => EmptyString
  | String c r => String (lower_char c) (lower r)
  end.

Definition startswith (s p : string) : bool := String.prefix p s.

Section OnMessage.
Context {P : DateParser}.

(** The handler, for the date [today] that the clock gives: the manager
    afterwards and the roles granted to the author.  The commands that
    [bot.process_commands] runs first are events of their own ([Event]
    below); a message that starts with the tag is not one of them. *)
Definition on_message (s : StreakManager) (today : date) (message : Message)
  : StreakManager * list Z :=
  if author_bot message then (s, [])
  else
    match guild message with
    | None => (s, [])
    | Some g =>
        let guild_id := py_str (guild_id_of g) in
        let '(s, channel) := get_streak_channel s guild_id in
        match channel with
        | None => (s, [])
        | Some c =>
            if negb (String.eqb (py_str (channel_id message)) c) then (s, [])
            else if negb (startswith (lower (lstrip (content message)))
                            "streak:") then (s, [])
            else
              let today := isoformat today in
              let user_id := py_str (author_id message) in
              let '(s, streak_count) :=
                record_streak s guild_id user_id today in
              let '(s, rewards) := get_role_rewards s guild_id in
              (s, granted (roles_to_add g rewards user_id streak_count))
        end
    end.

(** *** Inactivity sweeper: [cleanup_inactive_roles] *)

(** The tests of the loop over users that lead to [if diff > 7] and pass
    it. *)
Definition inactive (now : date) (data : User) : bool :=
  let last := last_date data in
  if negb (truthy last) then false
  else
    match last with
    | None => false
    | Some l =>
        match fromisoformat l with
        | Some d => 7 <? toordinal now - toordinal d
        | None => false
        end
    end.

(** [[guild_obj.get_role(rid) for rid in role_ids
      if guild_obj.get_role(rid) in member.roles]] *)
Fixpoint roles_to_remove (guild_obj : DiscordGuild) (role_ids : list Z)
  (member_roles : list Z) : list Z :=
  match role_ids with
  | [] => []
  | rid :: r =>
      match get_role guild_obj rid with
      | Some role =>
          if mem role member_roles
          then role :: roles_to_remove guild_obj r member_roles
          else roles_to_remove guild_obj r member_roles
      | None => roles_to_remove guild_obj r member_roles
      end
  end.

(** One turn of the loop over users: the calls of [member.remove_roles] it
    makes, as (member id, roles).  [None]: [int(user_id)] raised, which
    nothing in the task catches. *)
Definition sweep_user (now : date) (guild_obj : DiscordGuild)
  (role_ids : list Z) (user_id : string) (data : User)
  : option (list (Z * list Z)) :=
  if inactive now data then
    match py_int user_id with
    | None => None
    | Some uid =>
        match get_member guild_obj uid with
        | None => Some []
        | Some member_roles =>
            match roles_to_remove guild_obj role_ids member_roles with
            | [] => Some []
            | roles => Some [(uid, roles)]
            end
        end
    end
  else Some [].

Fixpoint sweep_users (now : date) (guild_obj : DiscordGuild)
  (role_ids : list Z) (users_data : Dict.t User)
  : option (list (Z * list Z)) :=
  match users_data with
  | [] => Some []
  | (user_id, data) :: r =>
      match sweep_user now guild_obj role_ids user_id data with
      | None => None
      | Some calls =>
          match sweep_users now guild_obj role_ids r with
          | None => None
          | Some more => Some (calls ++ more)
          end
      end
  end.

(** [[int(role_id) for role_id in rewards.values()]] *)
Fixpoint int_all (l : list string) : option (list Z) :=
  match l with
  | [] => Some []
  | x :: r =>
      match py_int x, int_all r with
      | Some n, Some ns => Some (n :: ns)
      | _, _ => None
      end
  end.

(** One turn of the loop over guild ids.  [None]: an [int] conversion
    raised and ended the task. *)
Definition sweep_guild (now : date) (guilds : list DiscordGuild)
  (s : StreakManager) (guild_id : string)
  : StreakManager * option (list (Z * list Z)) :=
  match py_int guild_id with
  | None => (s, None)
  | Some gid =>
      match get_guild guilds gid with
      | None => (s, Some [])
      | Some guild_obj =>
          let '(s, rewards) := get_role_rewards s guild_id in
          match rewards with
          | [] => (s, Some [])
          | _ =>
              match int_all (map snd rewards) with
              | None => (s, None)
              | Some role_ids =>
                  let users_data := users (guild_data_of s guild_id) in
                  (s, sweep_users now guild_obj role_ids users_data)
              end
          end
      end
  end.

Fixpoint sweep_guilds (now : date) (guilds : list DiscordGuild)
  (s : StreakManager) (guild_ids : list string)
  : StreakManager * option (list (Z * list Z)) :=
  match guild_ids with
  | [] => (s, Some [])
  | guild_id :: r =>
      match sweep_guild now guilds s guild_id with
      | (s, None) => (s, None)
      | (s, Some calls) =>
          match sweep_guilds now guilds s r with
          | (s, None) => (s, None)
          | (s, Some more) => (s, Some (calls ++ more))
          end
      end
  end.

Definition cleanup_inactive_roles (now : date) (guilds : list DiscordGuild)
  (s : StreakManager) : StreakManager * option (list (Z * list Z)) :=
  sweep_guilds now guilds s (Dict.keys (guilds_of s)).

(** *** The commands *)

(** What reaches the manager: a command whose checks passed, a message, a
    run of the sweeper. *)
Inductive Event :=
| CmdSet (guild_id channel : Z)
| CmdUnset (guild_id : Z)
| CmdStreak (guild_id author : Z)
| CmdReset (guild_id member : Z)
| CmdAddRole (guild_id days role : Z)
| CmdRemoveRole (guild_id days : Z)
| CmdListRoles (guild_id : Z)
| CmdLeaderboard (guild_id : Z)
| EvMessage (today : date) (message : Message)
| EvCleanup (now : date) (guilds : list DiscordGuild).

(** [add_role]: a threshold that is not positive is refused before the
    manager is called. *)
Definition add_role (s : StreakManager) (guild_id days role : Z)
  : StreakManager :=
  if days <=? 0 then s
  else set_role_reward s (py_str guild_id) days (py_str role).

Definition handle (s : StreakManager) (e : Event) : StreakManager :=
  match e with
  | CmdSet g c => set_streak_channel s (py_str g) (py_str c)
  | CmdUnset g => unset_streak_channel s (py_str g)
  | CmdStreak g a => fst (get_user_streak s (py_str g) (py_str a))
  | CmdReset g m => remove_user_streak s (py_str g) (py_str m)
  | CmdAddRole g days role => add_role s g days role
  | CmdRemoveRole g days => remove_role_reward s (py_str g) days
  | CmdListRoles g => fst (get_role_rewards s (py_str g))
  | CmdLeaderboard g => fst (get_leaderboard s (py_str g))
  | EvMessage today m => fst (on_message s today m)
  | EvCleanup now guilds => fst (cleanup_inactive_roles now guilds s)
  end.

(** The managers the bot can be in, from a start without a data file. *)
Inductive reachable : StreakManager -> Prop :=
| reachable_start : reachable (load_data (__init__ None))
| reachable_step s e : reachable s -> reachable (handle s e).

(** The managers that calls of the store's own methods lead to, whatever
    their arguments. *)
Inductive store_reachable : StreakManager -> Prop :=
| sr_start : store_reachable (load_data (__init__ None))
| sr_set_streak_channel s g c :
    store_reachable s -> store_reachable (set_streak_channel s g c)
| sr_unset_streak_channel s g :
    store_reachable s -> store_reachable (unset_streak_channel s g)
| sr_get_streak_channel s g :
    store_reachable s -> store_reachable (fst (get_streak_channel s g))
| sr_record_streak s g u d :
    store_reachable s -> store_reachable (fst (record_streak s g u d))
| sr_remove_user_streak s g u :
    store_reachable s -> store_reachable (remove_user_streak s g u)
| sr_set_role_reward s g days r :
    store_reachable s -> store_reachable (set_role_reward s g days r)
| sr_remove_role_reward s g days :
    store_reachable s -> store_reachable (remove_role_reward s g days)
| sr_get_role_rewards s g :
    store_reachable s -> store_reachable (fst (get_role_rewards s g))
| sr_get_user_streak s g u :
    store_reachable s -> store_reachable (fst (get_user_streak s g u))
| sr_get_leaderboard s g :
    store_reachable s -> store_reachable (fst (get_leaderboard s g)).

End OnMessage.

(* ================================================================== *)
(** ** Notions the statements use *)
(* ================================================================== *)

(** The manager of a bot started without a data file. *)
Definition empty_manager : StreakManager := load_data (__init__ None).

(** The users of a guild in the document (none when the guild is not in
    it). *)
Definition users_of (s : StreakManager) (guild_id : string) : Dict.t User :=
  users (guild_data_of s guild_id).

(** The stored record of a user, if there is one. *)
Definition user_record (s : StreakManager) (guild_id user_id : string)
  : option User :=
  Dict.get (users_of s guild_id) user_id.

(** The record [record_streak] starts from: the stored one, or that of a
    user never seen. *)
Definition user_before (s : StreakManager) (guild_id user_id : string) : User :=
  match user_record s guild_id user_id with
  | Some user_data => user_data
  | None => {| streak := 0; last_date := None |}
  end.

(** The engine in the words of the specification:
    [computeStreak(previousStreak, previousDate, today)]. *)
Definition computeStreak (previousStreak : Z) (previousDate : option date)
  (today : date) : Z :=
  match previousDate with
  | Some d =>
      if date_eqb d today then previousStreak
      else if toordinal d =? toordinal today - 1 then previousStreak + 1
      else 1
  | None => 1
  end.

(** The resolver in the words of the specification:
    [resolveGrants(streak, rewards, currentRoles)], every role of a
    threshold that the streak has reached and that is not held yet. *)
Fixpoint resolveGrants (streak : Z) (rewards : IntDict.t string)
  (currentRoles : list Z) : list Z :=
  match rewards with
  | [] => []
  | (d, role_id) :: r =>
      match py_int role_id with
      | Some role =>
          if (d <=? streak) && negb (mem role currentRoles)
          then role :: resolveGrants streak r currentRoles
          else resolveGrants streak r currentRoles
      | None => resolveGrants streak r currentRoles
      end
  end.

(** The parser reads the ISO form of [d] back, as it does for every date
    that [isoformat] printed. *)
Definition reads_back {P : DateParser} (d : date) : Prop :=
  fromisoformat (isoformat d) = Some d.

(** Each day is the day after the one before it. *)
Fixpoint consecutive (ds : list date) : Prop :=
  match ds with
  | d1 :: ((d2 :: _) as r) => toordinal d2 = toordinal d1 + 1 /\ consecutive r
  | _ => True
  end.

(** One call of [record_streak] per day, in order: the manager at the end
    and the streak the last call returned. *)
Fixpoint record_days {P : DateParser} (s : StreakManager)
  (guild_id user_id : string) (days : list date) (last : Z)
  : StreakManager * Z :=
  match days with
  | [] => (s, last)
  | d :: r =>
      let '(s, n) := record_streak s guild_id user_id (isoformat d) in
      record_days s guild_id user_id r n
  end.

(** Every stored threshold is the decimal form of a positive integer. *)
Definition thresholds_positive (s : StreakManager) : Prop :=
  forall g gd k v,
    Dict.get (guilds_of s) g = Some gd ->
    In (k, v) (role_rewards gd) ->
    exists d, 0 < d /\ k = py_str d.

(** Every key that [get_role_rewards] returns is positive. *)
Definition rewards_positive (s : StreakManager) : Prop :=
  forall g k v, In (k, v) (snd (get_role_rewards s g)) -> 0 < k.

(** The reward roles a member holds, as the sweeper finds them. *)
Definition held_reward_roles (guild_obj : DiscordGuild) (role_ids : list Z)
  (user_id : Z) : list Z :=
  match get_member guild_obj user_id with
  | Some member_roles => roles_to_remove guild_obj role_ids member_roles
  | None => []
  end.

(** The order of the leaderboard: the streak does not grow from an entry
    to a later one. *)
Definition by_streak_desc (a b : string * Z) : Prop := snd b <= snd a.

(** What a read of guild [g] may do to the manager: the file is as it was,
    and the document in memory is as it was but for a new, empty record of
    [g] at its end when [g] had none. *)
Definition read_effect (s s' : StreakManager) (g : string) : Prop :=
  file s' = file s
  /\ _data s' = Some (match Dict.get (guilds_of s) g with
                      | Some _ => guilds_of s
                      | None => guilds_of s ++ [(g, new_guild)]
                      end).

(** The inactivity test of the sweeper, spelled out: the stored date is
    set, parses, and lies more than seven days before [now]. *)
Definition inactive_over_7_days {P : DateParser} (now : date) (data : User)
  : Prop :=
  exists l d,
    last_date data = Some l /\ l <> "" /\ fromisoformat l = Some d
    /\ 7 < toordinal now - toordinal d.

(** A guild with the users A (streak 5), B (streak 0) and C (streak 3). *)
Definition leaderboard_example : StreakManager :=
  {| _data :=
       Some [("1",
              {| streak_channel_id := None;
                 users :=
                   [("A", {| streak := 5; last_date := Some "2024-02-29" |});
                    ("B", {| streak := 0; last_date := None |});
                    ("C", {| streak := 3; last_date := Some "2024-02-29" |})];
                 role_rewards := [] |})];
     file := None |}.

(** A guild of the platform in which role 7 no longer exists; user 2 is a
    member without roles. *)
Definition guild_without_role_7 : DiscordGuild :=
  {| guild_id_of := 1; guild_roles := [8]; guild_members := [(2, [])] |}.

(** A guild whose reward for 5 days is role 7.  User 2 was last active on
    2024-02-21, user 3 on 2024-02-23, user 4 has the record of a reset. *)
Definition sweeper_example : StreakManager :=
  {| _data :=
       Some [("1",
              {| streak_channel_id := Some "10";
                 users :=
                   [("2", {| streak := 6; last_date := Some "2024-02-21" |});
                    ("3", {| streak := 6; last_date := Some "2024-02-23" |});
                    ("4", {| streak := 0; last_date := None |})];
                 role_rewards := [("5", "7")] |})];
     file := None |}.

(** The same guild on the platform: role 7 exists and the three users hold
    it. *)
Definition sweeper_example_guild : DiscordGuild :=
  {| guild_id_of := 1; guild_roles := [7];
     guild_members := [(2, [7]); (3, [7]); (4, [7])] |}.

(** In the words of the specification, the reward roles currently held by
    the member: the roles among [role_ids] that exist in the guild and are
    among the roles of the member. *)
Definition rewards_held (guild_obj : DiscordGuild)
  (member_roles role_ids : list Z) : list Z :=
  filter
    (fun r =>
       if in_dec Z.eq_dec r (guild_roles guild_obj)
       then if in_dec Z.eq_dec r member_roles then true else false
       else false)
    role_ids.

(** What the sweeper is to do for one guild of the document, in the words
    of the specification: the guild is known to the platform, [user_id] is
    a user of the guild in the document whose date is set and lies more
    than seven days back, the user is a member, and [roles], not empty,
    are the reward roles of the guild that the member holds. *)
Definition sweeper_revokes {P : DateParser} (now : date)
  (guilds : list DiscordGuild) (s : StreakManager) (guild_id : string)
  (uid : Z) (roles : list Z) : Prop :=
  exists gid guild_obj user_id data member_roles role_ids,
    py_int guild_id = Some gid
    /\ get_guild guilds gid = Some guild_obj
    /\ Forall2 (fun role_id r => py_int role_id = Some r)
         (map snd (snd (get_role_rewards s guild_id))) role_ids
    /\ In (user_id, data) (users_of s guild_id)
    /\ py_int user_id = Some uid
    /\ inactive_over_7_days now data
    /\ get_member guild_obj uid = Some member_roles
    /\ roles = rewards_held guild_obj member_roles role_ids
    /\ roles <> [].

(* ================================================================== *)
(** ** The calls of the manager, as data *)
(* ================================================================== *)

(** One call of a public method of [StreakManager], with its arguments. *)
Inductive Call :=
| SetStreakChannel (guild_id channel_id : string)
| UnsetStreakChannel (guild_id : string)
| GetStreakChannel (guild_id : string)
| RecordStreak (guild_id user_id current_date : string)
| RemoveUserStreak (guild_id user_id : string)
| SetRoleReward (guild_id : string) (days : Z) (role_id : string)
| RemoveRoleReward (guild_id : string) (days : Z)
| GetRoleRewards (guild_id : string)
| GetUserStreak (guild_id user_id : string)
| GetLeaderboard (guild_id : string).

(** The manager after the call. *)
Definition call {P : DateParser} (s : StreakManager) (c : Call)
  : StreakManager :=
  match c with
  | SetStreakChannel g ch => set_streak_channel s g ch
  | UnsetStreakChannel g => unset_streak_channel s g
  | GetStreakChannel g => fst (get_streak_channel s g)
  | RecordStreak g u d => fst (record_streak s g u d)
  | RemoveUserStreak g u => remove_user_streak s g u
  | SetRoleReward g days r => set_role_reward s g days r
  | RemoveRoleReward g days => remove_role_reward s g days
  | GetRoleRewards g => fst (get_role_rewards s g)
  | GetUserStreak g u => fst (get_user_streak s g u)
  | GetLeaderboard g => fst (get_leaderboard s g)
  end.

(** The guild the call is about. *)
Definition call_guild (c : Call) : string :=
  match c with
  | SetStreakChannel g _ | UnsetStreakChannel g | GetStreakChannel g
  | RecordStreak g _ _ | RemoveUserStreak g _ | SetRoleReward g _ _
  | RemoveRoleReward g _ | GetRoleRewards g | GetUserStreak g _
  | GetLeaderboard g => g
  end.

(** The methods that end with [await self._save_data()]. *)
Definition saves (c : Call) : bool :=
  match c with
  | SetStreakChannel _ _ | UnsetStreakChannel _ | RecordStreak _ _ _
  | RemoveUserStreak _ _ | SetRoleReward _ _ _ | RemoveRoleReward _ _ => true
  | _ => false
  end.

(** The user whose record the call writes, for the two methods that write
    one. *)
Definition call_user (c : Call) : option (string * string) :=
  match c with
  | RecordStreak g u _ | RemoveUserStreak g u => Some (g, u)
  | _ => None
  end.

(** The guild whose channel the call sets or clears. *)
Definition call_channel (c : Call) : option string :=
  match c with
  | SetStreakChannel g _ | UnsetStreakChannel g => Some g
  | _ => None
  end.

(** The guild whose rewards the call writes. *)
Definition call_rewards (c : Call) : option string :=
  match c with
  | SetRoleReward g _ _ | RemoveRoleReward g _ => Some g
  | _ => None
  end.

(** A process that starts on the file this manager leaves behind:
    [StreakManager(file_path)] followed by [load_data]. *)
Definition restart (s : StreakManager) : StreakManager :=
  load_data (__init__ (file s)).

(** The two shapes of a user record that the methods produce: never
    active, or active on some date with a streak of at least 1. *)
Definition user_ok (user_data : User) : Prop :=
  (streak user_data = 0 /\ last_date user_data = None)
  \/ (1 <= streak user_data /\ last_date user_data <> None).

Definition users_ok (s : StreakManager) : Prop :=
  forall g u user_data, user_record s g u = Some user_data -> user_ok user_data.

(** The keys of the stored rewards are distinct and each is [str(days)]
    for some integer, as [set_role_reward] writes them. *)
Definition rewards_canonical (s : StreakManager) : Prop :=
  forall g,
    NoDup (map fst (role_rewards (guild_data_of s g)))
    /\ forall k v, In (k, v) (role_rewards (guild_data_of s g)) ->
                   exists d, k = py_str d.

(* ================================================================== *)
(** ** More of [bot.py] *)
(* ================================================================== *)

(** The test of [on_message] on the text:
    [content.lstrip().lower().startswith("streak:")]. *)
Definition tagged (content : string) : bool :=
  startswith (lower (lstrip content)) "streak:".

(** The conditions under which [on_message] goes on to record a streak:
    a human author, in a guild, in the channel the guild has set, with the
    tag. *)
Definition accepted (s : StreakManager) (message : Message) : bool :=
  negb (author_bot message)
  && match guild message with
     | None => false
     | Some g =>
         match streak_channel_id
                 (guild_data_of s (py_str (guild_id_of g))) with
         | None => false
         | Some c =>
             String.eqb (py_str (channel_id message)) c
             && tagged (content message)
         end
     end.

Definition all_space (s : string) : bool :=
  forallb is_space (list_ascii_of_string s).

(** The text has ASCII characters only.  On such a text [lstrip] and
    [lower] above are [str.lstrip] and [str.lower]. *)
Definition is_ascii (s : string) : bool :=
  forallb (fun c => (nat_of_ascii c <? 128)%nat) (list_ascii_of_string s).





(** [enumerate(l, start)] *)
Fixpoint enumerate {A : Type} (start : Z) (l : list A) : list (Z * A) :=
  match l with
  | [] => []
  | x :: r => (start, x) :: enumerate (start + 1) r
  end.

(** What the command [leaderboard] ends with. *)
Inductive LeaderboardReply :=
| NoStreaks
| Board (lines : list (Z * (Z * Z)))
| LeaderboardRaised.

(** The loop of [leaderboard] over the entries shown: for each one the
    rank, [int(user_id)] and the streak.  [None]: [int(user_id)] raised. *)
Fixpoint board_lines (entries : list (Z * (string * Z)))
  : option (list (Z * (Z * Z))) :=
  match entries with
  | [] => Some []
  | (idx, (user_id, n)) :: r =>
      match py_int user_id with
      | None => None
      | Some uid =>
          match board_lines r with
          | Some lines => Some ((idx, (uid, n)) :: lines)
          | None => None
          end
      end
  end.

(** The command [leaderboard]: [NoStreaks] for the reply that no one has
    started a streak; [Board] with one line per entry of
    [enumerate(leaderboard_data[:10], start=1)], as rank, member id and
    streak; [LeaderboardRaised] when [int(user_id)] raises, and nothing is
    sent.  The display name looked up for the member id and the wording
    of a line are not modelled. *)
Definition leaderboard (s : StreakManager) (guild_id : Z)
  : StreakManager * LeaderboardReply :=
  let '(s, leaderboard_data) := get_leaderboard s (py_str guild_id) in
  match leaderboard_data with
  | [] => (s, NoStreaks)
  | _ =>
      match board_lines (enumerate 1 (firstn 10 leaderboard_data)) with
      | Some lines => (s, Board lines)
      | None => (s, LeaderboardRaised)
      end
  end.

(* ================================================================== *)
(** * Facts *)
(* ================================================================== *)

(** ** Dictionaries *)

Module DictFacts.
Section Facts.
Context {V : Type}.
Implicit Types (d : Dict.t V) (k : string) (v : V).

Lemma get_set_eq d k v : Dict.get (Dict.set d k v) k = Some v.
Proof.
  induction d as [|[k' v'] r IH]; simpl.
  - now rewrite String.eqb_refl.
  - destruct (String.eqb k' k) eqn:E; simpl; rewrite E; auto.
Qed.

Lemma get_set_ne d k k' v :
  k <> k' -> Dict.get (Dict.set d k v) k' = Dict.get d k'.
Proof.
  intros Hne. induction d as [|[k0 v0] r IH]; simpl.
  - destruct (String.eqb_spec k k'); congruence.
  - destruct (String.eqb_spec k0 k) as [->|Hk]; simpl.
    + destruct (String.eqb_spec k k'); congruence.
    + destruct (String.eqb_spec k0 k'); auto.
Qed.

Lemma set_same d k v : Dict.get d k = Some v -> Dict.set d k v = d.
Proof.
  induction d as [|[k0 v0] r IH]; simpl; [discriminate|].
  destruct (String.eqb_spec k0 k) as [->|Hk]; intros Hg.
  - congruence.
  - now rewrite IH.
Qed.

Lemma set_set d k v v' : Dict.set (Dict.set d k v) k v' = Dict.set d k v'.
Proof.
  induction d as [|[k0 v0] r IH]; simpl.
  - now rewrite String.eqb_refl.
  - destruct (String.eqb k0 k) eqn:E; simpl; rewrite E; congruence.
Qed.

Lemma in_set d k v x :
  In x (Dict.set d k v) -> x = (k, v) \/ In x d.
Proof.
  induction d as [|[k0 v0] r IH]; simpl.
  - intros [<-|[]]; auto.
  - destruct (String.eqb_spec k0 k) as [->|Hk]; simpl.
    + intros [<-|Hin]; auto.
    + intros [<-|Hin]; auto. destruct (IH Hin); auto.
Qed.

Lemma in_pop d k x : In x (Dict.pop d k) -> In x d.
Proof.
  induction d as [|[k0 v0] r IH]; simpl; auto.
  destruct (String.eqb k0 k); simpl; intuition.
Qed.

Lemma get_in d k v : Dict.get d k = Some v -> In (k, v) d.
Proof.
  induction d as [|[k0 v0] r IH]; simpl; [discriminate|].
  destruct (String.eqb_spec k0 k) as [->|Hk].
  - intros [= ->]. now left.
  - intros Hg. right. auto.
Qed.

End Facts.
End DictFacts.

(** ** Strings of digits *)

Lemma all_digits_string_of_uint u :
  all_digits (NilEmpty.string_of_uint u) = true.
Proof. induction u; simpl; auto. Qed.

Lemma py_int_py_str n : py_int (py_str n) = Some n.
Proof.
  unfold py_int, py_str.
  rewrite NilZero.isi.
  - simpl. now rewrite DecimalZ.of_to.
  - destruct n; simpl; try discriminate.
    intros [= E]. now apply Unsigned.to_uint_nonnil in E.
  - destruct n; simpl; try discriminate.
    intros [= E]. now apply Unsigned.to_uint_nonnil in E.
Qed.

Lemma py_str_inj a b : py_str a = py_str b -> a = b.
Proof.
  intros E. apply (f_equal py_int) in E.
  rewrite !py_int_py_str in E. congruence.
Qed.

Lemma isdigit_py_str n : 0 <= n -> isdigit (py_str n) = true.
Proof.
  intros Hn. unfold py_str.
  destruct n as [|p|p]; [reflexivity| |lia].
  simpl. unfold NilZero.string_of_uint.
  pose proof (Unsigned.to_uint_nonnil p) as Hnil.
  pose proof (all_digits_string_of_uint (Pos.to_uint p)) as Hall.
  destruct (Pos.to_uint p); try congruence; simpl in *; exact Hall.
Qed.

(** ** Dates and their ISO form *)

Lemma char_digit_digit_char n :
  0 <= n <= 9 -> char_digit (digit_char n) = Some n.
Proof.
  intros Hn. rewrite <- (Z2Nat.id n) by lia.
  assert (Z.to_nat n < 10)%nat as Hk by lia.
  revert Hk. generalize (Z.to_nat n). intros k Hk.
  do 10 (destruct k as [|k]; [reflexivity|]). lia.
Qed.

Lemma parse_digits_2 a b :
  0 <= a <= 9 -> 0 <= b <= 9 ->
  parse_digits [digit_char a; digit_char b] = Some (10 * a + b).
Proof.
  intros Ha Hb. unfold parse_digits. cbn [fold_left].
  rewrite (char_digit_digit_char a Ha), (char_digit_digit_char b Hb).
  f_equal; lia.
Qed.

Lemma parse_digits_4 a b c e :
  0 <= a <= 9 -> 0 <= b <= 9 -> 0 <= c <= 9 -> 0 <= e <= 9 ->
  parse_digits [digit_char a; digit_char b; digit_char c; digit_char e]
  = Some (1000 * a + 100 * b + 10 * c + e).
Proof.
  intros Ha Hb Hc He. unfold parse_digits. cbn [fold_left].
  rewrite (char_digit_digit_char a Ha), (char_digit_digit_char b Hb),
    (char_digit_digit_char c Hc), (char_digit_digit_char e He).
  f_equal; lia.
Qed.

Lemma days_in_month_le y m : _days_in_month y m <= 31.
Proof.
  unfold _days_in_month.
  destruct ((m =? 2) && _is_leap y); [lia|].
  unfold _DAYS_IN_MONTH.
  generalize (Z.to_nat m). intros k.
  do 13 (destruct k as [|k]; [cbn; lia|]).
  destruct k; cbn; lia.
Qed.

(** The parser of the form [YYYY-MM-DD] reads back what [isoformat] prints
    for a date that the constructor accepts. *)
Lemma fromisoformat_ymd_isoformat d :
  valid_date d = true -> fromisoformat_ymd (isoformat d) = Some d.
Proof.
  destruct d as [y m dd]. intros Hv.
  pose proof Hv as Hv'. unfold valid_date in Hv'. cbn [year month day] in Hv'.
  pose proof (days_in_month_le y m) as Hdim.
  assert (1 <= y <= 9999 /\ 1 <= m <= 12 /\ 1 <= dd <= 31) as (Hy & Hm & Hd).
  { repeat (apply andb_prop in Hv'; destruct Hv' as [Hv' ?]). lia. }
  unfold fromisoformat_ymd, isoformat, fmt04, fmt02.
  cbn [year month day String.append list_ascii_of_string].
  change (Ascii.eqb "-" "-") with true. cbn [andb].
  rewrite parse_digits_4, !parse_digits_2
    by (apply Z.mod_pos_bound || (pose proof (Z.mod_pos_bound (y / 1000) 10);
        pose proof (Z.mod_pos_bound (y / 100) 10);
        pose proof (Z.mod_pos_bound (y / 10) 10);
        pose proof (Z.mod_pos_bound y 10);
        pose proof (Z.mod_pos_bound (m / 10) 10);
        pose proof (Z.mod_pos_bound m 10);
        pose proof (Z.mod_pos_bound (dd / 10) 10);
        pose proof (Z.mod_pos_bound dd 10); lia)).
  assert (1000 * (y / 1000 mod 10) + 100 * (y / 100 mod 10)
          + 10 * (y / 10 mod 10) + y mod 10 = y) as ->
    by (Z.div_mod_to_equations; lia).
  assert (10 * (m / 10 mod 10) + m mod 10 = m) as ->
    by (Z.div_mod_to_equations; lia).
  assert (10 * (dd / 10 mod 10) + dd mod 10 = dd) as ->
    by (Z.div_mod_to_equations; lia).
  cbv zeta. now rewrite Hv.
Qed.

Lemma valid_reads_back d : valid_date d = true -> reads_back (P := ymd_parser) d.
Proof. exact (fromisoformat_ymd_isoformat d). Qed.

Lemma date_eqb_eq a b : date_eqb a b = true <-> a = b.
Proof.
  destruct a as [y m d], b as [y' m' d']. unfold date_eqb. cbn [year month day].
  rewrite !andb_true_iff, !Z.eqb_eq. split.
  - intros [[-> ->] ->]. reflexivity.
  - intros [= -> -> ->]. auto.
Qed.

Lemma isoformat_truthy d : truthy (Some (isoformat d)) = true.
Proof. reflexivity. Qed.

Section DateFacts.
Context {P : DateParser}.

Lemma isoformat_reads_back_inj a b :
  reads_back a -> reads_back b -> isoformat a = isoformat b -> a = b.
Proof. unfold reads_back. intros Ha Hb E. rewrite E in Ha. congruence. Qed.

Lemma days_between_isoformat a b :
  reads_back a -> reads_back b ->
  days_between (isoformat a) (isoformat b) = Some (toordinal b - toordinal a).
Proof. unfold reads_back, days_between. now intros -> ->. Qed.

End DateFacts.

(** ** The manager: guild records *)

Lemma set_absent {V} (d : Dict.t V) k v :
  Dict.get d k = None -> Dict.set d k v = d ++ [(k, v)].
Proof.
  induction d as [|[k0 v0] r IH]; simpl; [reflexivity|].
  destruct (String.eqb k0 k); [discriminate|].
  intros Hg. now rewrite IH.
Qed.

Lemma file_ensure_guild s g : file (ensure_guild s g) = file s.
Proof. unfold ensure_guild. now destruct (Dict.get (guilds_of s) g). Qed.

Lemma guilds_of_ensure_guild s g :
  guilds_of (ensure_guild s g)
  = match Dict.get (guilds_of s) g with
    | Some _ => guilds_of s
    | None => Dict.set (guilds_of s) g new_guild
    end.
Proof. unfold ensure_guild. now destruct (Dict.get (guilds_of s) g). Qed.

Lemma data_ensure_guild s g :
  _data (ensure_guild s g) = Some (guilds_of (ensure_guild s g)).
Proof. unfold ensure_guild. now destruct (Dict.get (guilds_of s) g). Qed.

Lemma get_ensure_guild_other s g g' :
  g <> g' ->
  Dict.get (guilds_of (ensure_guild s g)) g' = Dict.get (guilds_of s) g'.
Proof.
  intros Hne. rewrite guilds_of_ensure_guild.
  destruct (Dict.get (guilds_of s) g); [reflexivity|].
  now apply DictFacts.get_set_ne.
Qed.

Lemma get_ensure_guild_same s g :
  Dict.get (guilds_of (ensure_guild s g)) g = Some (guild_data_of s g).
Proof.
  rewrite guilds_of_ensure_guild. unfold guild_data_of.
  destruct (Dict.get (guilds_of s) g) eqn:E; [exact E|].
  apply DictFacts.get_set_eq.
Qed.

Lemma guild_data_of_ensure_guild s g g' :
  guild_data_of (ensure_guild s g) g' = guild_data_of s g'.
Proof.
  destruct (String.eqb_spec g g') as [<-|Hne].
  - unfold guild_data_of at 1. now rewrite get_ensure_guild_same.
  - unfold guild_data_of. now rewrite get_ensure_guild_other.
Qed.

Lemma ensure_guild_known s gs g gd :
  _data s = Some gs -> Dict.get gs g = Some gd -> ensure_guild s g = s.
Proof.
  destruct s as [d f]. simpl. intros -> Hg.
  unfold ensure_guild, guilds_of. simpl. now rewrite Hg.
Qed.

Lemma guilds_of_put_guild s g gd :
  guilds_of (put_guild s g gd) = Dict.set (guilds_of s) g gd.
Proof. reflexivity. Qed.

Lemma guild_data_of_put_guild_same s g gd :
  guild_data_of (put_guild s g gd) g = gd.
Proof.
  unfold guild_data_of. rewrite guilds_of_put_guild.
  now rewrite DictFacts.get_set_eq.
Qed.

Lemma guild_data_of_put_guild_other s g g' gd :
  g <> g' -> guild_data_of (put_guild s g gd) g' = guild_data_of s g'.
Proof.
  intros Hne. unfold guild_data_of. rewrite guilds_of_put_guild.
  now rewrite DictFacts.get_set_ne.
Qed.

Lemma guilds_of_save_data s : guilds_of (_save_data s) = guilds_of s.
Proof. reflexivity. Qed.

Lemma guild_data_of_save_data s g :
  guild_data_of (_save_data s) g = guild_data_of s g.
Proof. reflexivity. Qed.

Lemma with_users_same gd : with_users gd (users gd) = gd.
Proof. now destruct gd. Qed.

Lemma users_with_users gd us : users (with_users gd us) = us.
Proof. reflexivity. Qed.

(** ** The manager: streaks *)

Lemma users_of_ensure_guild s g g' :
  users_of (ensure_guild s g) g' = users_of s g'.
Proof. unfold users_of. now rewrite guild_data_of_ensure_guild. Qed.

Lemma snd_get_user_streak s g u :
  snd (get_user_streak s g u) = streak (user_before s g u).
Proof.
  unfold get_user_streak, user_before, user_record, users_of.
  rewrite guild_data_of_ensure_guild.
  now destruct (Dict.get (users (guild_data_of s g)) u).
Qed.

Lemma fst_get_user_streak s g u :
  fst (get_user_streak s g u) = ensure_guild s g.
Proof.
  unfold get_user_streak.
  now destruct (Dict.get (users (guild_data_of (ensure_guild s g) g)) u).
Qed.

Section StreakFacts.
Context {P : DateParser}.

Lemma updated_user_same ud c :
  last_date ud = Some c -> updated_user ud c = ud.
Proof.
  intros Hl. unfold updated_user. rewrite Hl. simpl.
  now rewrite String.eqb_refl.
Qed.

Lemma last_date_updated_user ud c : last_date (updated_user ud c) = Some c.
Proof.
  unfold updated_user.
  destruct (last_date ud) as [l|] eqn:Hl; simpl; [|reflexivity].
  destruct (String.eqb_spec l c) as [->|Hne]; [exact Hl|reflexivity].
Qed.

(** A call of [record_streak], in one step: the record of the user is
    replaced by the updated one, the document is saved. *)
Lemma record_streak_unfold s g u c :
  record_streak s g u c
  = let ud := updated_user (user_before s g u) c in
    (_save_data
       (put_guild (ensure_guild s g) g
          (with_users (guild_data_of s g) (Dict.set (users_of s g) u ud))),
     streak ud).
Proof.
  unfold record_streak, Dict.setdefault, user_before, user_record, users_of.
  rewrite guild_data_of_ensure_guild.
  destruct (Dict.get (users (guild_data_of s g)) u) eqn:E; cbv zeta.
  - reflexivity.
  - now rewrite DictFacts.set_set.
Qed.

Lemma snd_record_streak s g u c :
  snd (record_streak s g u c) = streak (updated_user (user_before s g u) c).
Proof. now rewrite record_streak_unfold. Qed.

Lemma users_of_record_streak s g u c :
  users_of (fst (record_streak s g u c)) g
  = Dict.set (users_of s g) u (updated_user (user_before s g u) c).
Proof.
  rewrite record_streak_unfold. cbv zeta. cbn [fst].
  unfold users_of at 1.
  now rewrite guild_data_of_save_data, guild_data_of_put_guild_same.
Qed.

Lemma user_record_record_streak s g u c :
  user_record (fst (record_streak s g u c)) g u
  = Some (updated_user (user_before s g u) c).
Proof.
  unfold user_record. rewrite users_of_record_streak.
  apply DictFacts.get_set_eq.
Qed.

Lemma user_before_record_streak s g u c :
  user_before (fst (record_streak s g u c)) g u
  = updated_user (user_before s g u) c.
Proof. unfold user_before at 1. now rewrite user_record_record_streak. Qed.

End StreakFacts.

Section EngineFacts.
Context {P : DateParser}.

Lemma updated_user_fresh n c :
  updated_user {| streak := n; last_date := None |} c
  = {| streak := 1; last_date := Some c |}.
Proof. reflexivity. Qed.

Lemma updated_user_isoformat n d T :
  reads_back d -> reads_back T -> d <> T ->
  updated_user {| streak := n; last_date := Some (isoformat d) |} (isoformat T)
  = {| streak := if toordinal T - toordinal d =? 1 then n + 1 else 1;
       last_date := Some (isoformat T) |}.
Proof.
  intros Hd HT Hne. unfold updated_user. cbn [last_date streak eq_opt_str].
  destruct (String.eqb_spec (isoformat d) (isoformat T)) as [E|_].
  - exfalso. apply Hne. now apply isoformat_reads_back_inj.
  - rewrite isoformat_truthy, (days_between_isoformat d T Hd HT).
    reflexivity.
Qed.

Lemma updated_user_unparseable ud l c T :
  last_date ud = Some l -> fromisoformat l = None -> fromisoformat c = Some T ->
  updated_user ud c = {| streak := 1; last_date := Some c |}.
Proof.
  intros Hl Hnone Hc. unfold updated_user. rewrite Hl. cbn [eq_opt_str].
  destruct (String.eqb_spec l c) as [->|_]; [congruence|].
  unfold days_between. rewrite Hnone.
  now destruct (truthy (Some l)).
Qed.

Lemma users_of_remove_user_streak s g u :
  users_of (remove_user_streak s g u) g
  = match user_record s g u with
    | Some _ => Dict.set (users_of s g) u {| streak := 0; last_date := None |}
    | None => users_of s g
    end.
Proof.
  unfold remove_user_streak, user_record. unfold users_of at 1.
  rewrite guild_data_of_save_data, guild_data_of_put_guild_same.
  rewrite users_with_users, guild_data_of_ensure_guild.
  reflexivity.
Qed.

Lemma record_days_from g u days : forall s d0 n,
  reads_back d0 -> Forall reads_back days -> consecutive (d0 :: days) ->
  user_before s g u = {| streak := n; last_date := Some (isoformat d0) |} ->
  snd (record_days s g u days n) = n + Z.of_nat (List.length days)
  /\ streak (user_before (fst (record_days s g u days n)) g u)
     = n + Z.of_nat (List.length days).
Proof.
  induction days as [|d1 r IH]; intros s d0 n Hd0 Hall Hcons Hbefore.
  - cbn [record_days fst snd List.length]. rewrite Hbefore. cbn [streak].
    split; lia.
  - inversion Hall as [|? ? Hd1 Hr]; subst.
    destruct Hcons as [Hnext Hcons].
    assert (d0 <> d1) as Hne by (intros ->; lia).
    cbn [record_days].
    destruct (record_streak s g u (isoformat d1)) as [s1 n1] eqn:E.
    pose proof (snd_record_streak s g u (isoformat d1)) as Hn1.
    pose proof (user_before_record_streak s g u (isoformat d1)) as Hu1.
    rewrite E in Hn1, Hu1. cbn [fst snd] in Hn1, Hu1.
    rewrite Hbefore, (updated_user_isoformat n d0 d1 Hd0 Hd1 Hne) in Hn1, Hu1.
    replace (toordinal d1 - toordinal d0 =? 1) with true in Hn1, Hu1
      by (symmetry; apply Z.eqb_eq; lia).
    cbn [streak] in Hn1. subst n1.
    destruct (IH s1 d1 (n + 1) Hd1 Hr Hcons Hu1) as [Ha Hb].
    rewrite Ha, Hb. cbn [List.length]. split; lia.
Qed.

End EngineFacts.

(* ================================================================== *)
(** * The claims on streaks *)
(* ================================================================== *)

(** C1.  [record_streak] follows the case analysis of the engine.  For a
    user whose stored streak is [n] and whose stored date is the ISO form
    of [D] (or is absent), a call for the day [T] returns, and stores,
    [n] when [D] is [T], [n + 1] when [D] is the day before [T], and [1]
    in every other case: no date, a gap of more than a day, or [T] before
    [D].  The hypotheses say that the dates are ones the parser reads back
    from their ISO form, which holds of every valid date.  Nothing depends
    on the sign of [n]. *)
Theorem record_streak_case_analysis {P : DateParser}
  (s : StreakManager) (g u : string) (n : Z) (D : option date) (T : date) :
  reads_back T ->
  (forall d, D = Some d -> reads_back d) ->
  user_before s g u = {| streak := n; last_date := option_map isoformat D |} ->
  let r := snd (record_streak s g u (isoformat T)) in
  r = computeStreak n D T
  /\ snd (get_user_streak (fst (record_streak s g u (isoformat T))) g u) = r
  /\ (D = Some T -> r = n)
  /\ (forall d, D = Some d -> toordinal d = toordinal T - 1 -> r = n + 1)
  /\ (D = None -> r = 1)
  /\ (forall d, D = Some d -> d <> T -> toordinal d <> toordinal T - 1 ->
      r = 1).
Proof.
  intros HT HD Hbefore r.
  assert (r = computeStreak n D T) as Hr.
  { subst r. rewrite snd_record_streak, Hbefore.
    destruct D as [d|]; cbn [option_map computeStreak]; [|reflexivity].
    destruct (date_eqb d T) eqn:E.
    - apply date_eqb_eq in E. subst d.
      now rewrite updated_user_same.
    - assert (d <> T) as Hne
        by (intros <-; rewrite (proj2 (date_eqb_eq d d) eq_refl) in E;
            discriminate).
      rewrite (updated_user_isoformat n d T (HD d eq_refl) HT Hne).
      cbn [streak].
      destruct (Z.eqb_spec (toordinal T - toordinal d) 1),
        (Z.eqb_spec (toordinal d) (toordinal T - 1)); lia || reflexivity. }
  split; [exact Hr|]. split.
  { rewrite snd_get_user_streak, user_before_record_streak.
    subst r. now rewrite snd_record_streak. }
  rewrite Hr. repeat split.
  - intros ->. cbn [computeStreak].
    now rewrite (proj2 (date_eqb_eq T T) eq_refl).
  - intros d -> Hord. cbn [computeStreak].
    destruct (date_eqb d T) eqn:E.
    + apply date_eqb_eq in E. subst d. lia.
    + now rewrite (proj2 (Z.eqb_eq _ _) Hord).
  - intros ->. reflexivity.
  - intros d -> Hne Hord. cbn [computeStreak].
    destruct (date_eqb d T) eqn:E.
    + apply date_eqb_eq in E. contradiction.
    + now rewrite (proj2 (Z.eqb_neq _ _) Hord).
Qed.

Lemma record_streak_case_analysis_witness :
  let s := fst (record_streak (P := ymd_parser) empty_manager "1" "2"
                  "2024-02-28") in
  let D := Some (mkdate 2024 2 28) in
  let T := mkdate 2024 2 29 in
  reads_back (P := ymd_parser) T
  /\ user_before s "1" "2"
     = {| streak := 1; last_date := option_map isoformat D |}
  /\ snd (record_streak (P := ymd_parser) s "1" "2" (isoformat T)) = 2.
Proof.
  intros s D T. split; [reflexivity|]. split; [reflexivity|].
  destruct (record_streak_case_analysis (P := ymd_parser) s "1" "2" 1 D T)
    as (_ & _ & _ & Hnext & _).
  - reflexivity.
  - intros d [= <-]. reflexivity.
  - reflexivity.
  - exact (Hnext (mkdate 2024 2 28) eq_refl eq_refl).
Defined.

(** C2.  A second call of [record_streak] for the same user with the same
    date string returns what the first call returned and leaves the
    manager, in memory and in the file, as the first call left it.  When
    the stored date already is that date, the call does not touch the
    record of the user: the new pair is written back only when the date
    differs. *)
Theorem record_streak_idempotent {P : DateParser}
  (s : StreakManager) (g u T : string) :
  record_streak (fst (record_streak s g u T)) g u T = record_streak s g u T
  /\ (forall ud, user_record s g u = Some ud -> last_date ud = Some T ->
      user_record (fst (record_streak s g u T)) g u = Some ud
      /\ snd (record_streak s g u T) = streak ud).
Proof.
  split.
  - set (ud := updated_user (user_before s g u) T).
    assert (updated_user ud T = ud) as Hsame
      by (apply updated_user_same, last_date_updated_user).
    rewrite (record_streak_unfold (fst (record_streak s g u T))).
    rewrite user_before_record_streak, users_of_record_streak.
    fold ud. cbv zeta. rewrite Hsame, DictFacts.set_set.
    rewrite (record_streak_unfold s g u T). cbv zeta. fold ud. cbn [fst].
    set (gd := with_users (guild_data_of s g) (Dict.set (users_of s g) u ud)).
    rewrite guild_data_of_save_data, guild_data_of_put_guild_same.
    assert (with_users gd (Dict.set (users_of s g) u ud) = gd) as ->
      by reflexivity.
    f_equal.
    set (s1 := _save_data (put_guild (ensure_guild s g) g gd)).
    assert (ensure_guild s1 g = s1) as ->.
    { apply (ensure_guild_known s1 _ g gd eq_refl).
      apply DictFacts.get_set_eq. }
    unfold s1, _save_data, put_guild. cbn [_data file guilds_of].
    now rewrite DictFacts.set_set.
  - intros ud Hrec Hlast.
    rewrite user_record_record_streak, snd_record_streak.
    unfold user_before. rewrite Hrec.
    now rewrite (updated_user_same ud T Hlast).
Qed.

Lemma record_streak_idempotent_witness :
  let s := fst (record_streak (P := ymd_parser) empty_manager "1" "2"
                  "2024-02-28") in
  let ud := {| streak := 1; last_date := Some "2024-02-28" |} in
  user_record s "1" "2" = Some ud
  /\ last_date ud = Some "2024-02-28"
  /\ user_record
       (fst (record_streak (P := ymd_parser) s "1" "2" "2024-02-28")) "1" "2"
     = Some ud
  /\ snd (record_streak (P := ymd_parser) s "1" "2" "2024-02-28") = 1.
Proof.
  intros s ud. split; [reflexivity|]. split; [reflexivity|].
  exact (proj2 (record_streak_idempotent (P := ymd_parser) s "1" "2"
                  "2024-02-28") ud eq_refl eq_refl).
Defined.

(** C3.  From a user with no record, or with the record of streak 0 and
    no date, one call of [record_streak] on each of [N >= 1] consecutive
    days makes the last call return [N] and leaves [N] as the stored
    streak. *)
Theorem consecutive_days_streak {P : DateParser}
  (s : StreakManager) (g u : string) (days : list date) :
  days <> [] ->
  Forall reads_back days ->
  consecutive days ->
  user_record s g u = None
  \/ user_record s g u = Some {| streak := 0; last_date := None |} ->
  snd (record_days s g u days 0) = Z.of_nat (List.length days)
  /\ snd (get_user_streak (fst (record_days s g u days 0)) g u)
     = Z.of_nat (List.length days).
Proof.
  intros Hne Hall Hcons Hfresh.
  destruct days as [|d1 r]; [congruence|].
  inversion Hall as [|? ? Hd1 Hr]; subst.
  assert (user_before s g u = {| streak := 0; last_date := None |}) as Hb
    by (unfold user_before; destruct Hfresh as [-> | ->]; reflexivity).
  cbn [record_days].
  destruct (record_streak s g u (isoformat d1)) as [s1 n1] eqn:E.
  pose proof (snd_record_streak s g u (isoformat d1)) as Hn1.
  pose proof (user_before_record_streak s g u (isoformat d1)) as Hu1.
  rewrite E in Hn1, Hu1. cbn [fst snd] in Hn1, Hu1.
  rewrite Hb, updated_user_fresh in Hn1, Hu1. cbn [streak] in Hn1. subst n1.
  destruct (record_days_from g u r s1 d1 1 Hd1 Hr Hcons Hu1) as [Ha Hb'].
  rewrite snd_get_user_streak, Ha, Hb'. cbn [List.length]. split; lia.
Qed.

Lemma consecutive_days_streak_witness :
  let days := [mkdate 2024 2 28; mkdate 2024 2 29; mkdate 2024 3 1] in
  days <> []
  /\ Forall (reads_back (P := ymd_parser)) days
  /\ consecutive days
  /\ user_record empty_manager "1" "2" = None
  /\ snd (record_days (P := ymd_parser) empty_manager "1" "2" days 0) = 3.
Proof.
  intros days.
  assert (days <> []) as H1 by discriminate.
  assert (Forall (reads_back (P := ymd_parser)) days) as H2
    by (repeat constructor).
  assert (consecutive days) as H3 by (repeat split).
  split; [exact H1|]. split; [exact H2|]. split; [exact H3|].
  split; [reflexivity|].
  exact (proj1 (consecutive_days_streak (P := ymd_parser) empty_manager
                  "1" "2" days H1 H2 H3 (or_introl eq_refl))).
Defined.

(** C4.  For a user with a record, [remove_user_streak] sets the streak to
    0 and the date to [None] together: [get_user_streak] then returns 0
    and the next [record_streak], whatever its date, returns 1.  For a
    user without a record it leaves the users of the guild as they
    were. *)
Theorem remove_user_streak_resets {P : DateParser}
  (s : StreakManager) (g u : string) :
  (forall ud, user_record s g u = Some ud ->
     let s' := remove_user_streak s g u in
     user_record s' g u = Some {| streak := 0; last_date := None |}
     /\ snd (get_user_streak s' g u) = 0
     /\ forall c, snd (record_streak s' g u c) = 1)
  /\ (user_record s g u = None ->
      users_of (remove_user_streak s g u) g = users_of s g).
Proof.
  split.
  - intros ud Hrec s'.
    assert (user_record s' g u = Some {| streak := 0; last_date := None |})
      as Hrec'.
    { unfold user_record. subst s'.
      rewrite users_of_remove_user_streak, Hrec.
      apply DictFacts.get_set_eq. }
    assert (user_before s' g u = {| streak := 0; last_date := None |}) as Hb
      by (unfold user_before; now rewrite Hrec').
    split; [exact Hrec'|]. split.
    + now rewrite snd_get_user_streak, Hb.
    + intros c. now rewrite snd_record_streak, Hb, updated_user_fresh.
  - intros Hnone. now rewrite users_of_remove_user_streak, Hnone.
Qed.

Lemma remove_user_streak_resets_witness :
  let s := fst (record_streak (P := ymd_parser) empty_manager "1" "2"
                  "2024-02-28") in
  (user_record s "1" "2"
   = Some {| streak := 1; last_date := Some "2024-02-28" |}
   /\ snd (get_user_streak (remove_user_streak s "1" "2") "1" "2") = 0
   /\ snd (record_streak (P := ymd_parser) (remove_user_streak s "1" "2")
             "1" "2" "2024-02-29") = 1)
  /\ (user_record s "1" "3" = None
      /\ users_of (remove_user_streak s "1" "3") "1" = users_of s "1").
Proof.
  intros s. split.
  - split; [reflexivity|].
    destruct (proj1 (remove_user_streak_resets (P := ymd_parser) s "1" "2")
                _ eq_refl) as (_ & Hzero & Hone).
    split; [exact Hzero|exact (Hone "2024-02-29")].
  - split; [reflexivity|].
    exact (proj2 (remove_user_streak_resets (P := ymd_parser) s "1" "3")
             eq_refl).
Defined.

(** C10.  When the stored date of a user is a string that the parser
    rejects, [record_streak] for a current date that parses returns 1 and
    replaces the record by streak 1 and the current date; the failure of
    the parser is caught inside the call. *)
Theorem record_streak_unparseable_last_date {P : DateParser}
  (s : StreakManager) (g u : string) (ud : User) (l c : string) (T : date) :
  user_record s g u = Some ud ->
  last_date ud = Some l ->
  fromisoformat l = None ->
  fromisoformat c = Some T ->
  snd (record_streak s g u c) = 1
  /\ user_record (fst (record_streak s g u c)) g u
     = Some {| streak := 1; last_date := Some c |}.
Proof.
  intros Hrec Hl Hnone Hc.
  rewrite snd_record_streak, user_record_record_streak.
  unfold user_before. rewrite Hrec.
  now rewrite (updated_user_unparseable ud l c T Hl Hnone Hc).
Qed.

Lemma record_streak_unparseable_last_date_witness :
  let s := fst (record_streak (P := ymd_parser) empty_manager "1" "2"
                  "yesterday") in
  let ud := {| streak := 1; last_date := Some "yesterday" |} in
  user_record s "1" "2" = Some ud
  /\ fromisoformat (DateParser := ymd_parser) "yesterday" = None
  /\ fromisoformat (DateParser := ymd_parser) "2024-02-29"
     = Some (mkdate 2024 2 29)
  /\ snd (record_streak (P := ymd_parser) s "1" "2" "2024-02-29") = 1.
Proof.
  intros s ud. split; [reflexivity|]. split; [reflexivity|].
  split; [reflexivity|].
  exact (proj1 (record_streak_unparseable_last_date (P := ymd_parser)
                  s "1" "2" ud "yesterday" "2024-02-29" (mkdate 2024 2 29)
                  eq_refl eq_refl eq_refl eq_refl)).
Defined.

(* ================================================================== *)
(** * The leaderboard *)
(* ================================================================== *)

Lemma insert_desc_perm x l : Permutation (insert_desc x l) (x :: l).
Proof.
  induction l as [|y r IH]; cbn [insert_desc]; [reflexivity|].
  destruct (snd x <? snd y); [|reflexivity].
  rewrite IH. apply perm_swap.
Qed.

Lemma sort_desc_perm l : Permutation (sort_desc l) l.
Proof.
  induction l as [|x r IH]; cbn [sort_desc]; [reflexivity|].
  rewrite insert_desc_perm. now apply perm_skip.
Qed.

Lemma insert_desc_sorted x l :
  StronglySorted by_streak_desc l ->
  StronglySorted by_streak_desc (insert_desc x l).
Proof.
  induction 1 as [|y r Hr IH Hy]; cbn [insert_desc].
  - repeat constructor.
  - destruct (Z.ltb_spec (snd x) (snd y)) as [Hlt|Hge].
    + constructor; [exact IH|].
      apply (Permutation_Forall (Permutation_sym (insert_desc_perm x r))).
      constructor; [unfold by_streak_desc; lia|exact Hy].
    + constructor; [now constructor|].
      constructor; [exact Hge|].
      rewrite Forall_forall in Hy |- *. intros z Hz.
      specialize (Hy z Hz). unfold by_streak_desc in *. lia.
Qed.

Lemma sort_desc_sorted l : StronglySorted by_streak_desc (sort_desc l).
Proof.
  induction l as [|x r IH]; cbn [sort_desc]; [constructor|].
  now apply insert_desc_sorted.
Qed.

Lemma positive_streaks_filter us :
  positive_streaks us
  = map (fun e => (fst e, streak (snd e)))
      (filter (fun e => 0 <? streak (snd e)) us).
Proof.
  induction us as [|[user_id data] r IH]; cbn [positive_streaks filter];
    [reflexivity|].
  cbn [snd]. destruct (0 <? streak data); cbn [map fst snd]; now rewrite IH.
Qed.

(** C6.  [get_leaderboard] returns the pairs (user id, streak) of exactly
    the users of the guild whose streak is greater than 0, each once, in
    descending order of streak; a user with streak 0 is not in it.  For
    the users A with 5, B with 0 and C with 3 the result is
    [(A, 5); (C, 3)]. *)
Theorem get_leaderboard_positive_descending (s : StreakManager) (g : string) :
  let leaderboard := snd (get_leaderboard s g) in
  Permutation leaderboard
    (map (fun e => (fst e, streak (snd e)))
       (filter (fun e => 0 <? streak (snd e)) (users_of s g)))
  /\ StronglySorted by_streak_desc leaderboard
  /\ (forall user_id n, In (user_id, n) leaderboard <->
        exists data, In (user_id, data) (users_of s g)
                     /\ streak data = n /\ 0 < n)
  /\ snd (get_leaderboard leaderboard_example "1") = [("A", 5); ("C", 3)].
Proof.
  intros leaderboard.
  assert (Permutation leaderboard
            (map (fun e => (fst e, streak (snd e)))
               (filter (fun e => 0 <? streak (snd e)) (users_of s g))))
    as Hperm.
  { subst leaderboard. unfold get_leaderboard. cbn [snd].
    rewrite guild_data_of_ensure_guild, sort_desc_perm.
    now rewrite positive_streaks_filter. }
  split; [exact Hperm|]. split; [apply sort_desc_sorted|].
  split; [|reflexivity].
  intros user_id n. split.
  - intros Hin. apply (Permutation_in _ Hperm) in Hin.
    apply in_map_iff in Hin. destruct Hin as ([u data] & [= <- <-] & Hf).
    apply filter_In in Hf. destruct Hf as [Hin Hpos]. cbn [snd fst] in *.
    exists data. repeat split; [exact Hin|lia].
  - intros (data & Hin & <- & Hpos).
    apply (Permutation_in _ (Permutation_sym Hperm)).
    apply in_map_iff. exists (user_id, data). split; [reflexivity|].
    apply filter_In. split; [exact Hin|]. cbn [snd]. lia.
Qed.

(* ================================================================== *)
(** * Reads *)
(* ================================================================== *)

Lemma ensure_guild_read_effect s g : read_effect s (ensure_guild s g) g.
Proof.
  split; [apply file_ensure_guild|].
  rewrite data_ensure_guild, guilds_of_ensure_guild.
  destruct (Dict.get (guilds_of s) g) eqn:E; [reflexivity|].
  now rewrite set_absent.
Qed.

(** C9, the claim as it stands fails: on a manager that has never seen
    guild 1, [get_streak_channel] leaves a record of that guild in the
    document in memory. *)
Lemma get_streak_channel_changes_manager :
  fst (get_streak_channel empty_manager "1") <> empty_manager
  /\ guilds_of empty_manager = []
  /\ guilds_of (fst (get_streak_channel empty_manager "1"))
     = [("1", new_guild)].
Proof. repeat split. discriminate. Qed.

(** C9, amended.  [get_streak_channel], [get_role_rewards],
    [get_user_streak] and [get_leaderboard] never touch the file.  In
    memory they leave the manager as it was when the guild has a record,
    and otherwise add an empty record of the guild, as [ensure_guild]
    does, and change nothing else. *)
Theorem reads_only_ensure_guild (s : StreakManager) (g u : string) :
  (read_effect s (fst (get_streak_channel s g)) g
   /\ read_effect s (fst (get_role_rewards s g)) g
   /\ read_effect s (fst (get_user_streak s g u)) g
   /\ read_effect s (fst (get_leaderboard s g)) g)
  /\ (forall gs gd, _data s = Some gs -> Dict.get gs g = Some gd ->
      fst (get_streak_channel s g) = s
      /\ fst (get_role_rewards s g) = s
      /\ fst (get_user_streak s g u) = s
      /\ fst (get_leaderboard s g) = s).
Proof.
  rewrite fst_get_user_streak.
  unfold get_streak_channel, get_role_rewards, get_leaderboard. cbn [fst].
  split.
  - repeat split; apply ensure_guild_read_effect.
  - intros gs gd Hdata Hget.
    now rewrite (ensure_guild_known s gs g gd Hdata Hget).
Qed.

Lemma reads_only_ensure_guild_witness :
  let s := set_streak_channel empty_manager "1" "10" in
  let gd := {| streak_channel_id := Some "10"; users := [];
               role_rewards := [] |} in
  _data s = Some [("1", gd)]
  /\ Dict.get [("1", gd)] "1" = Some gd
  /\ fst (get_streak_channel s "1") = s
  /\ fst (get_leaderboard s "1") = s.
Proof.
  intros s gd. split; [reflexivity|]. split; [reflexivity|].
  destruct (proj2 (reads_only_ensure_guild s "1" "2") _ gd eq_refl eq_refl)
    as (Hc & _ & _ & Hl).
  split; [exact Hc|exact Hl].
Defined.

(* ================================================================== *)
(** * Thresholds of role rewards *)
(* ================================================================== *)

Lemma tp_guild_data s g :
  thresholds_positive s ->
  forall k v, In (k, v) (role_rewards (guild_data_of s g)) ->
              exists d, 0 < d /\ k = py_str d.
Proof.
  intros Htp k v. unfold guild_data_of.
  destruct (Dict.get (guilds_of s) g) as [gd|] eqn:E.
  - apply (Htp g gd k v E).
  - intros [].
Qed.

Lemma tp_ensure_guild s g :
  thresholds_positive s -> thresholds_positive (ensure_guild s g).
Proof.
  intros Htp g' gd k v Hget Hin.
  destruct (String.eqb_spec g g') as [<-|Hne].
  - rewrite get_ensure_guild_same in Hget. injection Hget as <-.
    now apply (tp_guild_data s g Htp k v).
  - rewrite get_ensure_guild_other in Hget by assumption.
    now apply (Htp g' gd k v).
Qed.

(** Every method that writes has this shape: the record of one guild is
    replaced after [ensure_guild], and the document is saved. *)
Lemma tp_update s g gd :
  thresholds_positive s ->
  (forall k v, In (k, v) (role_rewards gd) -> exists d, 0 < d /\ k = py_str d) ->
  thresholds_positive (_save_data (put_guild (ensure_guild s g) g gd)).
Proof.
  intros Htp Hgd g' gd' k v Hget Hin.
  rewrite guilds_of_save_data, guilds_of_put_guild in Hget.
  destruct (String.eqb_spec g g') as [<-|Hne].
  - rewrite DictFacts.get_set_eq in Hget. injection Hget as <-. eauto.
  - rewrite DictFacts.get_set_ne in Hget by assumption.
    now apply (tp_ensure_guild s g Htp g' gd' k v).
Qed.

Lemma tp_set_streak_channel s g c :
  thresholds_positive s -> thresholds_positive (set_streak_channel s g c).
Proof.
  intros Htp. apply tp_update; [exact Htp|].
  rewrite guild_data_of_ensure_guild. now apply tp_guild_data.
Qed.

Lemma tp_unset_streak_channel s g :
  thresholds_positive s -> thresholds_positive (unset_streak_channel s g).
Proof.
  intros Htp. apply tp_update; [exact Htp|].
  rewrite guild_data_of_ensure_guild. now apply tp_guild_data.
Qed.

Lemma tp_remove_user_streak s g u :
  thresholds_positive s -> thresholds_positive (remove_user_streak s g u).
Proof.
  intros Htp. apply tp_update; [exact Htp|].
  rewrite guild_data_of_ensure_guild. now apply tp_guild_data.
Qed.

Lemma tp_set_role_reward s g days r :
  0 < days ->
  thresholds_positive s -> thresholds_positive (set_role_reward s g days r).
Proof.
  intros Hpos Htp. apply tp_update; [exact Htp|].
  rewrite guild_data_of_ensure_guild. cbn [with_rewards role_rewards].
  intros k v Hin. apply DictFacts.in_set in Hin.
  destruct Hin as [[= -> ->]|Hin]; [now exists days|].
  now apply (tp_guild_data s g Htp k v).
Qed.

Lemma tp_remove_role_reward s g days :
  thresholds_positive s -> thresholds_positive (remove_role_reward s g days).
Proof.
  intros Htp. apply tp_update; [exact Htp|].
  rewrite guild_data_of_ensure_guild. cbn [with_rewards role_rewards].
  intros k v Hin. apply DictFacts.in_pop in Hin.
  now apply (tp_guild_data s g Htp k v).
Qed.

Lemma fst_get_role_rewards s g : fst (get_role_rewards s g) = ensure_guild s g.
Proof. reflexivity. Qed.

Section ThresholdFacts.
Context {P : DateParser}.

Lemma tp_record_streak s g u c :
  thresholds_positive s -> thresholds_positive (fst (record_streak s g u c)).
Proof.
  intros Htp. rewrite record_streak_unfold. cbv zeta. cbn [fst].
  apply tp_update; [exact Htp|]. now apply tp_guild_data.
Qed.

Lemma tp_on_message s today m :
  thresholds_positive s -> thresholds_positive (fst (on_message s today m)).
Proof.
  intros Htp. unfold on_message.
  destruct (author_bot m); [exact Htp|].
  destruct (guild m) as [gobj|]; [|exact Htp].
  unfold get_streak_channel.
  pose proof (tp_ensure_guild s (py_str (guild_id_of gobj)) Htp) as Htp1.
  destruct (streak_channel_id _) as [c|]; [|exact Htp1].
  destruct (negb (String.eqb _ c)); [exact Htp1|].
  destruct (negb (startswith _ _)); [exact Htp1|].
  destruct (record_streak _ _ _ _) as [s2 n] eqn:E.
  assert (thresholds_positive s2) as Htp2.
  { change s2 with (fst (s2, n)). rewrite <- E. now apply tp_record_streak. }
  unfold get_role_rewards. cbn [fst]. now apply tp_ensure_guild.
Qed.

Lemma tp_sweep_guild now guilds s guild_id :
  thresholds_positive s ->
  thresholds_positive (fst (sweep_guild now guilds s guild_id)).
Proof.
  intros Htp. unfold sweep_guild.
  destruct (py_int guild_id) as [gid|]; [|exact Htp].
  destruct (get_guild guilds gid) as [gobj|]; [|exact Htp].
  unfold get_role_rewards.
  pose proof (tp_ensure_guild s guild_id Htp) as Htp1.
  destruct (int_keys _ _); [exact Htp1|].
  destruct (int_all _); exact Htp1.
Qed.

Lemma tp_sweep_guilds now guilds guild_ids : forall s,
  thresholds_positive s ->
  thresholds_positive (fst (sweep_guilds now guilds s guild_ids)).
Proof.
  induction guild_ids as [|guild_id r IH]; intros s Htp; [exact Htp|].
  cbn [sweep_guilds].
  pose proof (tp_sweep_guild now guilds s guild_id Htp) as H1.
  destruct (sweep_guild now guilds s guild_id) as [s1 [calls|]];
    cbn [fst] in H1; [|exact H1].
  pose proof (IH s1 H1) as H2.
  destruct (sweep_guilds now guilds s1 r) as [s2 [more|]]; exact H2.
Qed.

Lemma tp_handle s e :
  thresholds_positive s -> thresholds_positive (handle s e).
Proof.
  intros Htp. destruct e; cbn [handle].
  - now apply tp_set_streak_channel.
  - now apply tp_unset_streak_channel.
  - rewrite fst_get_user_streak. now apply tp_ensure_guild.
  - now apply tp_remove_user_streak.
  - unfold add_role. destruct (Z.leb_spec days 0); [exact Htp|].
    now apply tp_set_role_reward.
  - now apply tp_remove_role_reward.
  - rewrite fst_get_role_rewards. now apply tp_ensure_guild.
  - unfold get_leaderboard. cbn [fst]. now apply tp_ensure_guild.
  - now apply tp_on_message.
  - unfold cleanup_inactive_roles. now apply tp_sweep_guilds.
Qed.

Lemma tp_reachable s : reachable s -> thresholds_positive s.
Proof.
  induction 1 as [|s e _ IH].
  - intros g gd k v Hget. discriminate Hget.
  - now apply tp_handle.
Qed.

End ThresholdFacts.

Lemma intdict_in_set {V} (d : IntDict.t V) k v x :
  In x (IntDict.set d k v) -> x = (k, v) \/ In x d.
Proof.
  induction d as [|[k0 v0] r IH]; cbn [IntDict.set].
  - intros [<-|[]]. now left.
  - destruct (Z.eqb_spec k0 k) as [->|Hk].
    + intros [<-|Hin]; [now left|right; now right].
    + intros [<-|Hin]; [right; now left|].
      destruct (IH Hin); [now left|right; now right].
Qed.

Lemma intdict_set_nodup {V} (d : IntDict.t V) k v :
  NoDup (map fst d) -> NoDup (map fst (IntDict.set d k v)).
Proof.
  induction d as [|[k0 v0] r IH]; cbn [IntDict.set map fst].
  - intros _. repeat constructor. intros [].
  - intros Hnd. inversion Hnd as [|? ? Hnotin Hr]; subst.
    destruct (Z.eqb_spec k0 k) as [->|Hk]; cbn [map fst].
    + now constructor.
    + constructor; [|now apply IH].
      intros Hin. apply in_map_iff in Hin. destruct Hin as ([k1 v1] & E & Hin).
      cbn [fst] in E. subst k1. apply intdict_in_set in Hin.
      destruct Hin as [[= -> ->]|Hin]; [congruence|].
      apply Hnotin. apply in_map_iff. now exists (k0, v1).
Qed.

Lemma int_keys_in items : forall acc n v,
  In (n, v) (int_keys items acc) ->
  In (n, v) acc \/ exists k, In (k, v) items /\ py_int k = Some n.
Proof.
  induction items as [|[k0 v0] r IH]; intros acc n v Hin; cbn [int_keys] in Hin.
  - now left.
  - assert (forall acc', (In (n, v) acc' -> In (n, v) acc
                                           \/ (k0, v0) = (k0, v)
                                              /\ py_int k0 = Some n) ->
            In (n, v) (int_keys r acc') ->
            In (n, v) acc
            \/ exists k, In (k, v) ((k0, v0) :: r) /\ py_int k = Some n)
      as Hstep.
    { intros acc' Hacc Hin'. destruct (IH acc' n v Hin') as [Ha|(k & Hk & Hp)].
      - destruct (Hacc Ha) as [Ha'|[[= <-] Hp]]; [now left|].
        right. exists k0. split; [now left|exact Hp].
      - right. exists k. split; [now right|exact Hp]. }
    destruct (isdigit k0); [|apply (Hstep acc); auto].
    destruct (py_int k0) as [n0|] eqn:E; [|apply (Hstep acc); auto].
    apply (Hstep (IntDict.set acc n0 v0)); [|exact Hin].
    intros Hs. apply intdict_in_set in Hs.
    destruct Hs as [[= -> ->]|Hs]; [right; now split|now left].
Qed.

Lemma int_keys_nodup items : forall acc,
  NoDup (map fst acc) -> NoDup (map fst (int_keys items acc)).
Proof.
  induction items as [|[k0 v0] r IH]; intros acc Hnd; cbn [int_keys];
    [exact Hnd|].
  destruct (isdigit k0); [|now apply IH].
  destruct (py_int k0); [|now apply IH].
  apply IH. now apply intdict_set_nodup.
Qed.

Lemma tp_rewards_positive s : thresholds_positive s -> rewards_positive s.
Proof.
  intros Htp g n v Hin.
  unfold get_role_rewards in Hin. cbn [snd] in Hin.
  rewrite guild_data_of_ensure_guild in Hin.
  apply int_keys_in in Hin. destruct Hin as [[]|(k & Hin & Hint)].
  destruct (tp_guild_data s g Htp k v Hin) as (d & Hd & ->).
  rewrite py_int_py_str in Hint. congruence.
Qed.

(** C5, the claim as it stands fails: [set_role_reward] takes any integer.
    Called with the threshold 0 on a manager whose thresholds are all
    positive, trivially, it stores the key ["0"], and [get_role_rewards]
    then returns the key 0. *)
Lemma set_role_reward_accepts_zero :
  let s := set_role_reward empty_manager "1" 0 "7" in
  store_reachable (P := ymd_parser) s
  /\ rewards_positive empty_manager
  /\ snd (get_role_rewards s "1") = [(0, "7")]
  /\ ~ rewards_positive s.
Proof.
  intros s. split; [apply sr_set_role_reward, sr_start|].
  split.
  { apply tp_rewards_positive. intros g gd k v Hget. discriminate Hget. }
  split; [reflexivity|].
  intros Hpos. specialize (Hpos "1" 0 "7" (or_introl eq_refl)). lia.
Qed.

(** C5, amended.  The check on the threshold is in the command [add_role],
    not in the store.  Every event the bot handles keeps every stored
    threshold the decimal form of a positive integer; so in every state
    the bot reaches from a start without a data file, every key that
    [get_role_rewards] returns is positive.  In any state at all the keys
    it returns are distinct: a threshold has one role. *)
Theorem bot_keeps_thresholds_positive {P : DateParser} :
  (forall s e, thresholds_positive s -> thresholds_positive (handle s e))
  /\ (forall s, reachable s -> rewards_positive s)
  /\ (forall s g, NoDup (map fst (snd (get_role_rewards s g)))).
Proof.
  split; [exact tp_handle|]. split.
  - intros s Hr. now apply tp_rewards_positive, tp_reachable.
  - intros s g. unfold get_role_rewards. cbn [snd].
    apply int_keys_nodup. constructor.
Qed.

Lemma bot_keeps_thresholds_positive_witness :
  let s := handle (P := ymd_parser) empty_manager (CmdAddRole 1 5 7) in
  reachable (P := ymd_parser) s
  /\ snd (get_role_rewards s "1") = [(5, "7")]
  /\ rewards_positive s.
Proof.
  intros s.
  assert (reachable (P := ymd_parser) s) as Hr
    by apply reachable_step, reachable_start.
  split; [exact Hr|]. split; [reflexivity|].
  exact (proj1 (proj2 (bot_keeps_thresholds_positive (P := ymd_parser))) s Hr).
Defined.

(* ================================================================== *)
(** * The reward resolver *)
(* ================================================================== *)

Lemma mem_In x l : mem x l = true <-> In x l.
Proof.
  unfold mem. rewrite existsb_exists. split.
  - intros (y & Hin & E). apply Z.eqb_eq in E. now subst.
  - intros Hin. exists x. split; [exact Hin|apply Z.eqb_refl].
Qed.

Lemma mem_false x l : mem x l = false <-> ~ In x l.
Proof.
  rewrite <- mem_In. destruct (mem x l); split; congruence.
Qed.

Lemma get_role_Some g rid r :
  get_role g rid = Some r <-> r = rid /\ In rid (guild_roles g).
Proof.
  unfold get_role. destruct (mem rid (guild_roles g)) eqn:E.
  - apply mem_In in E. split; [intros [= <-]|intros [-> _]]; auto.
  - apply mem_false in E. split; [discriminate|intros [_ H]; contradiction].
Qed.

Lemma resolveGrants_in streak rewards currentRoles r :
  In r (resolveGrants streak rewards currentRoles) <->
  exists d role_id,
    In (d, role_id) rewards /\ d <= streak /\ py_int role_id = Some r
    /\ ~ In r currentRoles.
Proof.
  induction rewards as [|[d0 rid0] rest IH]; cbn [resolveGrants].
  - split; [intros []|intros (d & rid & [] & _)].
  - assert ((exists d role_id,
               In (d, role_id) ((d0, rid0) :: rest) /\ d <= streak
               /\ py_int role_id = Some r /\ ~ In r currentRoles)
            <-> (d0 <= streak /\ py_int rid0 = Some r /\ ~ In r currentRoles)
                \/ In r (resolveGrants streak rest currentRoles)) as ->.
    { rewrite IH. split.
      - intros (d & rid & Hin & Hc).
        destruct Hin as [Heq|Hin]; [injection Heq as <- <-; now left|].
        right. now exists d, rid.
      - intros [H|(d & rid & Hin & H)].
        + exists d0, rid0. split; [now left|exact H].
        + exists d, rid. split; [now right|exact H]. }
    destruct (py_int rid0) as [role|] eqn:E.
    + destruct (Z.leb_spec d0 streak) as [Hle|Hgt]; cbn [andb].
      * destruct (mem role currentRoles) eqn:Hm; cbn [negb].
        -- apply mem_In in Hm. split; [now right|].
           intros [(_ & [= <-] & Hn)|H]; [contradiction|exact H].
        -- apply mem_false in Hm. cbn [In]. split.
           ++ intros [<-|H]; [left; auto|now right].
           ++ intros [(_ & [= <-] & _)|H]; [now left|now right].
      * split; [now right|]. intros [(Hle & _)|H]; [lia|exact H].
    + split; [now right|]. intros [(_ & [=] & _)|H]. exact H.
Qed.

Lemma roles_to_add_from_spec guild member_roles streak_count items :
  forall acc,
  (forall d role_id, In (d, role_id) items -> py_int role_id <> None) ->
  exists roles,
    roles_to_add_from guild member_roles streak_count items acc = Some roles
    /\ forall r, In r roles <->
         In r acc
         \/ (In r (resolveGrants streak_count items member_roles)
             /\ In r (guild_roles guild)).
Proof.
  induction items as [|[d0 rid0] rest IH]; intros acc Hnum;
    cbn [roles_to_add_from resolveGrants].
  - exists acc. split; [reflexivity|]. intros r. split; [now left|].
    intros [H|[[] _]]. exact H.
  - assert (forall d role_id, In (d, role_id) rest -> py_int role_id <> None)
      as Hrest by (intros d rid Hin; apply (Hnum d rid); now right).
    destruct (py_int rid0) as [rid|] eqn:E;
      [|exfalso; apply (Hnum d0 rid0); [now left|exact E]].
    destruct (Z.leb_spec d0 streak_count) as [Hle|Hgt]; cbn [andb];
      [|apply (IH acc Hrest)].
    destruct (get_role guild rid) as [role|] eqn:Hrole.
    + apply get_role_Some in Hrole. destruct Hrole as [-> Hex].
      destruct (mem rid member_roles) eqn:Hm; cbn [negb].
      * apply (IH acc Hrest).
      * destruct (IH (acc ++ [rid]) Hrest) as (roles & Hq & Hspec).
        exists roles. split; [exact Hq|]. intros r. rewrite Hspec.
        rewrite in_app_iff. cbn [In]. split.
        -- intros [[H|[<-|[]]]|[H1 H2]]; auto.
        -- intros [H|[[<-|H1] H2]]; auto.
    + assert (~ In rid (guild_roles guild)) as Hnot.
      { intros Hin. assert (get_role guild rid = Some rid) as Hs
          by (apply get_role_Some; auto). congruence. }
      destruct (IH acc Hrest) as (roles & Hq & Hspec).
      exists roles. split; [exact Hq|]. intros r. rewrite Hspec.
      destruct (mem rid member_roles); cbn [negb In]; [reflexivity|].
      split.
      * intros [H|[H1 H2]]; auto.
      * intros [H|[[<-|H1] H2]]; auto. contradiction.
Qed.

(** C7, the claim as it stands fails: a reward whose role no longer exists
    in the guild is passed over.  With the reward 5 -> role 7, a streak of
    10 and a member who holds nothing, the set of the claim is {7}; the
    bot grants nothing, as role 7 is not among the roles of the guild. *)
Lemma unresolvable_role_not_granted :
  let rewards := [(5, "7")] in
  get_member guild_without_role_7 2 = Some []
  /\ resolveGrants 10 rewards [] = [7]
  /\ granted (roles_to_add guild_without_role_7 rewards "2" 10) = []
  /\ ~ (forall r,
          In r (granted (roles_to_add guild_without_role_7 rewards "2" 10))
          <-> In r (resolveGrants 10 rewards [])).
Proof.
  intros rewards. repeat split.
  intros H. apply (proj2 (H 7)). now left.
Qed.

(** C7, amended.  For an author who is a member of the guild, and rewards
    whose role ids are numbers, the roles handed to [member.add_roles] are
    exactly the roles that some threshold reached by the streak maps to,
    that still exist in the guild, and that the member does not hold;
    all of them are granted in one call. *)
Theorem roles_to_add_resolves (guild : DiscordGuild)
  (rewards : IntDict.t string) (user_id : string) (uid : Z)
  (member_roles : list Z) (streak_count : Z) :
  py_int user_id = Some uid ->
  get_member guild uid = Some member_roles ->
  (forall d role_id, In (d, role_id) rewards -> py_int role_id <> None) ->
  exists roles,
    roles_to_add guild rewards user_id streak_count = Some roles
    /\ (forall r, In r roles <->
          In r (resolveGrants streak_count rewards member_roles)
          /\ In r (guild_roles guild))
    /\ (forall r, In r roles <->
          (exists d role_id,
             In (d, role_id) rewards /\ d <= streak_count
             /\ py_int role_id = Some r /\ ~ In r member_roles)
          /\ In r (guild_roles guild)).
Proof.
  intros Huid Hmember Hnum.
  assert (exists roles,
            roles_to_add guild rewards user_id streak_count = Some roles
            /\ forall r, In r roles <->
                 In r (resolveGrants streak_count rewards member_roles)
                 /\ In r (guild_roles guild)) as (roles & Hq & Hspec).
  { unfold roles_to_add. destruct rewards as [|e rest] eqn:Er.
    - exists []. split; [reflexivity|]. intros r. split; [intros []|].
      intros [[] _].
    - rewrite Huid, Hmember.
      destruct (roles_to_add_from_spec guild member_roles streak_count
                  (e :: rest) [] Hnum) as (roles & Hq & Hspec).
      exists roles. split; [exact Hq|]. intros r. rewrite Hspec.
      split; [intros [[]|H]; exact H|now right]. }
  exists roles. split; [exact Hq|]. split; [exact Hspec|].
  intros r. rewrite Hspec, resolveGrants_in. reflexivity.
Qed.

Lemma roles_to_add_resolves_witness :
  let guild := {| guild_id_of := 1; guild_roles := [101; 102];
                  guild_members := [(2, [101])] |} in
  let rewards := [(5, "101"); (10, "102")] in
  py_int "2" = Some 2
  /\ get_member guild 2 = Some [101]
  /\ roles_to_add guild rewards "2" 10 = Some [102]
  /\ exists roles,
       roles_to_add guild rewards "2" 10 = Some roles
       /\ forall r, In r roles <->
            In r (resolveGrants 10 rewards [101]) /\ In r (guild_roles guild).
Proof.
  intros guild rewards. split; [reflexivity|]. split; [reflexivity|].
  split; [reflexivity|].
  destruct (roles_to_add_resolves guild rewards "2" 2 [101] 10 eq_refl eq_refl)
    as (roles & Hq & Hspec & _).
  - intros d role_id [[= <- <-]|[[= <- <-]|[]]]; discriminate.
  - exists roles. split; [exact Hq|exact Hspec].
Defined.

(* ================================================================== *)
(** * The inactivity sweeper *)
(* ================================================================== *)

Lemma roles_to_remove_in guild_obj role_ids member_roles r :
  In r (roles_to_remove guild_obj role_ids member_roles) <->
  In r role_ids /\ In r (guild_roles guild_obj) /\ In r member_roles.
Proof.
  induction role_ids as [|rid rest IH]; cbn [roles_to_remove In].
  - tauto.
  - destruct (get_role guild_obj rid) as [role|] eqn:Hrole.
    + apply get_role_Some in Hrole. destruct Hrole as [-> Hex].
      destruct (mem rid member_roles) eqn:Hm.
      * apply mem_In in Hm. cbn [In]. rewrite IH. split.
        -- intros [<-|H]; tauto.
        -- intros [[<-|H] H2]; tauto.
      * apply mem_false in Hm. rewrite IH. split; [tauto|].
        intros [[<-|H] [H2 H3]]; [contradiction|tauto].
    + assert (~ In rid (guild_roles guild_obj)) as Hnot.
      { intros Hin. assert (get_role guild_obj rid = Some rid) as Hs
          by (apply get_role_Some; auto). congruence. }
      rewrite IH. split; [tauto|].
      intros [[<-|H] [H2 H3]]; [contradiction|tauto].
Qed.

Lemma int_all_total l :
  (forall x, In x l -> py_int x <> None) -> exists ns, int_all l = Some ns.
Proof.
  induction l as [|x r IH]; intros Hnum; cbn [int_all].
  - now exists [].
  - destruct (py_int x) as [n|] eqn:E;
      [|exfalso; apply (Hnum x); [now left|exact E]].
    destruct IH as (ns & ->); [intros y Hy; apply Hnum; now right|].
    now exists (n :: ns).
Qed.

Section SweeperFacts.
Context {P : DateParser}.

Lemma inactive_iff now data :
  inactive now data = true <-> inactive_over_7_days now data.
Proof.
  unfold inactive, inactive_over_7_days.
  destruct (last_date data) as [l|]; cbn [truthy negb].
  - destruct l as [|c l'].
    + split; [discriminate|]. intros (l & d & [= <-] & Hne & _). congruence.
    + cbn [negb]. destruct (fromisoformat (String c l')) as [d|] eqn:E.
      * rewrite Z.ltb_lt. split.
        -- intros Hlt. exists (String c l'), d. repeat split; auto.
           discriminate.
        -- intros (l & d1 & Hl & _ & Hp & Hlt).
           injection Hl as <-. rewrite E in Hp. injection Hp as <-. exact Hlt.
      * split; [discriminate|].
        intros (l & d1 & Hl & _ & Hp & _). injection Hl as <-. congruence.
  - split; [discriminate|]. intros (l & d & Hl & _). discriminate.
Qed.

Lemma sweep_users_spec now guild_obj role_ids users_data :
  (forall user_id data, In (user_id, data) users_data ->
     py_int user_id <> None) ->
  exists calls,
    sweep_users now guild_obj role_ids users_data = Some calls
    /\ forall uid roles, In (uid, roles) calls <->
         exists user_id data,
           In (user_id, data) users_data /\ py_int user_id = Some uid
           /\ inactive_over_7_days now data
           /\ roles = held_reward_roles guild_obj role_ids uid
           /\ roles <> [].
Proof.
  induction users_data as [|[user_id0 data0] rest IH]; intros Hnum;
    cbn [sweep_users].
  - exists []. split; [reflexivity|]. intros uid roles.
    split; [intros []|intros (u & d & [] & _)].
  - destruct IH as (more & Hmore & Hspec);
      [intros u d Hin; apply (Hnum u d); now right|].
    rewrite Hmore.
    destruct (py_int user_id0) as [uid0|] eqn:Huid;
      [|exfalso; apply (Hnum user_id0 data0); [now left|exact Huid]].
    assert (exists calls,
              sweep_user now guild_obj role_ids user_id0 data0 = Some calls
              /\ forall uid roles, In (uid, roles) calls <->
                   uid = uid0 /\ inactive_over_7_days now data0
                   /\ roles = held_reward_roles guild_obj role_ids uid0
                   /\ roles <> []) as (calls & Hcalls & Hone).
    { unfold sweep_user, held_reward_roles. rewrite Huid.
      pose proof (inactive_iff now data0) as Hin.
      destruct (inactive now data0).
      - assert (inactive_over_7_days now data0) as Hyes by now apply Hin.
        destruct (get_member guild_obj uid0) as [mr|].
        + destruct (roles_to_remove guild_obj role_ids mr) as [|r0 rs] eqn:Er.
          * exists []. split; [reflexivity|]. intros uid roles.
            split; [intros []|]. intros (_ & _ & -> & Hne). congruence.
          * exists [(uid0, r0 :: rs)]. split; [reflexivity|].
            intros uid roles. cbn [In]. split.
            -- intros [E|[]]. injection E as <- <-.
               repeat split; auto. discriminate.
            -- intros (-> & _ & -> & _). now left.
        + exists []. split; [reflexivity|]. intros uid roles.
          split; [intros []|]. intros (_ & _ & -> & Hne). congruence.
      - exists []. split; [reflexivity|]. intros uid roles.
        split; [intros []|]. intros (_ & Hyes & _).
        apply Hin in Hyes. discriminate. }
    rewrite Hcalls. exists (calls ++ more). split; [reflexivity|].
    intros uid roles. rewrite in_app_iff, Hone, Hspec. split.
    + intros [(-> & Hi & Hr & Hne)|(u & d & Hin & H)].
      * exists user_id0, data0. split; [now left|]. auto.
      * exists u, d. split; [now right|exact H].
    + intros (u & d & [E|Hin] & Hp & Hi & Hr & Hne).
      * injection E as <- <-. left. rewrite Huid in Hp.
        injection Hp as <-. auto.
      * right. exists u, d. auto.
Qed.

End SweeperFacts.

(* ================================================================== *)
(** * The scenarios of the specification, evaluated *)
(* ================================================================== *)

(** A day missed: the streak falls back to 1 and grows again. *)
Example gap_resets_then_grows :
  let day d := isoformat (mkdate 2024 3 d) in
  let s1 := fst (record_streak empty_manager "1" "2" (day 1)) in
  let s2 := fst (record_streak s1 "1" "2" (day 2)) in
  let s4 := fst (record_streak s2 "1" "2" (day 4)) in
  snd (record_streak s1 "1" "2" (day 2)) = 2
  /\ snd (record_streak s2 "1" "2" (day 4)) = 1
  /\ snd (record_streak s4 "1" "2" (day 5)) = 2.
Proof. repeat split. Qed.

(** Two thresholds reached at once; a role already held is left out. *)
Example resolveGrants_both_thresholds :
  resolveGrants 10 [(5, "101"); (10, "102")] [] = [101; 102]
  /\ resolveGrants 10 [(5, "101"); (10, "102")] [101] = [102].
Proof. split; reflexivity. Qed.

(** Entries with the same streak keep the order of the dictionary. *)
Example sort_desc_is_stable :
  sort_desc [("a", 1); ("b", 3); ("c", 1); ("d", 3); ("e", 2)]
  = [("b", 3); ("d", 3); ("e", 2); ("a", 1); ("c", 1)].
Proof. reflexivity. Qed.

(** Two strings of digits for one number: the later entry wins. *)
Example int_keys_later_entry_wins :
  int_keys [("5", "101"); ("05", "102"); ("-3", "103")] [] = [(5, "102")].
Proof. reflexivity. Qed.

(* ================================================================== *)
(** * Beyond the claims: the manager as a store *)
(* ================================================================== *)

Lemma get_update s g gd g' :
  Dict.get (guilds_of (_save_data (put_guild (ensure_guild s g) g gd))) g'
  = if String.eqb g g' then Some gd else Dict.get (guilds_of s) g'.
Proof.
  rewrite guilds_of_save_data, guilds_of_put_guild.
  destruct (String.eqb_spec g g') as [<-|Hne].
  - apply DictFacts.get_set_eq.
  - rewrite DictFacts.get_set_ne by assumption.
    now apply get_ensure_guild_other.
Qed.

Lemma guild_data_of_update s g gd g' :
  guild_data_of (_save_data (put_guild (ensure_guild s g) g gd)) g'
  = if String.eqb g g' then gd else guild_data_of s g'.
Proof.
  unfold guild_data_of at 1. rewrite get_update.
  now destruct (String.eqb g g').
Qed.

Lemma gd_set_streak_channel s g c g' :
  guild_data_of (set_streak_channel s g c) g'
  = if String.eqb g g' then with_channel (guild_data_of s g) (Some c)
    else guild_data_of s g'.
Proof.
  unfold set_streak_channel. cbv zeta.
  now rewrite guild_data_of_update, guild_data_of_ensure_guild.
Qed.

Lemma gd_unset_streak_channel s g g' :
  guild_data_of (unset_streak_channel s g) g'
  = if String.eqb g g' then with_channel (guild_data_of s g) None
    else guild_data_of s g'.
Proof.
  unfold unset_streak_channel. cbv zeta.
  now rewrite guild_data_of_update, guild_data_of_ensure_guild.
Qed.

Lemma gd_remove_user_streak s g u g' :
  guild_data_of (remove_user_streak s g u) g'
  = if String.eqb g g'
    then with_users (guild_data_of s g)
           match user_record s g u with
           | Some _ =>
               Dict.set (users_of s g) u {| streak := 0; last_date := None |}
           | None => users_of s g
           end
    else guild_data_of s g'.
Proof.
  unfold remove_user_streak. cbv zeta.
  now rewrite guild_data_of_update, guild_data_of_ensure_guild.
Qed.

Lemma gd_set_role_reward s g days r g' :
  guild_data_of (set_role_reward s g days r) g'
  = if String.eqb g g'
    then with_rewards (guild_data_of s g)
           (Dict.set (role_rewards (guild_data_of s g)) (py_str days) r)
    else guild_data_of s g'.
Proof.
  unfold set_role_reward. cbv zeta.
  now rewrite guild_data_of_update, guild_data_of_ensure_guild.
Qed.

Lemma gd_remove_role_reward s g days g' :
  guild_data_of (remove_role_reward s g days) g'
  = if String.eqb g g'
    then with_rewards (guild_data_of s g)
           (Dict.pop (role_rewards (guild_data_of s g)) (py_str days))
    else guild_data_of s g'.
Proof.
  unfold remove_role_reward. cbv zeta.
  now rewrite guild_data_of_update, guild_data_of_ensure_guild.
Qed.

Lemma gd_record_streak {P : DateParser} s g u c g' :
  guild_data_of (fst (record_streak s g u c)) g'
  = if String.eqb g g'
    then with_users (guild_data_of s g)
           (Dict.set (users_of s g) u (updated_user (user_before s g u) c))
    else guild_data_of s g'.
Proof.
  rewrite record_streak_unfold. cbv zeta. cbn [fst].
  apply guild_data_of_update.
Qed.

Lemma ensure_guild_twice s g : ensure_guild (ensure_guild s g) g = ensure_guild s g.
Proof.
  apply (ensure_guild_known _ _ g (guild_data_of s g) (data_ensure_guild s g)).
  apply get_ensure_guild_same.
Qed.

(** [ensure_guild] is idempotent; it keeps the record of every guild that
    has one, and afterwards the guild has a record. *)
Theorem ensure_guild_idempotent (s : StreakManager) (g : string) :
  ensure_guild (ensure_guild s g) g = ensure_guild s g
  /\ (forall g' gd, Dict.get (guilds_of s) g' = Some gd ->
        Dict.get (guilds_of (ensure_guild s g)) g' = Some gd)
  /\ Dict.get (guilds_of (ensure_guild s g)) g <> None
  /\ file (ensure_guild s g) = file s.
Proof.
  split; [apply ensure_guild_twice|]. split; [|split].
  - intros g' gd Hget. destruct (String.eqb_spec g g') as [<-|Hne].
    + rewrite get_ensure_guild_same. unfold guild_data_of. now rewrite Hget.
    + now rewrite get_ensure_guild_other.
  - now rewrite get_ensure_guild_same.
  - apply file_ensure_guild.
Qed.

Lemma ensure_guild_idempotent_witness :
  let s := set_streak_channel empty_manager "1" "10" in
  let gd := {| streak_channel_id := Some "10"; users := [];
               role_rewards := [] |} in
  Dict.get (guilds_of s) "1" = Some gd
  /\ Dict.get (guilds_of (ensure_guild s "2")) "1" = Some gd.
Proof.
  intros s gd. split; [reflexivity|].
  exact (proj1 (proj2 (ensure_guild_idempotent s "2")) "1" gd eq_refl).
Defined.

Lemma load_data_facts s :
  guilds_of (restart (_save_data s)) = guilds_of s
  /\ _data (load_data s) <> None
  /\ file (load_data s) = file s
  /\ load_data (load_data s) = load_data s.
Proof.
  destruct s as [d f]. unfold restart, load_data, _save_data, guilds_of.
  cbn [_data file __init__].
  split; [now destruct d|].
  destruct f as [[gs|]|]; cbn [_data file]; repeat split; discriminate.
Qed.

Section StoreCalls.
Context {P : DateParser}.

Lemma saves_shape s c : saves c = true -> exists x, call s c = _save_data x.
Proof.
  intros Hs.
  destruct c; try discriminate Hs; cbn [call];
    try (eexists; reflexivity).
  rewrite record_streak_unfold. cbv zeta. cbn [fst]. eexists; reflexivity.
Qed.

(** Write-through: after each method that changes the document, the file
    holds the document that is in memory, so that a process started on
    the file has the same guilds. *)
Theorem saving_calls_write_through (s : StreakManager) (c : Call) :
  saves c = true ->
  file (call s c) = Some (_data (call s c))
  /\ guilds_of (restart (call s c)) = guilds_of (call s c).
Proof.
  intros Hs. destruct (saves_shape s c Hs) as (x & E). rewrite E.
  split; [reflexivity|]. exact (proj1 (load_data_facts x)).
Qed.

End StoreCalls.

Lemma saving_calls_write_through_witness :
  let c := RecordStreak "1" "2" "2024-02-28" in
  saves c = true
  /\ guilds_of (restart (call (P := ymd_parser) empty_manager c))
     = guilds_of (call (P := ymd_parser) empty_manager c).
Proof.
  intros c. split; [reflexivity|].
  exact (proj2 (saving_calls_write_through (P := ymd_parser) empty_manager c
                  eq_refl)).
Defined.

Section CallFrames.
Context {P : DateParser}.

Lemma guild_data_of_call_other s c g' :
  call_guild c <> g' -> guild_data_of (call s c) g' = guild_data_of s g'.
Proof.
  intros Hne. apply String.eqb_neq in Hne.
  destruct c; cbn [call call_guild] in *;
    rewrite ?fst_get_user_streak;
    unfold get_streak_channel, get_role_rewards, get_leaderboard;
    cbn [fst];
    rewrite ?guild_data_of_ensure_guild, ?gd_set_streak_channel,
      ?gd_unset_streak_channel, ?gd_record_streak, ?gd_remove_user_streak,
      ?gd_set_role_reward, ?gd_remove_role_reward, ?Hne; reflexivity.
Qed.

Lemma get_call_other s c g' :
  call_guild c <> g' ->
  Dict.get (guilds_of (call s c)) g' = Dict.get (guilds_of s) g'.
Proof.
  intros Hne. pose proof Hne as Hneb. apply String.eqb_neq in Hneb.
  destruct c; cbn [call call_guild] in *;
    rewrite ?fst_get_user_streak;
    unfold get_streak_channel, get_role_rewards, get_leaderboard,
      set_streak_channel, unset_streak_channel, remove_user_streak,
      set_role_reward, remove_role_reward;
    rewrite ?record_streak_unfold; cbv zeta; cbn [fst];
    rewrite ?get_update, ?Hneb; try reflexivity;
    now apply get_ensure_guild_other.
Qed.

Lemma get_call_same s c :
  Dict.get (guilds_of (call s c)) (call_guild c)
  = Some (guild_data_of (call s c) (call_guild c)).
Proof.
  assert (forall s' g, Dict.get (guilds_of s') g <> None ->
            Dict.get (guilds_of s') g = Some (guild_data_of s' g)) as Hk.
  { intros s' g Hn. unfold guild_data_of.
    now destruct (Dict.get (guilds_of s') g). }
  apply Hk.
  destruct c; cbn [call call_guild];
    rewrite ?fst_get_user_streak;
    unfold get_streak_channel, get_role_rewards, get_leaderboard,
      set_streak_channel, unset_streak_channel, remove_user_streak,
      set_role_reward, remove_role_reward;
    rewrite ?record_streak_unfold; cbv zeta; cbn [fst];
    rewrite ?get_update, ?String.eqb_refl, ?get_ensure_guild_same;
    discriminate.
Qed.

End CallFrames.

Section CallEffects.
Context {P : DateParser}.

Ltac unfold_reads :=
  rewrite ?fst_get_user_streak;
  unfold get_streak_channel, get_role_rewards, get_leaderboard; cbn [fst];
  rewrite ?guild_data_of_ensure_guild.

Ltac by_guild g g' :=
  destruct (String.eqb_spec g g') as [<-|?]; try reflexivity.

Lemma users_of_call s c g' :
  users_of (call s c) g'
  = match c with
    | RecordStreak g u d =>
        if String.eqb g g'
        then Dict.set (users_of s g) u (updated_user (user_before s g u) d)
        else users_of s g'
    | RemoveUserStreak g u =>
        if String.eqb g g'
        then match user_record s g u with
             | Some _ =>
                 Dict.set (users_of s g) u
                   {| streak := 0; last_date := None |}
             | None => users_of s g
             end
        else users_of s g'
    | _ => users_of s g'
    end.
Proof.
  unfold users_of at 1.
  destruct c as [g ch|g|g|g u d|g u|g days r|g days|g|g u|g];
    cbn [call]; unfold_reads; try reflexivity;
    rewrite ?gd_set_streak_channel, ?gd_unset_streak_channel,
      ?gd_record_streak, ?gd_remove_user_streak, ?gd_set_role_reward,
      ?gd_remove_role_reward;
    by_guild g g'.
Qed.

Lemma channel_of_call s c g' :
  streak_channel_id (guild_data_of (call s c) g')
  = match c with
    | SetStreakChannel g ch =>
        if String.eqb g g' then Some ch
        else streak_channel_id (guild_data_of s g')
    | UnsetStreakChannel g =>
        if String.eqb g g' then None
        else streak_channel_id (guild_data_of s g')
    | _ => streak_channel_id (guild_data_of s g')
    end.
Proof.
  destruct c as [g ch|g|g|g u d|g u|g days r|g days|g|g u|g];
    cbn [call]; unfold_reads; try reflexivity;
    rewrite ?gd_set_streak_channel, ?gd_unset_streak_channel,
      ?gd_record_streak, ?gd_remove_user_streak, ?gd_set_role_reward,
      ?gd_remove_role_reward;
    by_guild g g'.
Qed.

Lemma rewards_of_call s c g' :
  role_rewards (guild_data_of (call s c) g')
  = match c with
    | SetRoleReward g days r =>
        if String.eqb g g'
        then Dict.set (role_rewards (guild_data_of s g)) (py_str days) r
        else role_rewards (guild_data_of s g')
    | RemoveRoleReward g days =>
        if String.eqb g g'
        then Dict.pop (role_rewards (guild_data_of s g)) (py_str days)
        else role_rewards (guild_data_of s g')
    | _ => role_rewards (guild_data_of s g')
    end.
Proof.
  destruct c as [g ch|g|g|g u d|g u|g days r|g days|g|g u|g];
    cbn [call]; unfold_reads; try reflexivity;
    rewrite ?gd_set_streak_channel, ?gd_unset_streak_channel,
      ?gd_record_streak, ?gd_remove_user_streak, ?gd_set_role_reward,
      ?gd_remove_role_reward;
    by_guild g g'.
Qed.

Lemma user_record_call s c g' u' :
  call_user c <> Some (g', u') ->
  user_record (call s c) g' u' = user_record s g' u'.
Proof.
  intros Hne. unfold user_record at 1. rewrite users_of_call.
  destruct c as [g ch|g|g|g u d|g u|g days r|g days|g|g u|g];
    try reflexivity; cbn [call_user] in Hne;
    (destruct (String.eqb_spec g g') as [<-|Hg]; [|reflexivity]);
    assert (u <> u') as Hu by congruence.
  - now rewrite DictFacts.get_set_ne.
  - destruct (user_record s g u); [|reflexivity].
    now rewrite DictFacts.get_set_ne.
Qed.

(** Guilds are isolated: a call about one guild leaves the record of
    every other guild as it was. *)
Theorem calls_leave_other_guilds (s : StreakManager) (c : Call) (g' : string) :
  call_guild c <> g' ->
  Dict.get (guilds_of (call s c)) g' = Dict.get (guilds_of s) g'.
Proof. apply get_call_other. Qed.

(** Each method writes only what it is for.  The record of a user changes
    only by [record_streak] and [remove_user_streak] for that user of that
    guild; the streak channel of a guild only by [set_streak_channel] and
    [unset_streak_channel] for it; the rewards of a guild only by
    [set_role_reward] and [remove_role_reward] for it. *)
Theorem calls_write_only_their_part (s : StreakManager) (c : Call)
  (g' u' : string) :
  (call_user c <> Some (g', u') ->
   user_record (call s c) g' u' = user_record s g' u')
  /\ (call_channel c <> Some g' ->
      streak_channel_id (guild_data_of (call s c) g')
      = streak_channel_id (guild_data_of s g'))
  /\ (call_rewards c <> Some g' ->
      role_rewards (guild_data_of (call s c) g')
      = role_rewards (guild_data_of s g')).
Proof.
  split; [apply user_record_call|]. split.
  - intros Hne. rewrite channel_of_call.
    destruct c as [g ch|g|g|g u d|g u|g days r|g days|g|g u|g];
      try reflexivity; cbn [call_channel] in Hne;
      destruct (String.eqb_spec g g'); congruence.
  - intros Hne. rewrite rewards_of_call.
    destruct c as [g ch|g|g|g u d|g u|g days r|g days|g|g u|g];
      try reflexivity; cbn [call_rewards] in Hne;
      destruct (String.eqb_spec g g'); congruence.
Qed.

(** None of the ten methods that read or update the document (the calls
    of [Call]; [load_data], which replaces the document by that of the
    file, is not one of them) removes the record of a guild or the record
    of a user: [remove_user_streak] resets the record in place. *)
Theorem records_are_never_deleted (s : StreakManager) (c : Call)
  (g u : string) :
  (Dict.get (guilds_of s) g <> None ->
   Dict.get (guilds_of (call s c)) g <> None)
  /\ (user_record s g u <> None -> user_record (call s c) g u <> None).
Proof.
  split.
  - intros Hg. destruct (String.eqb_spec (call_guild c) g) as [<-|Hne].
    + rewrite get_call_same. discriminate.
    + now rewrite get_call_other.
  - intros Hu. unfold user_record at 1. rewrite users_of_call.
    destruct c as [g0 ch|g0|g0|g0 u0 d|g0 u0|g0 days r|g0 days|g0|g0 u0|g0];
      try exact Hu;
      (destruct (String.eqb_spec g0 g) as [<-|Hg]; [|exact Hu]).
    + destruct (String.eqb_spec u0 u) as [<-|Hne].
      * rewrite DictFacts.get_set_eq. discriminate.
      * now rewrite DictFacts.get_set_ne.
    + destruct (String.eqb_spec u0 u) as [<-|Hne].
      * fold (user_record s g0 u0). destruct (user_record s g0 u0);
          [|congruence]. rewrite DictFacts.get_set_eq. discriminate.
      * destruct (user_record s g0 u0); [|exact Hu].
        now rewrite DictFacts.get_set_ne.
Qed.

End CallEffects.

Lemma calls_leave_other_guilds_witness :
  let s := fst (record_streak (P := ymd_parser) empty_manager "1" "2"
                  "2024-02-28") in
  let c := SetRoleReward "9" 5 "7" in
  call_guild c <> "1"
  /\ Dict.get (guilds_of (call (P := ymd_parser) s c)) "1"
     = Dict.get (guilds_of s) "1".
Proof.
  intros s c. assert (call_guild c <> "1") as Hne by discriminate.
  split; [exact Hne|].
  exact (calls_leave_other_guilds (P := ymd_parser) s c "1" Hne).
Defined.

Lemma calls_write_only_their_part_witness :
  let s := fst (record_streak (P := ymd_parser) empty_manager "1" "2"
                  "2024-02-28") in
  let c := RecordStreak "1" "3" "2024-02-29" in
  call_user c <> Some ("1", "2")
  /\ user_record (call (P := ymd_parser) s c) "1" "2" = user_record s "1" "2".
Proof.
  intros s c. assert (call_user c <> Some ("1", "2")) as Hne by discriminate.
  split; [exact Hne|].
  exact (proj1 (calls_write_only_their_part (P := ymd_parser) s c "1" "2") Hne).
Defined.

Lemma records_are_never_deleted_witness :
  let s := fst (record_streak (P := ymd_parser) empty_manager "1" "2"
                  "2024-02-28") in
  let c := RemoveUserStreak "1" "2" in
  user_record s "1" "2" <> None
  /\ user_record (call (P := ymd_parser) s c) "1" "2" <> None.
Proof.
  intros s c. assert (user_record s "1" "2" <> None) as Hu by discriminate.
  split; [exact Hu|].
  exact (proj2 (records_are_never_deleted (P := ymd_parser) s c "1" "2") Hu).
Defined.

(* ================================================================== *)
(** * Beyond the claims: channel and streak *)
(* ================================================================== *)

(** [get_streak_channel] returns the channel that the last
    [set_streak_channel] of the guild gave, [None] after
    [unset_streak_channel], and [None] for a guild without a record. *)
Theorem streak_channel_round_trip (s : StreakManager) (g c c' : string) :
  snd (get_streak_channel (set_streak_channel s g c) g) = Some c
  /\ snd (get_streak_channel
            (set_streak_channel (set_streak_channel s g c) g c') g) = Some c'
  /\ snd (get_streak_channel (unset_streak_channel s g) g) = None
  /\ snd (get_streak_channel
            (unset_streak_channel (set_streak_channel s g c) g) g) = None
  /\ (Dict.get (guilds_of s) g = None -> snd (get_streak_channel s g) = None).
Proof.
  unfold get_streak_channel. cbn [snd]. rewrite !guild_data_of_ensure_guild.
  rewrite !gd_set_streak_channel, !gd_unset_streak_channel.
  rewrite !String.eqb_refl. repeat split.
  intros Hnone. unfold guild_data_of. now rewrite Hnone.
Qed.

Lemma streak_channel_round_trip_witness :
  Dict.get (guilds_of empty_manager) "1" = None
  /\ snd (get_streak_channel empty_manager "1") = None.
Proof.
  split; [reflexivity|].
  exact (proj2 (proj2 (proj2 (proj2
           (streak_channel_round_trip empty_manager "1" "10" "11"))))
           eq_refl).
Defined.

Section StreakSteps.
Context {P : DateParser}.

Lemma updated_user_ok ud c : user_ok ud -> user_ok (updated_user ud c).
Proof.
  intros Hok. unfold updated_user.
  destruct (eq_opt_str (last_date ud) c); [exact Hok|].
  right. cbn [streak last_date]. split; [|discriminate].
  destruct (truthy (last_date ud)); [|lia].
  destruct (last_date ud) as [l|]; [|lia].
  destruct (days_between l c) as [diff|]; [|lia].
  destruct (diff =? 1); [|lia].
  destruct Hok as [[-> _]|[Hge _]]; lia.
Qed.

Lemma user_before_ok s g u : users_ok s -> user_ok (user_before s g u).
Proof.
  intros Hok. unfold user_before.
  destruct (user_record s g u) as [ud|] eqn:E.
  - exact (Hok g u ud E).
  - left. split; reflexivity.
Qed.

Lemma users_ok_call s c : users_ok s -> users_ok (call s c).
Proof.
  intros Hok g u ud Hrec.
  assert (call_user c <> Some (g, u) -> user_ok ud) as Hframe.
  { intros Hne. rewrite (user_record_call s c g u Hne) in Hrec.
    exact (Hok g u ud Hrec). }
  destruct c as [g0 ch|g0|g0|g0 u0 d|g0 u0|g0 days r|g0 days|g0|g0 u0|g0];
    try (apply Hframe; discriminate).
  - destruct (String.eqb_spec g0 g) as [<-|Hg];
      [|apply Hframe; cbn; congruence].
    destruct (String.eqb_spec u0 u) as [<-|Hu];
      [|apply Hframe; cbn; congruence].
    cbn [call] in Hrec. rewrite user_record_record_streak in Hrec.
    injection Hrec as <-. now apply updated_user_ok, user_before_ok.
  - destruct (String.eqb_spec g0 g) as [<-|Hg];
      [|apply Hframe; cbn; congruence].
    destruct (String.eqb_spec u0 u) as [<-|Hu];
      [|apply Hframe; cbn; congruence].
    cbn [call] in Hrec. unfold user_record in Hrec.
    rewrite users_of_remove_user_streak in Hrec.
    destruct (user_record s g0 u0) as [old|] eqn:E.
    + rewrite DictFacts.get_set_eq in Hrec. injection Hrec as <-.
      left. split; reflexivity.
    + fold (user_record s g0 u0) in Hrec. congruence.
Qed.

Lemma store_reachable_users_ok s : store_reachable s -> users_ok s.
Proof.
  induction 1 as [|s g c _ IH|s g _ IH|s g _ IH|s g u d _ IH|s g u _ IH
                  |s g days r _ IH|s g days _ IH|s g _ IH|s g u _ IH
                  |s g _ IH].
  - intros g u ud Hrec. discriminate Hrec.
  - exact (users_ok_call s (SetStreakChannel g c) IH).
  - exact (users_ok_call s (UnsetStreakChannel g) IH).
  - exact (users_ok_call s (GetStreakChannel g) IH).
  - exact (users_ok_call s (RecordStreak g u d) IH).
  - exact (users_ok_call s (RemoveUserStreak g u) IH).
  - exact (users_ok_call s (SetRoleReward g days r) IH).
  - exact (users_ok_call s (RemoveRoleReward g days) IH).
  - exact (users_ok_call s (GetRoleRewards g) IH).
  - exact (users_ok_call s (GetUserStreak g u) IH).
  - exact (users_ok_call s (GetLeaderboard g) IH).
Qed.

(** Read your writes: after [record_streak], [get_user_streak] returns the
    streak that the call returned and the stored date is the date of the
    call.  [get_user_streak] of a user without a record returns 0 and
    makes no record. *)
Theorem get_user_streak_after_record (s : StreakManager) (g u c : string) :
  snd (get_user_streak (fst (record_streak s g u c)) g u)
  = snd (record_streak s g u c)
  /\ last_date (user_before (fst (record_streak s g u c)) g u) = Some c
  /\ (user_record s g u = None ->
      snd (get_user_streak s g u) = 0
      /\ user_record (fst (get_user_streak s g u)) g u = None).
Proof.
  split; [|split].
  - now rewrite snd_get_user_streak, user_before_record_streak,
      snd_record_streak.
  - rewrite user_before_record_streak. apply last_date_updated_user.
  - intros Hnone. split.
    + rewrite snd_get_user_streak. unfold user_before. now rewrite Hnone.
    + rewrite fst_get_user_streak. unfold user_record.
      now rewrite users_of_ensure_guild.
Qed.

(** One call of [record_streak] keeps the streak (the stored date is the
    date of the call), or sets it to 1, or raises it by exactly one; it
    raises it only when both dates parse and the date of the call is the
    day after the stored one. *)
Theorem record_streak_step (s : StreakManager) (g u c : string) :
  let old := user_before s g u in
  let r := snd (record_streak s g u c) in
  (last_date old = Some c /\ r = streak old)
  \/ (last_date old <> Some c /\ r = 1)
  \/ (last_date old <> Some c /\ r = streak old + 1
      /\ exists l dl dc,
           last_date old = Some l /\ fromisoformat l = Some dl
           /\ fromisoformat c = Some dc
           /\ toordinal dc = toordinal dl + 1).
Proof.
  intros old r. subst r. rewrite snd_record_streak. fold old.
  unfold updated_user.
  destruct (last_date old) as [l|] eqn:Hl; cbn [eq_opt_str].
  - destruct (String.eqb_spec l c) as [->|Hne]; [left; now split|].
    assert (Some l <> Some c) as Hne' by congruence.
    cbn [streak]. destruct (truthy (Some l)); [|right; left; now split].
    unfold days_between.
    destruct (fromisoformat l) as [dl|] eqn:El; [|right; left; now split].
    destruct (fromisoformat c) as [dc|] eqn:Ec; [|right; left; now split].
    destruct (Z.eqb_spec (toordinal dc - toordinal dl) 1) as [Hd|Hd];
      [|right; left; now split].
    right; right. split; [exact Hne'|]. split; [reflexivity|].
    exists l, dl, dc. repeat split; auto. lia.
  - right; left. split; [discriminate|reflexivity].
Qed.

(** Every record that calls of the methods produce, from a start without
    a data file, is of one of two shapes: streak 0 without a date, or a
    streak of at least 1 with a date.  So [get_user_streak] is never
    negative, and it is 0 exactly for the users that have no date. *)
Theorem reachable_user_records (s : StreakManager) (g u : string) :
  store_reachable s ->
  user_ok (user_before s g u)
  /\ 0 <= snd (get_user_streak s g u)
  /\ (snd (get_user_streak s g u) = 0 <->
      last_date (user_before s g u) = None).
Proof.
  intros Hr. pose proof (user_before_ok s g u (store_reachable_users_ok s Hr))
    as Hok.
  split; [exact Hok|]. rewrite snd_get_user_streak.
  destruct Hok as [[H0 Hn]|[H1 Hs]].
  - rewrite H0, Hn. split; [lia|]. split; reflexivity.
  - split; [lia|]. split; [lia|congruence].
Qed.

End StreakSteps.

Lemma reachable_user_records_witness :
  let s := fst (record_streak (P := ymd_parser) empty_manager "1" "2"
                  "2024-02-28") in
  store_reachable (P := ymd_parser) s
  /\ 0 <= snd (get_user_streak s "1" "2").
Proof.
  intros s.
  assert (store_reachable (P := ymd_parser) s) as Hr
    by apply sr_record_streak, sr_start.
  split; [exact Hr|].
  exact (proj1 (proj2 (reachable_user_records (P := ymd_parser) s "1" "2" Hr))).
Defined.

Lemma get_user_streak_after_record_witness :
  user_record empty_manager "1" "2" = None
  /\ snd (get_user_streak empty_manager "1" "2") = 0.
Proof.
  split; [reflexivity|].
  exact (proj1 (proj2 (proj2 (get_user_streak_after_record (P := ymd_parser)
                                empty_manager "1" "2" "2024-02-28"))
                 eq_refl)).
Defined.

(* ================================================================== *)
(** * Beyond the claims: role rewards *)
(* ================================================================== *)

Module DictKeys.
Section Facts.
Context {V : Type}.
Implicit Types (d : Dict.t V) (k : string) (v : V).

Lemma keys_set d k v k' :
  In k' (map fst (Dict.set d k v)) -> k' = k \/ In k' (map fst d).
Proof.
  intros Hin. apply in_map_iff in Hin. destruct Hin as ([k1 v1] & <- & Hin).
  apply DictFacts.in_set in Hin. destruct Hin as [E|Hin].
  - injection E as -> ->. now left.
  - right. apply in_map_iff. now exists (k1, v1).
Qed.

Lemma nodup_set d k v :
  NoDup (map fst d) -> NoDup (map fst (Dict.set d k v)).
Proof.
  induction d as [|[k0 v0] r IH]; cbn [Dict.set map fst].
  - intros _. constructor; [intros []|constructor].
  - intros Hnd. inversion Hnd as [|? ? Hnotin Hr]; subst.
    destruct (String.eqb_spec k0 k) as [->|Hk]; cbn [map fst].
    + now constructor.
    + constructor; [|now apply IH].
      intros Hin. apply keys_set in Hin. destruct Hin; congruence.
Qed.

Lemma nodup_pop d k : NoDup (map fst d) -> NoDup (map fst (Dict.pop d k)).
Proof.
  induction d as [|[k0 v0] r IH]; cbn [Dict.pop map fst]; [auto|].
  intros Hnd. inversion Hnd as [|? ? Hnotin Hr]; subst.
  destruct (String.eqb k0 k); [exact Hr|]. cbn [map fst].
  constructor; [|now apply IH].
  intros Hin. apply Hnotin. apply in_map_iff in Hin.
  destruct Hin as ([k1 v1] & <- & Hin). apply DictFacts.in_pop in Hin.
  apply in_map_iff. now exists (k1, v1).
Qed.

Lemma get_none_notin d k : ~ In k (map fst d) -> Dict.get d k = None.
Proof.
  induction d as [|[k0 v0] r IH]; cbn [Dict.get map fst In]; [auto|].
  intros Hn. destruct (String.eqb_spec k0 k) as [->|Hk]; [tauto|].
  apply IH. tauto.
Qed.

Lemma get_pop_eq d k : NoDup (map fst d) -> Dict.get (Dict.pop d k) k = None.
Proof.
  induction d as [|[k0 v0] r IH]; cbn [Dict.pop map fst]; [auto|].
  intros Hnd. inversion Hnd as [|? ? Hnotin Hr]; subst.
  destruct (String.eqb_spec k0 k) as [->|Hk].
  - now apply get_none_notin.
  - cbn [Dict.get]. destruct (String.eqb_spec k0 k); [congruence|]. auto.
Qed.

Lemma get_pop_ne d k k' :
  k <> k' -> Dict.get (Dict.pop d k) k' = Dict.get d k'.
Proof.
  intros Hne. induction d as [|[k0 v0] r IH]; cbn [Dict.pop Dict.get]; [auto|].
  destruct (String.eqb_spec k0 k) as [->|Hk].
  - destruct (String.eqb_spec k k'); congruence.
  - cbn [Dict.get]. now rewrite IH.
Qed.

Lemma in_get d k v : NoDup (map fst d) -> In (k, v) d -> Dict.get d k = Some v.
Proof.
  induction d as [|[k0 v0] r IH]; cbn [Dict.get map fst In]; [tauto|].
  intros Hnd Hin. inversion Hnd as [|? ? Hnotin Hr]; subst.
  destruct Hin as [E|Hin].
  - injection E as -> ->. now rewrite String.eqb_refl.
  - destruct (String.eqb_spec k0 k) as [->|Hk]; [|auto].
    exfalso. apply Hnotin. apply in_map_iff. now exists (k, v).
Qed.

End Facts.
End DictKeys.

Lemma isdigit_py_str_negative n : n < 0 -> isdigit (py_str n) = false.
Proof. intros Hn. destruct n as [|p|p]; try lia. reflexivity. Qed.

Lemma isdigit_py_str_iff n : isdigit (py_str n) = true <-> 0 <= n.
Proof.
  split.
  - intros Hd. destruct (Z.lt_ge_cases n 0) as [Hneg|Hge]; [|exact Hge].
    rewrite isdigit_py_str_negative in Hd by assumption. discriminate.
  - apply isdigit_py_str.
Qed.

Lemma intdict_set_in_same {V} (d : IntDict.t V) k v : In (k, v) (IntDict.set d k v).
Proof.
  induction d as [|[k0 v0] r IH]; cbn [IntDict.set]; [now left|].
  destruct (Z.eqb_spec k0 k) as [->|Hk]; [now left|now right].
Qed.

Lemma intdict_set_in_other {V} (d : IntDict.t V) k v n w :
  In (n, w) d -> k <> n -> In (n, w) (IntDict.set d k v).
Proof.
  intros Hin Hne. induction d as [|[k0 v0] r IH]; cbn [IntDict.set];
    [destruct Hin|].
  destruct Hin as [E|Hin].
  - injection E as -> ->. destruct (Z.eqb_spec n k); [congruence|now left].
  - destruct (Z.eqb_spec k0 k); right; auto.
Qed.

Lemma int_keys_in_digit items : forall acc n v,
  In (n, v) (int_keys items acc) ->
  In (n, v) acc
  \/ exists k, In (k, v) items /\ isdigit k = true /\ py_int k = Some n.
Proof.
  induction items as [|[k0 v0] r IH]; intros acc n v Hin; cbn [int_keys] in Hin.
  - now left.
  - destruct (isdigit k0) eqn:Ed.
    + destruct (py_int k0) as [n0|] eqn:Ei.
      * destruct (IH _ n v Hin) as [Ha|(k & Hk & Hd & Hp)].
        -- apply intdict_in_set in Ha. destruct Ha as [E|Ha]; [|now left].
           injection E as -> ->. right. exists k0. split; [now left|auto].
        -- right. exists k. split; [now right|auto].
      * destruct (IH _ n v Hin) as [Ha|(k & Hk & Hd & Hp)]; [now left|].
        right. exists k. split; [now right|auto].
    + destruct (IH _ n v Hin) as [Ha|(k & Hk & Hd & Hp)]; [now left|].
      right. exists k. split; [now right|auto].
Qed.

Lemma int_keys_keeps items : forall acc n v,
  In (n, v) acc ->
  (forall k' v', In (k', v') items -> py_int k' <> Some n) ->
  In (n, v) (int_keys items acc).
Proof.
  induction items as [|[k0 v0] r IH]; intros acc n v Hin Hother;
    cbn [int_keys]; [exact Hin|].
  assert (forall k' v', In (k', v') r -> py_int k' <> Some n) as Hr
    by (intros k' v' H; apply (Hother k' v'); now right).
  destruct (isdigit k0); [|now apply IH].
  destruct (py_int k0) as [n0|] eqn:Ei; [|now apply IH].
  apply IH; [|exact Hr]. apply intdict_set_in_other; [exact Hin|].
  intros ->. apply (Hother k0 v0); [now left|exact Ei].
Qed.

Lemma int_keys_complete items : forall acc n v,
  NoDup (map fst items) ->
  (forall k w, In (k, w) items -> exists d, k = py_str d) ->
  In (py_str n, v) items -> 0 <= n ->
  In (n, v) (int_keys items acc).
Proof.
  induction items as [|[k0 v0] r IH]; intros acc n v Hnd Hcan Hin Hn;
    [destruct Hin|].
  inversion Hnd as [|? ? Hnotin Hr]; subst.
  assert (forall k w, In (k, w) r -> exists d, k = py_str d) as Hcanr
    by (intros k w H; apply (Hcan k w); now right).
  cbn [int_keys]. destruct Hin as [E|Hin].
  - injection E as -> ->.
    rewrite (isdigit_py_str n Hn), py_int_py_str.
    apply int_keys_keeps; [apply intdict_set_in_same|].
    intros k' v' Hin' Hp. destruct (Hcanr k' v' Hin') as (d & ->).
    rewrite py_int_py_str in Hp. injection Hp as ->.
    apply Hnotin. apply in_map_iff. now exists (py_str n, v').
  - destruct (isdigit k0); [|now apply IH].
    destruct (py_int k0); now apply IH.
Qed.

Lemma int_keys_set_not_digit items k v : forall acc,
  isdigit k = false ->
  int_keys (Dict.set items k v) acc = int_keys items acc.
Proof.
  induction items as [|[k0 v0] r IH]; intros acc Hk; cbn [Dict.set int_keys].
  - now rewrite Hk.
  - destruct (String.eqb_spec k0 k) as [->|Hne]; cbn [int_keys].
    + now rewrite Hk.
    + destruct (isdigit k0); [|now apply IH].
      destruct (py_int k0); now apply IH.
Qed.

Section RewardFacts.
Context {P : DateParser}.

Lemma rewards_canonical_call s c :
  rewards_canonical s -> rewards_canonical (call s c).
Proof.
  intros Hc g. rewrite rewards_of_call. destruct (Hc g) as [Hnd Hcan].
  destruct c as [g0 ch|g0|g0|g0 u0 d|g0 u0|g0 days r|g0 days|g0|g0 u0|g0];
    try (split; assumption);
    (destruct (String.eqb_spec g0 g) as [<-|Hg]; [|split; assumption]).
  - split; [now apply DictKeys.nodup_set|].
    intros k v Hin. apply DictFacts.in_set in Hin.
    destruct Hin as [E|Hin]; [injection E as -> ->; now exists days|eauto].
  - split; [now apply DictKeys.nodup_pop|].
    intros k v Hin. apply DictFacts.in_pop in Hin. eauto.
Qed.

Lemma store_reachable_rewards_canonical s :
  store_reachable s -> rewards_canonical s.
Proof.
  induction 1 as [|s g c _ IH|s g _ IH|s g _ IH|s g u d _ IH|s g u _ IH
                  |s g days r _ IH|s g days _ IH|s g _ IH|s g u _ IH
                  |s g _ IH].
  - intros g. split; [constructor|intros k v []].
  - exact (rewards_canonical_call s (SetStreakChannel g c) IH).
  - exact (rewards_canonical_call s (UnsetStreakChannel g) IH).
  - exact (rewards_canonical_call s (GetStreakChannel g) IH).
  - exact (rewards_canonical_call s (RecordStreak g u d) IH).
  - exact (rewards_canonical_call s (RemoveUserStreak g u) IH).
  - exact (rewards_canonical_call s (SetRoleReward g days r) IH).
  - exact (rewards_canonical_call s (RemoveRoleReward g days) IH).
  - exact (rewards_canonical_call s (GetRoleRewards g) IH).
  - exact (rewards_canonical_call s (GetUserStreak g u) IH).
  - exact (rewards_canonical_call s (GetLeaderboard g) IH).
Qed.

Lemma get_role_rewards_canonical s g n v :
  rewards_canonical s ->
  In (n, v) (snd (get_role_rewards s g)) <->
  0 <= n /\ Dict.get (role_rewards (guild_data_of s g)) (py_str n) = Some v.
Proof.
  intros Hc. destruct (Hc g) as [Hnd Hcan].
  unfold get_role_rewards. cbn [snd]. rewrite guild_data_of_ensure_guild.
  split.
  - intros Hin. apply int_keys_in_digit in Hin.
    destruct Hin as [[]|(k & Hin & Hd & Hp)].
    destruct (Hcan k v Hin) as (d & ->).
    rewrite py_int_py_str in Hp. injection Hp as ->.
    split; [now apply isdigit_py_str_iff|now apply DictKeys.in_get].
  - intros [Hn Hget]. apply int_keys_complete; auto.
    now apply DictFacts.get_in.
Qed.

(** In every state that calls of the methods lead to, from a start without
    a data file, [get_role_rewards] returns exactly the stored rewards
    whose threshold is not negative: the pair (n, role) is returned if
    and only if [n >= 0] and the role stored under [str(n)] is that
    role. *)
Theorem get_role_rewards_returns_stored (s : StreakManager) (g : string)
  (n : Z) (v : string) :
  store_reachable s ->
  In (n, v) (snd (get_role_rewards s g)) <->
  0 <= n /\ Dict.get (role_rewards (guild_data_of s g)) (py_str n) = Some v.
Proof.
  intros Hr. now apply get_role_rewards_canonical,
    store_reachable_rewards_canonical.
Qed.

(** [set_role_reward] is an upsert.  After it, for a threshold that is not
    negative, [get_role_rewards] maps the threshold to the new role and to
    no other, and every other threshold to what it was mapped to. *)
Theorem set_role_reward_upserts (s : StreakManager) (g : string) (days : Z)
  (r : string) :
  store_reachable s -> 0 <= days ->
  let after := snd (get_role_rewards (set_role_reward s g days r) g) in
  In (days, r) after
  /\ (forall v, In (days, v) after -> v = r)
  /\ (forall n v, n <> days ->
        In (n, v) after <-> In (n, v) (snd (get_role_rewards s g))).
Proof.
  intros Hr Hdays after.
  pose proof (store_reachable_rewards_canonical s Hr) as Hc.
  pose proof (rewards_canonical_call s (SetRoleReward g days r) Hc) as Hc'.
  cbn [call] in Hc'.
  assert (forall n v, In (n, v) after <->
            0 <= n /\ Dict.get (Dict.set (role_rewards (guild_data_of s g))
                                  (py_str days) r) (py_str n) = Some v)
    as Hafter.
  { intros n v. subst after. rewrite (get_role_rewards_canonical _ g n v Hc').
    now rewrite gd_set_role_reward, String.eqb_refl. }
  split; [|split].
  - apply Hafter. split; [exact Hdays|apply DictFacts.get_set_eq].
  - intros v Hin. apply Hafter in Hin. destruct Hin as [_ Hget].
    rewrite DictFacts.get_set_eq in Hget. congruence.
  - intros n v Hne. rewrite Hafter, (get_role_rewards_canonical s g n v Hc).
    rewrite DictFacts.get_set_ne; [reflexivity|].
    intros E. apply py_str_inj in E. congruence.
Qed.

(** After [remove_role_reward], [get_role_rewards] has no entry for the
    threshold, and every other threshold is mapped to what it was mapped
    to; removing a threshold that has no reward changes nothing in what
    [get_role_rewards] returns. *)
Theorem remove_role_reward_removes (s : StreakManager) (g : string) (days : Z) :
  store_reachable s ->
  let after := snd (get_role_rewards (remove_role_reward s g days) g) in
  (forall v, ~ In (days, v) after)
  /\ (forall n v, n <> days ->
        In (n, v) after <-> In (n, v) (snd (get_role_rewards s g))).
Proof.
  intros Hr after.
  pose proof (store_reachable_rewards_canonical s Hr) as Hc.
  pose proof (rewards_canonical_call s (RemoveRoleReward g days) Hc) as Hc'.
  cbn [call] in Hc'.
  assert (forall n v, In (n, v) after <->
            0 <= n /\ Dict.get (Dict.pop (role_rewards (guild_data_of s g))
                                  (py_str days)) (py_str n) = Some v)
    as Hafter.
  { intros n v. subst after. rewrite (get_role_rewards_canonical _ g n v Hc').
    now rewrite gd_remove_role_reward, String.eqb_refl. }
  split.
  - intros v Hin. apply Hafter in Hin. destruct Hin as [_ Hget].
    rewrite DictKeys.get_pop_eq in Hget; [discriminate|apply (Hc g)].
  - intros n v Hne. rewrite Hafter, (get_role_rewards_canonical s g n v Hc).
    rewrite DictKeys.get_pop_ne; [reflexivity|].
    intros E. apply py_str_inj in E. congruence.
Qed.

End RewardFacts.

(** A negative threshold given to [set_role_reward] is stored under a key
    that [get_role_rewards] filters out ([str] of it starts with a minus
    sign): in any state, what [get_role_rewards] returns is what it
    returned before, for every guild. *)
Theorem negative_threshold_is_hidden (s : StreakManager) (g g' : string)
  (days : Z) (r : string) :
  days < 0 ->
  snd (get_role_rewards (set_role_reward s g days r) g')
  = snd (get_role_rewards s g').
Proof.
  intros Hneg. unfold get_role_rewards. cbn [snd].
  rewrite !guild_data_of_ensure_guild, gd_set_role_reward.
  destruct (String.eqb_spec g g') as [<-|Hne]; [|reflexivity].
  cbn [with_rewards role_rewards].
  apply int_keys_set_not_digit. now apply isdigit_py_str_negative.
Qed.

Lemma negative_threshold_is_hidden_witness :
  -3 < 0
  /\ snd (get_role_rewards (set_role_reward empty_manager "1" (-3) "7") "1")
     = snd (get_role_rewards empty_manager "1").
Proof.
  assert (-3 < 0) as H by reflexivity. split; [exact H|].
  exact (negative_threshold_is_hidden empty_manager "1" "1" (-3) "7" H).
Defined.

Lemma get_role_rewards_returns_stored_witness :
  let s := set_role_reward empty_manager "1" 5 "7" in
  store_reachable (P := ymd_parser) s
  /\ (In (5, "7") (snd (get_role_rewards s "1")) <->
      0 <= 5
      /\ Dict.get (role_rewards (guild_data_of s "1")) (py_str 5) = Some "7").
Proof.
  intros s.
  assert (store_reachable (P := ymd_parser) s) as Hr
    by apply sr_set_role_reward, sr_start.
  split; [exact Hr|].
  exact (get_role_rewards_returns_stored (P := ymd_parser) s "1" 5 "7" Hr).
Defined.

Lemma set_role_reward_upserts_witness :
  let s := set_role_reward empty_manager "1" 5 "7" in
  store_reachable (P := ymd_parser) s
  /\ 0 <= 5
  /\ In (5, "8") (snd (get_role_rewards (set_role_reward s "1" 5 "8") "1")).
Proof.
  intros s.
  assert (store_reachable (P := ymd_parser) s) as Hr
    by apply sr_set_role_reward, sr_start.
  assert (0 <= 5) as H5 by discriminate.
  split; [exact Hr|]. split; [exact H5|].
  exact (proj1 (set_role_reward_upserts (P := ymd_parser) s "1" 5 "8" Hr H5)).
Defined.

Lemma remove_role_reward_removes_witness :
  let s := set_role_reward empty_manager "1" 5 "7" in
  store_reachable (P := ymd_parser) s
  /\ ~ In (5, "7") (snd (get_role_rewards (remove_role_reward s "1" 5) "1")).
Proof.
  intros s.
  assert (store_reachable (P := ymd_parser) s) as Hr
    by apply sr_set_role_reward, sr_start.
  split; [exact Hr|].
  exact (proj1 (remove_role_reward_removes (P := ymd_parser) s "1" 5 Hr) "7").
Defined.

(* ================================================================== *)
(** * Beyond the claims: the sweeper and the message handler *)
(* ================================================================== *)

Lemma get_bound_key {V} (d : Dict.t V) k :
  In k (Dict.keys d) -> Dict.get d k <> None.
Proof.
  unfold Dict.keys.
  induction d as [|[k0 v0] r IH]; cbn [map fst In Dict.get]; [tauto|].
  intros [->|Hin].
  - rewrite String.eqb_refl. discriminate.
  - destruct (String.eqb k0 k); [discriminate|auto].
Qed.

Section HandlerFacts.
Context {P : DateParser}.

Lemma sweep_guild_same now guilds s gs guild_id :
  _data s = Some gs -> Dict.get gs guild_id <> None ->
  fst (sweep_guild now guilds s guild_id) = s.
Proof.
  intros Hd Hg. unfold sweep_guild.
  destruct (py_int guild_id) as [gid|]; [|reflexivity].
  destruct (get_guild guilds gid) as [gobj|]; [|reflexivity].
  unfold get_role_rewards.
  destruct (Dict.get gs guild_id) as [gd|] eqn:E; [|congruence].
  rewrite (ensure_guild_known s gs guild_id gd Hd E).
  destruct (int_keys _ _); [reflexivity|].
  now destruct (int_all _).
Qed.

Lemma sweep_guilds_same now guilds s gs guild_ids :
  _data s = Some gs ->
  (forall guild_id, In guild_id guild_ids -> Dict.get gs guild_id <> None) ->
  fst (sweep_guilds now guilds s guild_ids) = s.
Proof.
  intros Hd. induction guild_ids as [|guild_id r IH]; intros Hall;
    [reflexivity|].
  cbn [sweep_guilds].
  pose proof (sweep_guild_same now guilds s gs guild_id Hd
                (Hall guild_id (or_introl eq_refl))) as H1.
  destruct (sweep_guild now guilds s guild_id) as [s1 [calls|]];
    cbn [fst] in H1; subst s1; [|reflexivity].
  assert (fst (sweep_guilds now guilds s r) = s) as H2
    by (apply IH; intros g Hin; apply Hall; now right).
  destruct (sweep_guilds now guilds s r) as [s2 [more|]]; exact H2.
Qed.

Lemma cleanup_same now guilds s : fst (cleanup_inactive_roles now guilds s) = s.
Proof.
  unfold cleanup_inactive_roles, guilds_of.
  destruct (_data s) as [gs|] eqn:Hd; [|reflexivity].
  apply (sweep_guilds_same now guilds s gs _ Hd).
  intros guild_id. apply get_bound_key.
Qed.

(** The sweeper only reads: a whole run of [cleanup_inactive_roles] leaves
    the manager as it was, in memory and in the file.  In particular it
    does not reset the streak of the users whose roles it takes away. *)
Theorem sweeper_leaves_manager (now : date) (guilds : list DiscordGuild)
  (s : StreakManager) :
  fst (cleanup_inactive_roles now guilds s) = s.
Proof. apply cleanup_same. Qed.

Lemma record_streak_ensure_guild s g u c :
  record_streak (ensure_guild s g) g u c = record_streak s g u c.
Proof.
  rewrite !record_streak_unfold. unfold user_before, user_record.
  now rewrite users_of_ensure_guild, guild_data_of_ensure_guild,
    ensure_guild_twice.
Qed.

Lemma ensure_guild_after_record s g u c :
  ensure_guild (fst (record_streak s g u c)) g = fst (record_streak s g u c).
Proof.
  rewrite record_streak_unfold. cbv zeta. cbn [fst].
  eapply ensure_guild_known; [reflexivity|].
  apply DictFacts.get_set_eq.
Qed.

(** For a message that carries no command (its text does not start with
    the prefix [!], so that [bot.process_commands] finds nothing to run)
    and whose text is ASCII: when it is not a tagged message of a human in
    the streak channel of its guild, the handler changes no user record,
    grants no role and does not touch the file. *)
Theorem on_message_ignores (s : StreakManager) (today : date)
  (message : Message) :
  startswith (content message) "!" = false ->
  is_ascii (content message) = true ->
  accepted s message = false ->
  snd (on_message s today message) = []
  /\ (forall g u, user_record (fst (on_message s today message)) g u
                  = user_record s g u)
  /\ file (fst (on_message s today message)) = file s.
Proof.
  unfold accepted, on_message, tagged. intros _ _ Hacc.
  destruct (author_bot message); [repeat split|].
  destruct (guild message) as [gobj|]; [|repeat split].
  unfold get_streak_channel. rewrite guild_data_of_ensure_guild.
  cbn [negb andb] in Hacc.
  assert (forall g u, user_record (ensure_guild s (py_str (guild_id_of gobj)))
                        g u = user_record s g u) as Hu
    by (intros g u; unfold user_record; now rewrite users_of_ensure_guild).
  destruct (streak_channel_id _) as [c|];
    [|split; [reflexivity|split; [exact Hu|apply file_ensure_guild]]].
  destruct (String.eqb _ c); cbn [negb andb] in *;
    [|split; [reflexivity|split; [exact Hu|apply file_ensure_guild]]].
  rewrite Hacc. cbn [negb].
  split; [reflexivity|split; [exact Hu|apply file_ensure_guild]].
Qed.

Lemma on_message_accepted (s : StreakManager) (today : date)
  (message : Message) :
  accepted s message = true ->
  exists g,
    guild message = Some g
    /\ let guild_id := py_str (guild_id_of g) in
       let user_id := py_str (author_id message) in
       let recorded := record_streak s guild_id user_id (isoformat today) in
       fst (on_message s today message) = fst recorded
       /\ snd (on_message s today message)
          = granted (roles_to_add g (snd (get_role_rewards s guild_id))
                       user_id (snd recorded)).
Proof.
  unfold accepted, on_message, tagged. intros Hacc.
  destruct (author_bot message); [discriminate|].
  destruct (guild message) as [gobj|]; [|discriminate].
  exists gobj. split; [reflexivity|]. cbv zeta.
  unfold get_streak_channel. rewrite guild_data_of_ensure_guild.
  cbn [negb andb] in Hacc.
  destruct (streak_channel_id _) as [c|]; [|discriminate].
  apply andb_prop in Hacc. destruct Hacc as [Hc Ht]. rewrite Hc, Ht.
  cbn [negb]. rewrite record_streak_ensure_guild.
  set (g := py_str (guild_id_of gobj)). set (u := py_str (author_id message)).
  pose proof (ensure_guild_after_record s g u (isoformat today)) as He.
  pose proof (gd_record_streak s g u (isoformat today) g) as Hgd.
  rewrite String.eqb_refl in Hgd.
  destruct (record_streak s g u (isoformat today)) as [s1 n] eqn:E.
  cbn [fst snd] in *. unfold get_role_rewards. rewrite He.
  split; [reflexivity|]. rewrite guild_data_of_ensure_guild, Hgd.
  reflexivity.
Qed.

(** A tagged message of a human in the streak channel of its guild has
    the effect of one [record_streak] for the author with today's date,
    and the roles granted are those the resolver computes from the
    rewards of the guild and the streak that call returned. *)
Theorem on_message_records (s : StreakManager) (today : date)
  (message : Message) :
  accepted s message = true ->
  exists g,
    guild message = Some g
    /\ let guild_id := py_str (guild_id_of g) in
       let user_id := py_str (author_id message) in
       let recorded := record_streak s guild_id user_id (isoformat today) in
       fst (on_message s today message) = fst recorded
       /\ snd (on_message s today message)
          = granted (roles_to_add g (snd (get_role_rewards s guild_id))
                       user_id (snd recorded)).
Proof. apply on_message_accepted. Qed.

End HandlerFacts.

Lemma on_message_ignores_witness :
  let s := set_streak_channel empty_manager "1" "10" in
  let m := {| author_bot := false; author_id := 2;
              guild := Some sweeper_example_guild; channel_id := 11;
              content := "Streak: day 1" |} in
  startswith (content m) "!" = false
  /\ is_ascii (content m) = true
  /\ accepted s m = false
  /\ snd (on_message (P := ymd_parser) s (mkdate 2024 2 29) m) = [].
Proof.
  intros s m. split; [reflexivity|]. split; [reflexivity|].
  split; [reflexivity|].
  exact (proj1 (on_message_ignores (P := ymd_parser) s (mkdate 2024 2 29) m
                  eq_refl eq_refl eq_refl)).
Defined.

Lemma on_message_records_witness :
  let s := set_streak_channel empty_manager "1" "10" in
  let m := {| author_bot := false; author_id := 2;
              guild := Some sweeper_example_guild; channel_id := 10;
              content := "  STREAK: day 1" |} in
  accepted s m = true
  /\ exists g,
       guild m = Some g
       /\ fst (on_message (P := ymd_parser) s (mkdate 2024 2 29) m)
          = fst (record_streak (P := ymd_parser) s (py_str (guild_id_of g))
                   (py_str (author_id m)) (isoformat (mkdate 2024 2 29))).
Proof.
  intros s m. split; [reflexivity|].
  destruct (on_message_records (P := ymd_parser) s (mkdate 2024 2 29) m eq_refl)
    as (g & Hg & Hs & _).
  exists g. split; [exact Hg|exact Hs].
Defined.

(* ================================================================== *)
(** * The inactivity sweeper, a whole run *)
(* ================================================================== *)

Lemma roles_to_remove_held guild_obj role_ids member_roles :
  roles_to_remove guild_obj role_ids member_roles
  = rewards_held guild_obj member_roles role_ids.
Proof.
  unfold rewards_held.
  induction role_ids as [|rid rest IH]; cbn [roles_to_remove filter];
    [reflexivity|].
  unfold get_role.
  destruct (mem rid (guild_roles guild_obj)) eqn:Hg.
  - apply mem_In in Hg.
    destruct (in_dec Z.eq_dec rid (guild_roles guild_obj)); [|contradiction].
    destruct (mem rid member_roles) eqn:Hm.
    + apply mem_In in Hm.
      destruct (in_dec Z.eq_dec rid member_roles); [|contradiction].
      now rewrite IH.
    + apply mem_false in Hm.
      destruct (in_dec Z.eq_dec rid member_roles); [contradiction|exact IH].
  - apply mem_false in Hg.
    destruct (in_dec Z.eq_dec rid (guild_roles guild_obj));
      [contradiction|exact IH].
Qed.

Lemma int_all_Forall2 l : forall ns,
  int_all l = Some ns <-> Forall2 (fun x n => py_int x = Some n) l ns.
Proof.
  induction l as [|x r IH]; intros ns; cbn [int_all].
  - split.
    + intros E. injection E as <-. constructor.
    + intros H. now inversion H.
  - split.
    + destruct (py_int x) as [n|] eqn:Ex; [|discriminate].
      destruct (int_all r) as [ms|] eqn:Er; [|discriminate].
      intros E. injection E as <-. constructor; [exact Ex|].
      now apply IH.
    + intros H. inversion H as [|? n ? ms Hx Hr]; subst.
      rewrite Hx. apply IH in Hr. now rewrite Hr.
Qed.

Section WholeSweep.
Context {P : DateParser}.

Lemma sweep_guild_spec now guilds s gs guild_id :
  _data s = Some gs -> Dict.get gs guild_id <> None ->
  py_int guild_id <> None ->
  (forall user_id data, In (user_id, data) (users_of s guild_id) ->
     py_int user_id <> None) ->
  (forall d role_id, In (d, role_id) (snd (get_role_rewards s guild_id)) ->
     py_int role_id <> None) ->
  exists calls,
    sweep_guild now guilds s guild_id = (s, Some calls)
    /\ forall uid roles, In (uid, roles) calls <->
         sweeper_revokes now guilds s guild_id uid roles.
Proof.
  intros Hd Hbound Hgid Husers Hroles.
  pose proof (sweep_guild_same now guilds s gs guild_id Hd Hbound) as Hsame.
  destruct (int_all_total (map snd (snd (get_role_rewards s guild_id))))
    as (role_ids & Hids).
  { intros x Hx. apply in_map_iff in Hx. destruct Hx as ([d rid] & <- & Hin).
    now apply (Hroles d rid). }
  pose proof (proj1 (int_all_Forall2 _ _) Hids) as Hall.
  assert (forall role_ids',
            Forall2 (fun role_id r => py_int role_id = Some r)
              (map snd (snd (get_role_rewards s guild_id))) role_ids' ->
            role_ids' = role_ids) as Hunique.
  { intros role_ids' H. apply int_all_Forall2 in H. congruence. }
  assert (exists calls,
            snd (sweep_guild now guilds s guild_id) = Some calls
            /\ forall uid roles, In (uid, roles) calls <->
                 sweeper_revokes now guilds s guild_id uid roles)
    as (calls & Hq & Hspec).
  { unfold sweeper_revokes.
    revert Hids Hall Hunique. unfold sweep_guild.
    destruct (py_int guild_id) as [gid|]; [|congruence].
    unfold get_role_rewards. cbn [snd].
    rewrite !guild_data_of_ensure_guild.
    set (rewards := int_keys (role_rewards (guild_data_of s guild_id)) []).
    fold (users_of s guild_id). intros Hids Hall Hunique.
    destruct (get_guild guilds gid) as [guild_obj|] eqn:Hg.
    - destruct rewards as [|e rest] eqn:Er.
      + exists []. split; [reflexivity|]. intros uid roles.
        split; [intros []|].
        intros (gid' & go & u & d & mr & ids & _ & _ & Hf & _ & _ & _ & _
                & -> & Hne).
        inversion Hf; subst. now apply Hne.
      + rewrite Hids. cbn [snd].
        destruct (sweep_users_spec now guild_obj role_ids
                    (users_of s guild_id) Husers) as (calls & Hq & Hspec).
        exists calls. split; [exact Hq|]. intros uid roles.
        rewrite Hspec. unfold held_reward_roles. split.
        * intros (u & d & Hin & Hu & Hi & Hr & Hne).
          destruct (get_member guild_obj uid) as [mr|] eqn:Hm;
            [|congruence].
          exists gid, guild_obj, u, d, mr, role_ids.
          rewrite roles_to_remove_held in Hr. repeat split; auto.
        * intros (gid' & go & u & d & mr & ids & Hg1 & Hg2 & Hf & Hin & Hu
                  & Hi & Hm & Hr & Hne).
          injection Hg1 as <-. rewrite Hg in Hg2. injection Hg2 as <-.
          apply Hunique in Hf. subst ids.
          exists u, d. rewrite Hm, roles_to_remove_held. auto.
    - exists []. split; [reflexivity|]. intros uid roles.
      split; [intros []|].
      intros (gid' & go & u & d & mr & ids & Hg1 & Hg2 & _).
      injection Hg1 as <-. congruence. }
  exists calls. split; [|exact Hspec].
  rewrite (surjective_pairing (sweep_guild now guilds s guild_id)).
  now rewrite Hsame, Hq.
Qed.

Lemma sweep_guilds_spec now guilds s gs guild_ids :
  _data s = Some gs ->
  (forall guild_id, In guild_id guild_ids ->
     Dict.get gs guild_id <> None /\ py_int guild_id <> None
     /\ (forall user_id data, In (user_id, data) (users_of s guild_id) ->
           py_int user_id <> None)
     /\ (forall d role_id,
           In (d, role_id) (snd (get_role_rewards s guild_id)) ->
           py_int role_id <> None)) ->
  exists calls,
    sweep_guilds now guilds s guild_ids = (s, Some calls)
    /\ forall uid roles, In (uid, roles) calls <->
         exists guild_id,
           In guild_id guild_ids
           /\ sweeper_revokes now guilds s guild_id uid roles.
Proof.
  intros Hd. induction guild_ids as [|guild_id rest IH]; intros Hall.
  - exists []. split; [reflexivity|]. intros uid roles.
    split; [intros []|intros (g & [] & _)].
  - destruct (Hall guild_id (or_introl eq_refl)) as (H1 & H2 & H3 & H4).
    destruct (sweep_guild_spec now guilds s gs guild_id Hd H1 H2 H3 H4)
      as (calls & Hq & Hspec).
    destruct IH as (more & Hq' & Hspec');
      [intros g Hin; apply Hall; now right|].
    exists (calls ++ more). cbn [sweep_guilds]. rewrite Hq, Hq'.
    split; [reflexivity|]. intros uid roles.
    rewrite in_app_iff, Hspec, Hspec'. split.
    + intros [H|(g & Hin & H)].
      * exists guild_id. split; [now left|exact H].
      * exists g. split; [now right|exact H].
    + intros (g & [<-|Hin] & H); [now left|]. right. now exists g.
Qed.

End WholeSweep.

(** C8.  A whole run of the sweeper, over a document whose guild, user and
    role ids are numbers, calls [member.remove_roles] exactly as follows:
    for each guild of the document that the platform knows, for each user
    of the guild whose stored date is set, parses and lies more than 7
    days before today, and who is a member, with the reward roles of the
    guild that the member holds, when there are any.  Nothing else is
    revoked: a user last active 7 days ago or less, or without a date,
    gets no call, and no role is taken that is not a reward role held by
    the member.  A guild with an empty reward mapping is skipped. *)
Theorem sweeper_selects_inactive {P : DateParser}
  (now : date) (guilds : list DiscordGuild) (s : StreakManager) :
  let guild_ids := Dict.keys (guilds_of s) in
  (forall guild_id, In guild_id guild_ids -> py_int guild_id <> None) ->
  (forall guild_id user_id data,
     In guild_id guild_ids -> In (user_id, data) (users_of s guild_id) ->
     py_int user_id <> None) ->
  (forall guild_id d role_id,
     In guild_id guild_ids ->
     In (d, role_id) (snd (get_role_rewards s guild_id)) ->
     py_int role_id <> None) ->
  (exists calls,
     snd (cleanup_inactive_roles now guilds s) = Some calls
     /\ forall uid roles, In (uid, roles) calls <->
          exists guild_id,
            In guild_id guild_ids
            /\ sweeper_revokes now guilds s guild_id uid roles)
  /\ (forall guild_id,
        In guild_id guild_ids -> snd (get_role_rewards s guild_id) = [] ->
        snd (sweep_guild now guilds s guild_id) = Some [])
  /\ (forall data,
        inactive now data = true <-> inactive_over_7_days now data).
Proof.
  intros guild_ids Hgids Husers Hroles.
  split; [|split; [|exact (inactive_iff now)]].
  - unfold cleanup_inactive_roles. subst guild_ids.
    destruct (_data s) as [gs|] eqn:Hd.
    + destruct (sweep_guilds_spec now guilds s gs (Dict.keys (guilds_of s)) Hd)
        as (calls & Hq & Hspec).
      { intros g Hin. split; [|split; [|split]].
        - apply get_bound_key. unfold guilds_of in Hin. now rewrite Hd in Hin.
        - now apply Hgids.
        - intros u d. now apply Husers.
        - intros d r. now apply Hroles. }
      exists calls. rewrite Hq. split; [reflexivity|exact Hspec].
    + unfold guilds_of. rewrite Hd. exists []. split; [reflexivity|].
      intros uid roles. split; [intros []|intros (g & [] & _)].
  - intros guild_id Hin Hempty.
    specialize (Hgids guild_id Hin). unfold sweep_guild.
    destruct (py_int guild_id) as [gid|]; [|congruence].
    destruct (get_guild guilds gid); [|reflexivity].
    rewrite (surjective_pairing (get_role_rewards s guild_id)), Hempty.
    reflexivity.
Qed.

Lemma sweeper_selects_inactive_witness :
  let now := mkdate 2024 2 29 in
  Dict.keys (guilds_of sweeper_example) = ["1"%string]
  /\ snd (cleanup_inactive_roles (P := ymd_parser) now [sweeper_example_guild]
            sweeper_example) = Some [(2, [7])]
  /\ exists calls,
       snd (cleanup_inactive_roles (P := ymd_parser) now
              [sweeper_example_guild] sweeper_example) = Some calls
       /\ forall uid roles, In (uid, roles) calls <->
            exists guild_id,
              In guild_id (Dict.keys (guilds_of sweeper_example))
              /\ sweeper_revokes (P := ymd_parser) now [sweeper_example_guild]
                   sweeper_example guild_id uid roles.
Proof.
  intros now. split; [reflexivity|]. split; [reflexivity|].
  refine (proj1 (sweeper_selects_inactive (P := ymd_parser) now
                   [sweeper_example_guild] sweeper_example _ _ _)).
  - intros guild_id [<-|[]]. discriminate.
  - intros guild_id user_id data [<-|[]] Hin. cbv in Hin.
    destruct Hin as [E|[E|[E|[]]]]; injection E as <- <-; discriminate.
  - intros guild_id d role_id [<-|[]] Hin. cbv in Hin.
    destruct Hin as [E|[]]. injection E as <- <-. discriminate.
Defined.

(* ================================================================== *)
(** * Beyond the claims: the tag, the resolver, the token, the board *)
(* ================================================================== *)

Lemma lstrip_split c :
  exists w, c = (w ++ lstrip c)%string /\ all_space w = true.
Proof.
  induction c as [|a r (w & Hw & Hs)]; cbn [lstrip].
  - now exists EmptyString.
  - destruct (is_space a) eqn:Ea.
    + exists (String a w). cbn [String.append]. split; [now f_equal|].
      unfold all_space in *. cbn [list_ascii_of_string forallb].
      now rewrite Ea.
    + now exists EmptyString.
Qed.

Lemma lstrip_all_space w x :
  all_space w = true -> lstrip (w ++ x) = lstrip x.
Proof.
  unfold all_space. induction w as [|a r IH];
    cbn [list_ascii_of_string forallb String.append]; [reflexivity|].
  intros Hs. apply andb_prop in Hs. destruct Hs as [Ha Hr].
  cbn [lstrip]. rewrite Ha. now apply IH.
Qed.

Lemma lower_app a b : lower (a ++ b) = (lower a ++ lower b)%string.
Proof.
  induction a as [|c r IH]; cbn [lower String.append]; [reflexivity|].
  now rewrite IH.
Qed.

Lemma prefix_app p x : String.prefix p (p ++ x) = true.
Proof.
  induction p as [|c r IH]; cbn [String.append]; [now destruct x|].
  cbn [String.prefix]. destruct (ascii_dec c c); [exact IH|congruence].
Qed.

Lemma prefix_lower p : forall x,
  String.prefix p (lower x) = true ->
  exists t rest, x = (t ++ rest)%string /\ lower t = p.
Proof.
  induction p as [|a p' IH]; intros x Hp.
  - now exists EmptyString, x.
  - destruct x as [|b x']; cbn [lower String.prefix] in Hp; [discriminate|].
    destruct (ascii_dec a (lower_char b)) as [->|]; [|discriminate].
    destruct (IH x' Hp) as (t & rest & -> & <-).
    now exists (String b t), rest.
Qed.

Lemma lower_s_not_space b : lower_char b = "s"%char -> is_space b = false.
Proof.
  destruct b as [[] [] [] [] [] [] [] []]; cbv; congruence.
Qed.

(** Among the ASCII texts, the tag test of [on_message] accepts exactly
    those that consist of any white space, then the word [streak:] in any
    mix of upper and lower case, then anything. *)
Theorem tagged_iff (content : string) :
  is_ascii content = true ->
  (tagged content = true <->
   exists w t rest,
     content = (w ++ t ++ rest)%string
     /\ all_space w = true /\ lower t = "streak:").
Proof.
  intros _. unfold tagged, startswith. split.
  - intros Hp. destruct (lstrip_split content) as (w & Hc & Hw).
    destruct (prefix_lower _ _ Hp) as (t & rest & Hl & Ht).
    exists w, t, rest. split; [|auto]. now rewrite <- Hl.
  - intros (w & t & rest & -> & Hw & Ht).
    rewrite (lstrip_all_space w _ Hw).
    destruct t as [|b t']; [discriminate|].
    cbn [lower] in Ht. injection Ht as Hb Ht'.
    cbn [String.append lstrip]. rewrite (lower_s_not_space b Hb).
    change (String b (t' ++ rest)%string) with ((String b t') ++ rest)%string.
    rewrite lower_app. cbn [lower]. rewrite Hb, Ht'. apply prefix_app.
Qed.

Lemma tagged_iff_witness :
  is_ascii "  STREAK: day 3" = true
  /\ (tagged "  STREAK: day 3" = true <->
      exists w t rest,
        "  STREAK: day 3"%string = (w ++ t ++ rest)%string
        /\ all_space w = true /\ lower t = "streak:"%string).
Proof.
  split; [reflexivity|].
  exact (tagged_iff "  STREAK: day 3" eq_refl).
Defined.

Lemma roles_to_add_from_sound guild member_roles streak_count items :
  forall acc roles,
  roles_to_add_from guild member_roles streak_count items acc = Some roles ->
  forall r, In r roles ->
    In r acc
    \/ (In r (guild_roles guild) /\ ~ In r member_roles
        /\ exists d role_id,
             In (d, role_id) items /\ d <= streak_count
             /\ py_int role_id = Some r).
Proof.
  induction items as [|[d0 rid0] rest IH]; intros acc roles Hq r Hin;
    cbn [roles_to_add_from] in Hq.
  - injection Hq as <-. now left.
  - assert (forall acc',
              roles_to_add_from guild member_roles streak_count rest acc'
              = Some roles ->
              (In r acc' ->
               In r acc
               \/ In r (guild_roles guild) /\ ~ In r member_roles
                  /\ d0 <= streak_count /\ py_int rid0 = Some r) ->
              In r acc
              \/ (In r (guild_roles guild) /\ ~ In r member_roles
                  /\ exists d role_id,
                       In (d, role_id) ((d0, rid0) :: rest)
                       /\ d <= streak_count /\ py_int role_id = Some r))
      as Hstep.
    { intros acc' Hq' Hacc. destruct (IH acc' roles Hq' r Hin)
        as [Ha|(H1 & H2 & d & rid & H3 & H4)].
      - destruct (Hacc Ha) as [Ha'|(H1 & H2 & H3 & H4)]; [now left|].
        right. split; [exact H1|]. split; [exact H2|].
        exists d0, rid0. split; [now left|auto].
      - right. split; [exact H1|]. split; [exact H2|].
        exists d, rid. split; [now right|exact H4]. }
    destruct (Z.leb_spec d0 streak_count) as [Hle|Hgt];
      [|apply (Hstep acc Hq); auto].
    destruct (py_int rid0) as [rid|] eqn:Ei; [|discriminate].
    destruct (get_role guild rid) as [role|] eqn:Hrole;
      [|apply (Hstep acc Hq); auto].
    apply get_role_Some in Hrole. destruct Hrole as [-> Hex].
    destruct (mem rid member_roles) eqn:Hm; cbn [negb] in Hq;
      [apply (Hstep acc Hq); auto|].
    apply mem_false in Hm. apply (Hstep _ Hq).
    intros Ha. apply in_app_iff in Ha. destruct Ha as [Ha|[<-|[]]];
      [now left|]. right. auto.
Qed.

(** The resolver never grants a role that the member holds, a role that
    does not exist in the guild, or a role whose threshold is above the
    streak; it grants nothing to an author who is not a member, and
    nothing when the guild has no rewards. *)
Theorem resolver_grants_are_sound (guild : DiscordGuild)
  (rewards : IntDict.t string) (user_id : string) (streak_count : Z) (r : Z) :
  In r (granted (roles_to_add guild rewards user_id streak_count)) ->
  In r (guild_roles guild)
  /\ (exists d role_id,
        In (d, role_id) rewards /\ d <= streak_count
        /\ py_int role_id = Some r)
  /\ exists uid member_roles,
       py_int user_id = Some uid
       /\ get_member guild uid = Some member_roles
       /\ ~ In r member_roles.
Proof.
  unfold roles_to_add, granted. intros Hin.
  destruct rewards as [|e rest]; [destruct Hin|].
  destruct (py_int user_id) as [uid|]; [|destruct Hin].
  destruct (get_member guild uid) as [mr|] eqn:Hm; [|destruct Hin].
  destruct (roles_to_add_from guild mr streak_count (e :: rest) [])
    as [roles|] eqn:Hq; [|destruct Hin].
  destruct (roles_to_add_from_sound guild mr streak_count (e :: rest) []
              roles Hq r Hin) as [[]|(H1 & H2 & H3)].
  split; [exact H1|]. split; [exact H3|]. now exists uid, mr.
Qed.

Lemma resolver_grants_are_sound_witness :
  let guild := {| guild_id_of := 1; guild_roles := [101; 102];
                  guild_members := [(2, [101])] |} in
  let rewards := [(5, "101"); (10, "102")] in
  In 102 (granted (roles_to_add guild rewards "2" 10))
  /\ In 102 (guild_roles guild).
Proof.
  intros guild rewards.
  assert (In 102 (granted (roles_to_add guild rewards "2" 10))) as Hin
    by (now left).
  split; [exact Hin|].
  exact (proj1 (resolver_grants_are_sound guild rewards "2" 10 102 Hin)).
Defined.

(** The resolver is monotone in the streak: with the same rewards, whose
    role ids are numbers, and the same member, every role granted at a
    streak is granted at every longer streak. *)
Theorem resolver_monotone (guild : DiscordGuild) (rewards : IntDict.t string)
  (user_id : string) (uid : Z) (member_roles : list Z) (s1 s2 : Z) (r : Z) :
  py_int user_id = Some uid ->
  get_member guild uid = Some member_roles ->
  (forall d role_id, In (d, role_id) rewards -> py_int role_id <> None) ->
  s1 <= s2 ->
  In r (granted (roles_to_add guild rewards user_id s1)) ->
  In r (granted (roles_to_add guild rewards user_id s2)).
Proof.
  intros Huid Hmember Hnum Hle. unfold roles_to_add.
  destruct rewards as [|e rest]; [auto|]. rewrite Huid, Hmember.
  destruct (roles_to_add_from_spec guild member_roles s1 (e :: rest) [] Hnum)
    as (l1 & -> & H1).
  destruct (roles_to_add_from_spec guild member_roles s2 (e :: rest) [] Hnum)
    as (l2 & -> & H2).
  cbn [granted]. rewrite H1, H2. intros [[]|[Hin Hex]]. right.
  split; [|exact Hex]. apply resolveGrants_in in Hin.
  apply resolveGrants_in. destruct Hin as (d & rid & Hin & Hd & Hp & Hn).
  exists d, rid. repeat split; auto. lia.
Qed.

Lemma resolver_monotone_witness :
  let guild := {| guild_id_of := 1; guild_roles := [101; 102];
                  guild_members := [(2, [])] |} in
  let rewards := [(5, "101"); (10, "102")] in
  py_int "2" = Some 2
  /\ 5 <= 10
  /\ In 101 (granted (roles_to_add guild rewards "2" 5))
  /\ In 101 (granted (roles_to_add guild rewards "2" 10)).
Proof.
  intros guild rewards.
  assert (5 <= 10) as Hle by discriminate.
  assert (In 101 (granted (roles_to_add guild rewards "2" 5))) as Hin
    by (now left).
  split; [reflexivity|]. split; [exact Hle|]. split; [exact Hin|].
  refine (resolver_monotone guild rewards "2" 2 [] 5 10 101 eq_refl eq_refl
            _ Hle Hin).
  intros d role_id [E|[E|[]]]; injection E as <- <-; discriminate.
Defined.










Lemma enumerate_snd {A} (l : list A) : forall k, map snd (enumerate k l) = l.
Proof.
  induction l as [|x r IH]; intros k; cbn [enumerate map snd]; [reflexivity|].
  now rewrite IH.
Qed.

Lemma enumerate_nth {A} (l : list A) : forall k i x,
  nth_error l i = Some x ->
  nth_error (enumerate k l) i = Some (k + Z.of_nat i, x).
Proof.
  induction l as [|y r IH]; intros k i x Hn.
  - destruct i; discriminate.
  - destruct i as [|i]; cbn [nth_error enumerate] in *.
    + injection Hn as ->. f_equal. f_equal. lia.
    + rewrite (IH (k + 1) i x Hn). f_equal. f_equal. lia.
Qed.

Lemma enumerate_length {A} (l : list A) : forall k,
  List.length (enumerate k l) = List.length l.
Proof.
  induction l as [|x r IH]; intros k; cbn [enumerate List.length];
    [reflexivity|]. now rewrite IH.
Qed.

Lemma sorted_app_le (l1 l2 : list (string * Z)) :
  StronglySorted by_streak_desc (l1 ++ l2) ->
  forall x y, In x l1 -> In y l2 -> snd y <= snd x.
Proof.
  induction l1 as [|a r IH]; intros Hs x y Hx Hy; [destruct Hx|].
  cbn [app] in Hs. inversion Hs as [|? ? Hr Ha]; subst.
  destruct Hx as [<-|Hx].
  - rewrite Forall_forall in Ha. apply (Ha y). apply in_app_iff. now right.
  - now apply (IH Hr x y).
Qed.

Lemma enumerate_nth_iff {A} (l : list A) : forall k i rank x,
  nth_error (enumerate k l) i = Some (rank, x) <->
  rank = k + Z.of_nat i /\ nth_error l i = Some x.
Proof.
  induction l as [|y r IH]; intros k i rank x.
  - destruct i; cbn [enumerate nth_error]; split;
      [discriminate|intros [_ H]; discriminate
      |discriminate|intros [_ H]; discriminate].
  - destruct i as [|i]; cbn [enumerate nth_error].
    + split.
      * intros E. injection E as <- <-. split; [lia|reflexivity].
      * intros [-> E]. injection E as <-. do 2 f_equal. lia.
    + rewrite IH. split; intros [-> H]; (split; [lia|exact H]).
Qed.

Lemma board_lines_total entries :
  (forall e, In e entries -> py_int (fst (snd e)) <> None) ->
  exists lines,
    board_lines entries = Some lines
    /\ List.length lines = List.length entries.
Proof.
  induction entries as [|[idx [user_id n]] r IH]; intros Hnum;
    cbn [board_lines].
  - now exists [].
  - destruct (py_int user_id) as [uid|] eqn:E;
      [|exfalso; apply (Hnum (idx, (user_id, n))); [now left|exact E]].
    destruct IH as (lines & -> & Hlen);
      [intros e He; apply Hnum; now right|].
    exists ((idx, (uid, n)) :: lines). split; [reflexivity|].
    cbn [List.length]. now rewrite Hlen.
Qed.

Lemma board_lines_nth entries : forall lines,
  board_lines entries = Some lines ->
  forall i rank uid n,
    nth_error lines i = Some (rank, (uid, n)) <->
    exists user_id,
      nth_error entries i = Some (rank, (user_id, n))
      /\ py_int user_id = Some uid.
Proof.
  induction entries as [|[idx [user_id0 n0]] r IH]; intros lines Hq;
    cbn [board_lines] in Hq.
  - injection Hq as <-. intros i rank uid n.
    destruct i; cbn [nth_error]; split;
      [discriminate|intros (u & H & _); discriminate
      |discriminate|intros (u & H & _); discriminate].
  - destruct (py_int user_id0) as [uid0|] eqn:E; [|discriminate].
    destruct (board_lines r) as [ls|] eqn:Er; [|discriminate].
    injection Hq as <-. intros i rank uid n.
    destruct i as [|i]; cbn [nth_error].
    + split.
      * intros H. injection H as <- <- <-. now exists user_id0.
      * intros (u & H & Hu). injection H as <- <- <-.
        rewrite E in Hu. now injection Hu as <-.
    + apply (IH ls eq_refl).
Qed.

(** The command [leaderboard] answers that no one has a streak if and only
    if no user of the guild has a positive streak.  When some user has one
    and the user ids are numbers, it shows one line for each of the first
    ten entries of the leaderboard, or for all when there are fewer: line
    [i], counted from 0, has the rank [i + 1], and the member id and the
    streak of entry [i].  The entries after the tenth have streaks no
    longer than those shown. *)
Theorem leaderboard_shows_top_ten (s : StreakManager) (guild_id : Z) :
  let board := snd (get_leaderboard s (py_str guild_id)) in
  let us := users_of s (py_str guild_id) in
  (snd (leaderboard s guild_id) = NoStreaks <->
   forall user_id data, In (user_id, data) us -> streak data <= 0)
  /\ ((forall user_id data, In (user_id, data) us -> py_int user_id <> None) ->
      (exists user_id data, In (user_id, data) us /\ 0 < streak data) ->
      exists lines,
        snd (leaderboard s guild_id) = Board lines
        /\ lines <> []
        /\ List.length lines = Nat.min 10 (List.length board)
        /\ forall i rank uid n,
             nth_error lines i = Some (rank, (uid, n)) <->
             (i < 10)%nat /\ rank = 1 + Z.of_nat i
             /\ exists user_id,
                  nth_error board i = Some (user_id, n)
                  /\ py_int user_id = Some uid)
  /\ (forall i j e e',
        (i < 10)%nat -> (10 <= j)%nat ->
        nth_error board i = Some e -> nth_error board j = Some e' ->
        snd e' <= snd e).
Proof.
  intros board us.
  assert (StronglySorted by_streak_desc board) as Hsorted.
  { subst board. unfold get_leaderboard. cbn [snd]. apply sort_desc_sorted. }
  assert (forall u n, In (u, n) board <->
            exists data, In (u, data) us /\ streak data = n /\ 0 < n)
    as Hboard.
  { intros u n. subst board us. unfold get_leaderboard. cbn [snd].
    rewrite guild_data_of_ensure_guild. fold (users_of s (py_str guild_id)).
    assert (In (u, n) (sort_desc (positive_streaks
                                    (users_of s (py_str guild_id))))
            <-> In (u, n) (positive_streaks (users_of s (py_str guild_id))))
      as ->.
    { split; apply Permutation_in;
        [apply sort_desc_perm|apply Permutation_sym, sort_desc_perm]. }
    rewrite positive_streaks_filter, in_map_iff. split.
    - intros ([u' data] & E & Hf). injection E as <- <-.
      apply filter_In in Hf. destruct Hf as [Hin Hpos]. cbn [fst snd] in *.
      exists data. repeat split; [exact Hin|lia].
    - intros (data & Hin & <- & Hpos). exists (u, data).
      split; [reflexivity|]. apply filter_In. split; [exact Hin|].
      cbn [snd]. lia. }
  assert (board = [] <->
          forall user_id data, In (user_id, data) us -> streak data <= 0)
    as Hempty.
  { split.
    - intros Hnil user_id data Hin.
      destruct (Z.ltb_spec 0 (streak data)) as [Hpos|Hle]; [|exact Hle].
      assert (In (user_id, streak data) board) as Hb
        by (apply Hboard; now exists data).
      rewrite Hnil in Hb. destruct Hb.
    - intros Hall. destruct board as [|[u n] rest] eqn:Eb; [reflexivity|].
      destruct (proj1 (Hboard u n) (or_introl eq_refl))
        as (data & Hin & <- & Hpos).
      specialize (Hall u data Hin). lia. }
  assert (snd (leaderboard s guild_id)
          = match board with
            | [] => NoStreaks
            | _ => match board_lines (enumerate 1 (firstn 10 board)) with
                   | Some lines => Board lines
                   | None => LeaderboardRaised
                   end
            end) as Hreply.
  { subst board. unfold leaderboard.
    destruct (get_leaderboard s (py_str guild_id)) as [s1 data]. cbn [snd].
    destruct data; [reflexivity|].
    now destruct (board_lines _). }
  split; [|split].
  - rewrite <- Hempty, Hreply. destruct board as [|e rest].
    + split; reflexivity.
    + split; [|discriminate].
      destruct (board_lines _); discriminate.
  - intros Hnum (u0 & d0 & Hin0 & Hpos0).
    assert (board <> []) as Hne.
    { intros Hnil. pose proof (proj1 Hempty Hnil u0 d0 Hin0). lia. }
    destruct (board_lines_total (enumerate 1 (firstn 10 board)))
      as (lines & Hq & Hlen).
    { intros [idx [u n]] He. cbn [fst snd].
      assert (In (u, n) (firstn 10 board)) as Hf.
      { rewrite <- (enumerate_snd (firstn 10 board) 1).
        apply in_map_iff. now exists (idx, (u, n)). }
      rewrite <- (firstn_skipn 10 board) in Hboard.
      destruct (proj1 (Hboard u n)) as (data & Hin & _);
        [apply in_app_iff; now left|].
      now apply (Hnum u data). }
    rewrite enumerate_length, length_firstn in Hlen.
    exists lines. rewrite Hreply, Hq.
    split; [now destruct board|]. split; [|split; [exact Hlen|]].
    + intros ->. cbn [List.length] in Hlen. destruct board; [congruence|].
      cbn [List.length] in Hlen. lia.
    + intros i rank uid n. rewrite (board_lines_nth _ lines Hq). split.
      * intros (u & Hn & Hu). apply enumerate_nth_iff in Hn.
        destruct Hn as [-> Hn]. rewrite nth_error_firstn in Hn.
        destruct (Nat.ltb_spec i 10) as [Hlt|]; [|discriminate].
        split; [exact Hlt|]. split; [reflexivity|]. now exists u.
      * intros (Hlt & -> & u & Hn & Hu). exists u. split; [|exact Hu].
        apply enumerate_nth_iff. split; [reflexivity|].
        rewrite nth_error_firstn.
        now destruct (Nat.ltb_spec i 10) as [_|Hge]; [|lia].
  - intros i j e e' Hi Hj Hn Hn'.
    rewrite <- (firstn_skipn 10 board) in Hsorted.
    apply (sorted_app_le _ _ Hsorted).
    + apply (nth_error_In _ i). rewrite nth_error_firstn.
      now destruct (Nat.ltb_spec i 10) as [_|Hge]; [|lia].
    + apply (nth_error_In _ (j - 10)). rewrite nth_error_skipn.
      now replace (10 + (j - 10))%nat with j by lia.
Qed.

Lemma leaderboard_shows_top_ten_witness :
  let s := fst (record_streak (P := ymd_parser) empty_manager "1" "2"
                  "2024-02-28") in
  (exists user_id data,
     In (user_id, data) (users_of s (py_str 1)) /\ 0 < streak data)
  /\ snd (leaderboard s 1) = Board [(1, (2, 1))]
  /\ exists lines, snd (leaderboard s 1) = Board lines /\ lines <> [].
Proof.
  intros s.
  assert (exists user_id data,
            In (user_id, data) (users_of s (py_str 1)) /\ 0 < streak data)
    as Hpos.
  { exists "2"%string, {| streak := 1; last_date := Some "2024-02-28"%string |}.
    split; [now left|reflexivity]. }
  split; [exact Hpos|]. split; [reflexivity|].
  destruct (proj1 (proj2 (leaderboard_shows_top_ten s 1))) as (lines & Hq & Hne & _).
  - intros user_id data Hin. cbv in Hin.
    destruct Hin as [E|[]]. injection E as <- <-. discriminate.
  - exact Hpos.
  - exists lines. split; [exact Hq|exact Hne].
Defined.

(* ================================================================== *)
(** * Beyond the claims: the bot as a client of the manager *)
(* ================================================================== *)

Section BotFacts.
Context {P : DateParser}.

Lemma store_reachable_call s c : store_reachable s -> store_reachable (call s c).
Proof.
  intros Hr. destruct c; cbn [call]; now constructor.
Qed.

Lemma store_reachable_ensure_guild s g :
  store_reachable s -> store_reachable (ensure_guild s g).
Proof. intros Hr. exact (sr_get_streak_channel s g Hr). Qed.

Lemma store_reachable_handle s e :
  store_reachable s -> store_reachable (handle s e).
Proof.
  intros Hr. destruct e; cbn [handle].
  - now constructor.
  - now constructor.
  - now constructor.
  - now constructor.
  - unfold add_role. destruct (days <=? 0); [exact Hr|now constructor].
  - now constructor.
  - now constructor.
  - now constructor.
  - unfold on_message.
    destruct (author_bot message); [exact Hr|].
    destruct (guild message) as [gobj|]; [|exact Hr].
    unfold get_streak_channel.
    pose proof (store_reachable_ensure_guild s (py_str (guild_id_of gobj)) Hr)
      as Hr1.
    destruct (streak_channel_id _) as [c|]; [|exact Hr1].
    destruct (negb (String.eqb _ c)); [exact Hr1|].
    destruct (negb (startswith _ _)); [exact Hr1|].
    destruct (record_streak _ _ _ _) as [s2 n] eqn:E.
    assert (store_reachable s2) as Hr2.
    { change s2 with (fst (s2, n)). rewrite <- E. now constructor. }
    unfold get_role_rewards. cbn [fst].
    now apply store_reachable_ensure_guild.
  - now rewrite cleanup_same.
Qed.

(** The bot changes the document only through the methods of the manager:
    every state it reaches is one that calls of the methods lead to.  So
    in every state of the bot a streak is never negative, and it is 0
    exactly for the users without a date. *)
Theorem bot_states_are_store_states (s : StreakManager) (g u : string) :
  reachable s ->
  store_reachable s
  /\ 0 <= snd (get_user_streak s g u)
  /\ (snd (get_user_streak s g u) = 0 <->
      last_date (user_before s g u) = None).
Proof.
  intros Hr.
  assert (store_reachable s) as Hs.
  { induction Hr as [|s e _ IH]; [apply sr_start|].
    now apply store_reachable_handle. }
  split; [exact Hs|].
  pose proof (user_before_ok s g u (store_reachable_users_ok s Hs)) as Hok.
  rewrite snd_get_user_streak.
  destruct Hok as [[H0 Hn]|[H1 Hd]].
  - rewrite H0, Hn. split; [lia|]. split; reflexivity.
  - split; [lia|]. split; [lia|congruence].
Qed.

(** A read of a guild without a record leaves a record that the next
    saving call, about any guild, writes to the file: a process started
    on that file has a record of the guild. *)
Theorem read_is_saved_by_next_write (s : StreakManager) (g : string)
  (c : Call) :
  saves c = true ->
  Dict.get (guilds_of (restart (call (fst (get_streak_channel s g)) c))) g
  <> None.
Proof.
  intros Hs. set (s1 := fst (get_streak_channel s g)).
  destruct (saves_shape s1 c Hs) as (x & E).
  assert (guilds_of (restart (call s1 c)) = guilds_of (call s1 c)) as ->
    by (rewrite E; exact (proj1 (load_data_facts x))).
  destruct (String.eqb_spec (call_guild c) g) as [<-|Hne].
  - rewrite get_call_same. discriminate.
  - rewrite (get_call_other s1 c g Hne). subst s1.
    unfold get_streak_channel. cbn [fst].
    now rewrite get_ensure_guild_same.
Qed.

(** End to end: for a tagged message of a member in the streak channel,
    when the role ids of the rewards are numbers, the roles granted are
    exactly the roles of the thresholds that the streak just recorded has
    reached, that exist in the guild and that the author does not hold. *)
Theorem on_message_grants_reached_rewards (s : StreakManager) (today : date)
  (message : Message) (g : DiscordGuild) (member_roles : list Z) :
  accepted s message = true ->
  guild message = Some g ->
  get_member g (author_id message) = Some member_roles ->
  let guild_id := py_str (guild_id_of g) in
  let user_id := py_str (author_id message) in
  let rewards := snd (get_role_rewards s guild_id) in
  let streak_count :=
    snd (record_streak s guild_id user_id (isoformat today)) in
  (forall d role_id, In (d, role_id) rewards -> py_int role_id <> None) ->
  forall r,
    In r (snd (on_message s today message)) <->
    In r (guild_roles g) /\ ~ In r member_roles
    /\ exists d role_id,
         In (d, role_id) rewards /\ d <= streak_count
         /\ py_int role_id = Some r.
Proof.
  intros Hacc Hg Hmember guild_id user_id rewards streak_count Hnum r.
  destruct (on_message_accepted s today message Hacc) as (g' & Hg' & _ & Hq).
  rewrite Hg in Hg'. injection Hg' as <-. cbv zeta in Hq. rewrite Hq.
  fold guild_id user_id rewards streak_count.
  unfold roles_to_add. subst user_id. rewrite py_int_py_str, Hmember.
  destruct rewards as [|e rest] eqn:Er.
  - cbn [granted In]. split; [tauto|]. intros (_ & _ & d & rid & [] & _).
  - destruct (roles_to_add_from_spec g member_roles streak_count (e :: rest)
                [] Hnum) as (roles & -> & Hspec).
    cbn [granted]. rewrite Hspec, resolveGrants_in. cbn [In]. split.
    + intros [[]|[(d & rid & H1 & H2 & H3 & H4) H5]].
      split; [exact H5|]. split; [exact H4|]. now exists d, rid.
    + intros (H5 & H4 & d & rid & H1 & H2 & H3). right.
      split; [|exact H5]. now exists d, rid.
Qed.

End BotFacts.

Lemma bot_states_are_store_states_witness :
  let s := handle (P := ymd_parser) empty_manager (CmdAddRole 1 5 7) in
  reachable (P := ymd_parser) s
  /\ store_reachable (P := ymd_parser) s.
Proof.
  intros s.
  assert (reachable (P := ymd_parser) s) as Hr
    by apply reachable_step, reachable_start.
  split; [exact Hr|].
  exact (proj1 (bot_states_are_store_states (P := ymd_parser) s "1" "2" Hr)).
Defined.

Lemma read_is_saved_by_next_write_witness :
  let c := SetStreakChannel "2" "10" in
  saves c = true
  /\ Dict.get
       (guilds_of
          (restart (call (P := ymd_parser)
                      (fst (get_streak_channel empty_manager "1")) c))) "1"
     <> None.
Proof.
  intros c. split; [reflexivity|].
  exact (read_is_saved_by_next_write (P := ymd_parser) empty_manager "1" c
           eq_refl).
Defined.

Lemma on_message_grants_reached_rewards_witness :
  let s := set_role_reward (set_streak_channel empty_manager "1" "10")
             "1" 1 "7" in
  let m := {| author_bot := false; author_id := 2;
              guild := Some {| guild_id_of := 1; guild_roles := [7];
                               guild_members := [(2, [])] |};
              channel_id := 10; content := "Streak: day 1" |} in
  accepted s m = true
  /\ (In 7 (snd (on_message (P := ymd_parser) s (mkdate 2024 2 29) m)) <->
      In 7 [7] /\ ~ In 7 []
      /\ exists d role_id,
           In (d, role_id) (snd (get_role_rewards s "1"))
           /\ d <= snd (record_streak (P := ymd_parser) s "1" "2"
                          (isoformat (mkdate 2024 2 29)))
           /\ py_int role_id = Some 7).
Proof.
  intros s m. split; [reflexivity|].
  refine (on_message_grants_reached_rewards (P := ymd_parser) s
            (mkdate 2024 2 29) m _ [] eq_refl eq_refl eq_refl _ 7).
  intros d role_id Hin. cbv in Hin.
  destruct Hin as [E|[]]. injection E as <- <-. discriminate.
Defined.
